(** * umodel_tools: the map importer ([umodel_tools/map_importer.py])

    A shallow embedding of the entity classifiers ([StaticMesh], [GameLight]),
    of the placement code ([link_object_instance], [import_light]) and of the
    scene assembler ([MapImporter._import_map]), with the properties the
    specification states about them.

    Conventions of the embedding.
    - A value loaded by [json.load] is a [json] term.  A JSON number is a
      binary64 [float]; an integer literal is represented by the float of the
      same value (exact below 2^53, where Python's [int / int], [int * -1] and
      the int-to-float coercions agree with the float operations).  An
      integer beyond that range has no counterpart here: the statements about
      numbers are statements about binary64 values.
    - A Python dict is an association list read by first match
      ([dict_lookup]); the parser has already resolved duplicate keys.
    - Python exceptions are the [Raise] results of the [result] type; code
      that touches the Blender data ([bpy]) runs in the state-and-exception
      monad [M] over a [World].
    - What belongs to other packages is an interface: [mathutils] (matrices,
      quaternion to Euler), [os.path], and the asset loader of the base class
      [AssetImporter].  Printing and the progress bar have no model. *)

From Stdlib Require Import ZArith List String Ascii Bool Floats Lia.
Import ListNotations.

#[local] Set Warnings "-inexact-float".

Local Open Scope string_scope.
Local Open Scope list_scope.

(** ** Python values and exceptions *)

#[local] Unset Elimination Schemes.
Inductive json : Type :=
| JNull
| JBool (b : bool)
| JNum (f : float)
| JStr (s : string)
| JArr (items : list json)
| JObj (fields : list (string * json)).
#[local] Set Elimination Schemes.

Inductive exn : Type :=
| TypeError
| AttributeError
| UnboundLocalError
| RuntimeError
| ReferenceError
| OSError
| JSONDecodeError.

Inductive result (A : Type) : Type :=
| Ok (a : A)
| Raise (e : exn).
Arguments Ok {A} a.
Arguments Raise {A} e.

Definition rbind {A B} (r : result A) (k : A -> result B) : result B :=
  match r with
  | Ok a => k a
  | Raise e => Raise e
  end.

Declare Scope py_scope.
Delimit Scope py_scope with py.
Notation "x <- e ;; k" := (rbind e (fun x => k))
  (at level 100, e at next level, right associativity) : py_scope.
Local Open Scope py_scope.

Definition vec3 : Type := float * float * float.
Definition pyvec3 : Type := json * json * json.

Fixpoint dict_lookup (k : string) (kvs : list (string * json)) : option json :=
  match kvs with
  | [] => None
  | (k', v) :: rest => if String.eqb k k' then Some v else dict_lookup k rest
  end.

(** [o.get(k, d)]: only a dict has the method. *)
Definition py_get (o : json) (k : string) (d : json) : result json :=
  match o with
  | JObj kvs => Ok (match dict_lookup k kvs with Some v => v | None => d end)
  | _ => Raise AttributeError
  end.

Definition is_none (v : json) : bool :=
  match v with JNull => true | _ => false end.

Definition bool_float (b : bool) : float := if b then 1%float else 0%float.

(** [bool(v)] *)
Definition truthy (v : json) : bool :=
  match v with
  | JNull => false
  | JBool b => b
  | JNum f => negb (PrimFloat.eqb f 0)
  | JStr s => negb (String.eqb s "")
  | JArr l => match l with [] => false | _ => true end
  | JObj l => match l with [] => false | _ => true end
  end.

(** [v == s] for a string literal [s] *)
Definition eq_str (v : json) (s : string) : bool :=
  match v with JStr s' => String.eqb s' s | _ => false end.

(** Coercion of an argument to a C double (ints, bools and floats pass). *)
Definition as_float (v : json) : result float :=
  match v with
  | JNum f => Ok f
  | JBool b => Ok (bool_float b)
  | _ => Raise TypeError
  end.

(** [v / d] for a float constant [d] different from zero *)
Definition py_truediv (v : json) (d : float) : result float :=
  f <- as_float v ;; Ok (f / d)%float.

(** [v * -1]: numbers are negated, sequences repeated zero times. *)
Definition py_mul_neg1 (v : json) : result json :=
  match v with
  | JNum f => Ok (JNum (f * -1)%float)
  | JBool b => Ok (JNum (bool_float b * -1)%float)
  | JStr _ => Ok (JStr "")
  | JArr _ => Ok (JArr [])
  | JNull | JObj _ => Raise TypeError
  end.

(** [math.pi] and [math.radians]: [x * (pi / 180)] in double precision. *)
Definition math_pi : float := 0x1.921fb54442d18p+1%float.
Definition degToRad : float := (math_pi / 180)%float.

Definition math_radians (v : json) : result float :=
  f <- as_float v ;; Ok (f * degToRad)%float.

Fixpoint contains (needle hay : string) : bool :=
  String.prefix needle hay
  || match hay with
     | EmptyString => false
     | String _ rest => contains needle rest
     end.

(** [needle in v] *)
Definition py_in (needle : string) (v : json) : result bool :=
  match v with
  | JStr s => Ok (contains needle s)
  | JArr l => Ok (existsb (fun x => eq_str x needle) l)
  | JObj kvs => Ok (existsb (fun kv => String.eqb (fst kv) needle) kvs)
  | _ => Raise TypeError
  end.

(** Iteration of a [for] loop over a loaded value. *)
Fixpoint chars (s : string) : list json :=
  match s with
  | EmptyString => []
  | String c rest => JStr (String c EmptyString) :: chars rest
  end.

Definition py_iter (v : json) : result (list json) :=
  match v with
  | JArr l => Ok l
  | JObj kvs => Ok (map (fun kv => JStr (fst kv)) kvs)
  | JStr s => Ok (chars s)
  | _ => Raise TypeError
  end.

Definition vec_of_py (v : pyvec3) : result vec3 :=
  let '(a, b, c) := v in
  x <- as_float a ;; y <- as_float b ;; z <- as_float c ;; Ok (x, y, z).

(** ** Interfaces of the other packages *)

(** [mathutils]: [Matrix.LocRotScale] of a location, an XYZ Euler and a scale,
    the matrix product [@], and [Quaternion((w, x, y, z)).to_euler()]. *)
Class Mathutils : Type := {
  Matrix : Type;
  LocRotScale : vec3 -> vec3 -> vec3 -> Matrix;
  matmul : Matrix -> Matrix -> Matrix;
  Quaternion_to_euler : float * float * float * float -> vec3
}.

(** [os.path.normpath], [os.path.basename] and [os.sep].  What
    [os.path.exists] answers is part of the file argument of [_import_map]. *)
Class OsPath : Type := {
  normpath : string -> string;
  basename : string -> string;
  sep : string
}.

(** The linked asset: the name and the data block of the object that
    [AssetImporter._load_asset] returns, [None] when the asset is missing. *)
Record Asset : Type := { asset_name : string; asset_data : nat }.

Class AssetLoader : Type := {
  _load_asset : string -> option Asset
}.

(** ** split_object_path *)

(** [s.split(".")] *)
Fixpoint split_period (s : string) : list string :=
  match s with
  | EmptyString => [EmptyString]
  | String c rest =>
      if Ascii.eqb c "."%char then EmptyString :: split_period rest
      else match split_period rest with
           | h :: t => String c h :: t
           | [] => [String c EmptyString]
           end
  end.

Definition split_object_path (object_path : json) : result string :=
  match object_path with
  | JStr s =>
      let path_parts := split_period s in
      if Nat.ltb 1 (List.length path_parts)
      then Ok (hd EmptyString path_parts)
      else Ok s
  | _ => Raise AttributeError
  end.

(** The position expression of the four classifier sites:
    [(pos.get("X") / 100, pos.get("Y") / -100, pos.get("Z") / 100)]. *)
Definition convert_position (pos : json) : result vec3 :=
  vx <- py_get pos "X" JNull ;; x <- py_truediv vx 100 ;;
  vy <- py_get pos "Y" JNull ;; y <- py_truediv vy (-100) ;;
  vz <- py_get pos "Z" JNull ;; z <- py_truediv vz 100 ;;
  Ok (x, y, z).

(** [(scale.get("X", 1), scale.get("Y", 1), scale.get("Z", 1))] *)
Definition convert_scale (scale : json) : result pyvec3 :=
  x <- py_get scale "X" (JNum 1) ;;
  y <- py_get scale "Y" (JNum 1) ;;
  z <- py_get scale "Z" (JNum 1) ;;
  Ok (x, y, z).

(** ** InstanceTransform *)

Module InstanceTransform.

Record t : Type := {
  pos : vec3;
  rot_euler : vec3;
  scale : pyvec3
}.

Definition __init__ : t :=
  {| pos := (0, 0, 0)%float;
     rot_euler := (0, 0, 0)%float;
     scale := (JNum 1, JNum 1, JNum 1) |}.

Definition set_pos (p : vec3) (trs : t) : t :=
  {| pos := p; rot_euler := rot_euler trs; scale := scale trs |}.
Definition set_rot_euler (r : vec3) (trs : t) : t :=
  {| pos := pos trs; rot_euler := r; scale := scale trs |}.
Definition set_scale (s : pyvec3) (trs : t) : t :=
  {| pos := pos trs; rot_euler := rot_euler trs; scale := s |}.

Definition matrix_4x4 `{Mathutils} (trs : t) : result Matrix :=
  s <- vec_of_py (scale trs) ;;
  Ok (LocRotScale (pos trs) (rot_euler trs) s).

End InstanceTransform.

(** ** The Blender data ([bpy]) *)

Module bpy.

(** [obj.data]: the mesh data block of a linked asset, or a light created by
    [bpy.data.lights.new]. *)
Inductive ObData : Type :=
| MeshData (d : nat)
| LightData (i : nat).

(** An attribute is [None] as long as the importer has not assigned it (it
    then has Blender's default). *)
Record Object `{Mathutils} : Type := {
  name : string;
  data : ObData;
  scale : option vec3;
  location : option vec3;
  rotation_mode : option string;
  rotation_euler : option vec3;
  matrix_world : option Matrix
}.

Record Light : Type := {
  light_name : string;
  light_type : string;
  color : option vec3
}.

Record Collection : Type := {
  coll_name : string;
  objects : list nat;
  children : list nat
}.

(** [bpy.data.objects], [bpy.data.lights], the collections (index
    [scene_collection] is [bpy.context.scene.collection], the others are
    [bpy.data.collections]) and the number of timers registered. *)
Record World `{Mathutils} : Type := {
  data_objects : list Object;
  data_lights : list Light;
  collections : list Collection;
  timers : nat
}.

Definition scene_collection : nat := 0.

End bpy.

Section BlenderMonad.
Context `{MU : Mathutils}.

Definition M (A : Type) : Type := bpy.World -> result A * bpy.World.

Definition ret {A} (a : A) : M A := fun w => (Ok a, w).
Definition throw {A} (e : exn) : M A := fun w => (Raise e, w).
Definition bind {A B} (m : M A) (k : A -> M B) : M B :=
  fun w => match m w with
           | (Ok a, w') => k a w'
           | (Raise e, w') => (Raise e, w')
           end.
Definition lift {A} (r : result A) : M A := fun w => (r, w).

End BlenderMonad.

Notation "x <~ e ;; k" := (bind e (fun x => k))
  (at level 100, e at next level, right associativity) : py_scope.

Fixpoint update_nth {A} (i : nat) (f : A -> A) (l : list A) : list A :=
  match l, i with
  | [], _ => []
  | x :: rest, O => f x :: rest
  | x :: rest, S j => x :: update_nth j f rest
  end.

Section BlenderOps.
Context `{MU : Mathutils}.

Definition with_objects (l : list bpy.Object) (w : bpy.World) : bpy.World :=
  {| bpy.data_objects := l; bpy.data_lights := bpy.data_lights w;
     bpy.collections := bpy.collections w; bpy.timers := bpy.timers w |}.
Definition with_lights (l : list bpy.Light) (w : bpy.World) : bpy.World :=
  {| bpy.data_objects := bpy.data_objects w; bpy.data_lights := l;
     bpy.collections := bpy.collections w; bpy.timers := bpy.timers w |}.
Definition with_collections (l : list bpy.Collection) (w : bpy.World) : bpy.World :=
  {| bpy.data_objects := bpy.data_objects w; bpy.data_lights := bpy.data_lights w;
     bpy.collections := l; bpy.timers := bpy.timers w |}.
Definition with_timers (n : nat) (w : bpy.World) : bpy.World :=
  {| bpy.data_objects := bpy.data_objects w; bpy.data_lights := bpy.data_lights w;
     bpy.collections := bpy.collections w; bpy.timers := n |}.

Definition new_object (name : string) (data : bpy.ObData) : bpy.Object :=
  {| bpy.name := name; bpy.data := data; bpy.scale := None; bpy.location := None;
     bpy.rotation_mode := None; bpy.rotation_euler := None; bpy.matrix_world := None |}.

(** [bpy.data.objects.new(name, object_data=data)]: the handle is the index. *)
Definition data_objects_new (name : string) (data : bpy.ObData) : M nat :=
  fun w => (Ok (List.length (bpy.data_objects w)),
            with_objects (bpy.data_objects w ++ [new_object name data]) w).

Definition update_object (o : nat) (f : bpy.Object -> bpy.Object) : M unit :=
  fun w => (Ok tt, with_objects (update_nth o f (bpy.data_objects w)) w).

Definition ob_set_scale (o : nat) (v : vec3) : M unit :=
  update_object o (fun ob =>
    {| bpy.name := bpy.name ob; bpy.data := bpy.data ob; bpy.scale := Some v;
       bpy.location := bpy.location ob; bpy.rotation_mode := bpy.rotation_mode ob;
       bpy.rotation_euler := bpy.rotation_euler ob;
       bpy.matrix_world := bpy.matrix_world ob |}).
Definition ob_set_location (o : nat) (v : vec3) : M unit :=
  update_object o (fun ob =>
    {| bpy.name := bpy.name ob; bpy.data := bpy.data ob; bpy.scale := bpy.scale ob;
       bpy.location := Some v; bpy.rotation_mode := bpy.rotation_mode ob;
       bpy.rotation_euler := bpy.rotation_euler ob;
       bpy.matrix_world := bpy.matrix_world ob |}).
Definition ob_set_rotation_mode (o : nat) (m : string) : M unit :=
  update_object o (fun ob =>
    {| bpy.name := bpy.name ob; bpy.data := bpy.data ob; bpy.scale := bpy.scale ob;
       bpy.location := bpy.location ob; bpy.rotation_mode := Some m;
       bpy.rotation_euler := bpy.rotation_euler ob;
       bpy.matrix_world := bpy.matrix_world ob |}).
Definition ob_set_rotation_euler (o : nat) (v : vec3) : M unit :=
  update_object o (fun ob =>
    {| bpy.name := bpy.name ob; bpy.data := bpy.data ob; bpy.scale := bpy.scale ob;
       bpy.location := bpy.location ob; bpy.rotation_mode := bpy.rotation_mode ob;
       bpy.rotation_euler := Some v;
       bpy.matrix_world := bpy.matrix_world ob |}).
Definition ob_set_matrix_world (o : nat) (m : Matrix) : M unit :=
  update_object o (fun ob =>
    {| bpy.name := bpy.name ob; bpy.data := bpy.data ob; bpy.scale := bpy.scale ob;
       bpy.location := bpy.location ob; bpy.rotation_mode := bpy.rotation_mode ob;
       bpy.rotation_euler := bpy.rotation_euler ob;
       bpy.matrix_world := Some m |}).

(** [bpy.data.lights.new(name=..., type=...)] *)
Definition data_lights_new (name type : string) : M nat :=
  fun w => (Ok (List.length (bpy.data_lights w)),
            with_lights (bpy.data_lights w
                         ++ [{| bpy.light_name := name; bpy.light_type := type;
                                bpy.color := None |}]) w).

Definition light_set_color (i : nat) (c : vec3) : M unit :=
  fun w => (Ok tt,
            with_lights (update_nth i (fun l =>
              {| bpy.light_name := bpy.light_name l; bpy.light_type := bpy.light_type l;
                 bpy.color := Some c |}) (bpy.data_lights w)) w).

(** [bpy.data.collections.new(name)] *)
Definition data_collections_new (name : string) : M nat :=
  fun w => (Ok (List.length (bpy.collections w)),
            with_collections (bpy.collections w
                              ++ [{| bpy.coll_name := name; bpy.objects := [];
                                     bpy.children := [] |}]) w).

(** [collection.objects.link(obj)]: Blender refuses an object that the
    collection already holds. *)
Definition objects_link (c o : nat) : M unit :=
  fun w => match nth_error (bpy.collections w) c with
           | None => (Raise ReferenceError, w)
           | Some col =>
               if existsb (Nat.eqb o) (bpy.objects col) then (Raise RuntimeError, w)
               else (Ok tt,
                     with_collections (update_nth c (fun col =>
                       {| bpy.coll_name := bpy.coll_name col;
                          bpy.objects := bpy.objects col ++ [o];
                          bpy.children := bpy.children col |}) (bpy.collections w)) w)
           end.

(** [collection.children.link(child)] *)
Definition children_link (c child : nat) : M unit :=
  fun w => match nth_error (bpy.collections w) c with
           | None => (Raise ReferenceError, w)
           | Some col =>
               if existsb (Nat.eqb child) (bpy.children col) then (Raise RuntimeError, w)
               else (Ok tt,
                     with_collections (update_nth c (fun col =>
                       {| bpy.coll_name := bpy.coll_name col;
                          bpy.objects := bpy.objects col;
                          bpy.children := bpy.children col ++ [child] |})
                       (bpy.collections w)) w)
           end.

(** [bpy.app.timers.register(...)] *)
Definition timers_register : M unit :=
  fun w => (Ok tt, with_timers (S (bpy.timers w)) w).

End BlenderOps.

(** ** StaticMesh *)

Module StaticMesh.

Definition static_mesh_types : list string :=
  ["StaticMeshComponent";
   "InstancedStaticMeshComponent";
   "HierarchicalInstancedStaticMeshComponent"].

(** [transform] has no class-level default: it is unset ([None]) until the
    constructor reaches the assignment. *)
Record t : Type := {
  entity_name : json;
  asset_path : string;
  transform : option InstanceTransform.t;
  instance_transforms : list InstanceTransform.t;
  no_entity : bool;
  no_mesh : bool;
  no_path : bool;
  no_per_instance_data : bool;
  base_shape : bool;
  is_instanced : bool;
  not_rendered : bool;
  invisible : bool;
  bad_creation_method : bool
}.

(** The object right after [self.entity_name = ...] and
    [self.instance_transforms = []]: every flag has its class default. *)
Definition fresh (name : json) : t :=
  {| entity_name := name; asset_path := ""; transform := None;
     instance_transforms := [];
     no_entity := false; no_mesh := false; no_path := false;
     no_per_instance_data := false; base_shape := false;
     is_instanced := false; not_rendered := false; invisible := false;
     bad_creation_method := false |}.

Definition set_no_entity (self : t) : t :=
  {| entity_name := entity_name self; asset_path := asset_path self;
     transform := transform self; instance_transforms := instance_transforms self;
     no_entity := true; no_mesh := no_mesh self; no_path := no_path self;
     no_per_instance_data := no_per_instance_data self; base_shape := base_shape self;
     is_instanced := is_instanced self; not_rendered := not_rendered self;
     invisible := invisible self; bad_creation_method := bad_creation_method self |}.

Definition set_no_mesh (self : t) : t :=
  {| entity_name := entity_name self; asset_path := asset_path self;
     transform := transform self; instance_transforms := instance_transforms self;
     no_entity := no_entity self; no_mesh := true; no_path := no_path self;
     no_per_instance_data := no_per_instance_data self; base_shape := base_shape self;
     is_instanced := is_instanced self; not_rendered := not_rendered self;
     invisible := invisible self; bad_creation_method := bad_creation_method self |}.

Definition set_no_path (self : t) : t :=
  {| entity_name := entity_name self; asset_path := asset_path self;
     transform := transform self; instance_transforms := instance_transforms self;
     no_entity := no_entity self; no_mesh := no_mesh self; no_path := true;
     no_per_instance_data := no_per_instance_data self; base_shape := base_shape self;
     is_instanced := is_instanced self; not_rendered := not_rendered self;
     invisible := invisible self; bad_creation_method := bad_creation_method self |}.

Definition set_no_per_instance_data (self : t) : t :=
  {| entity_name := entity_name self; asset_path := asset_path self;
     transform := transform self; instance_transforms := instance_transforms self;
     no_entity := no_entity self; no_mesh := no_mesh self; no_path := no_path self;
     no_per_instance_data := true; base_shape := base_shape self;
     is_instanced := is_instanced self; not_rendered := not_rendered self;
     invisible := invisible self; bad_creation_method := bad_creation_method self |}.

Definition set_base_shape (self : t) : t :=
  {| entity_name := entity_name self; asset_path := asset_path self;
     transform := transform self; instance_transforms := instance_transforms self;
     no_entity := no_entity self; no_mesh := no_mesh self; no_path := no_path self;
     no_per_instance_data := no_per_instance_data self; base_shape := true;
     is_instanced := is_instanced self; not_rendered := not_rendered self;
     invisible := invisible self; bad_creation_method := bad_creation_method self |}.

Definition set_is_instanced (self : t) : t :=
  {| entity_name := entity_name self; asset_path := asset_path self;
     transform := transform self; instance_transforms := instance_transforms self;
     no_entity := no_entity self; no_mesh := no_mesh self; no_path := no_path self;
     no_per_instance_data := no_per_instance_data self; base_shape := base_shape self;
     is_instanced := true; not_rendered := not_rendered self;
     invisible := invisible self; bad_creation_method := bad_creation_method self |}.

Definition set_not_rendered (self : t) : t :=
  {| entity_name := entity_name self; asset_path := asset_path self;
     transform := transform self; instance_transforms := instance_transforms self;
     no_entity := no_entity self; no_mesh := no_mesh self; no_path := no_path self;
     no_per_instance_data := no_per_instance_data self; base_shape := base_shape self;
     is_instanced := is_instanced self; not_rendered := true;
     invisible := invisible self; bad_creation_method := bad_creation_method self |}.

Definition set_invisible (self : t) : t :=
  {| entity_name := entity_name self; asset_path := asset_path self;
     transform := transform self; instance_transforms := instance_transforms self;
     no_entity := no_entity self; no_mesh := no_mesh self; no_path := no_path self;
     no_per_instance_data := no_per_instance_data self; base_shape := base_shape self;
     is_instanced := is_instanced self; not_rendered := not_rendered self;
     invisible := true; bad_creation_method := bad_creation_method self |}.

Definition set_bad_creation_method (self : t) : t :=
  {| entity_name := entity_name self; asset_path := asset_path self;
     transform := transform self; instance_transforms := instance_transforms self;
     no_entity := no_entity self; no_mesh := no_mesh self; no_path := no_path self;
     no_per_instance_data := no_per_instance_data self; base_shape := base_shape self;
     is_instanced := is_instanced self; not_rendered := not_rendered self;
     invisible := invisible self; bad_creation_method := true |}.

Definition set_asset_path (p : string) (self : t) : t :=
  {| entity_name := entity_name self; asset_path := p;
     transform := transform self; instance_transforms := instance_transforms self;
     no_entity := no_entity self; no_mesh := no_mesh self; no_path := no_path self;
     no_per_instance_data := no_per_instance_data self; base_shape := base_shape self;
     is_instanced := is_instanced self; not_rendered := not_rendered self;
     invisible := invisible self; bad_creation_method := bad_creation_method self |}.

Definition set_transform (trs : InstanceTransform.t) (self : t) : t :=
  {| entity_name := entity_name self; asset_path := asset_path self;
     transform := Some trs; instance_transforms := instance_transforms self;
     no_entity := no_entity self; no_mesh := no_mesh self; no_path := no_path self;
     no_per_instance_data := no_per_instance_data self; base_shape := base_shape self;
     is_instanced := is_instanced self; not_rendered := not_rendered self;
     invisible := invisible self; bad_creation_method := bad_creation_method self |}.

Definition set_instance_transforms (l : list InstanceTransform.t) (self : t) : t :=
  {| entity_name := entity_name self; asset_path := asset_path self;
     transform := transform self; instance_transforms := l;
     no_entity := no_entity self; no_mesh := no_mesh self; no_path := no_path self;
     no_per_instance_data := no_per_instance_data self; base_shape := base_shape self;
     is_instanced := is_instanced self; not_rendered := not_rendered self;
     invisible := invisible self; bad_creation_method := bad_creation_method self |}.

(** [(math.radians(rot.get("Roll")), math.radians(rot.get("Pitch") * -1),
      math.radians(rot.get("Yaw") * -1))] *)
Definition convert_rotation (rot : json) : result vec3 :=
  vr <- py_get rot "Roll" JNull ;; r <- math_radians vr ;;
  vp <- py_get rot "Pitch" JNull ;; np <- py_mul_neg1 vp ;; p <- math_radians np ;;
  vy <- py_get rot "Yaw" JNull ;; ny <- py_mul_neg1 vy ;; y <- math_radians ny ;;
  Ok (r, p, y).

(** The transform of the component itself, from [RelativeLocation],
    [RelativeRotation] and [RelativeScale3D] (the same statements in both
    arms of the [match]). *)
Definition base_transform (props : json) : result InstanceTransform.t :=
  let trs := InstanceTransform.__init__ in
  pos <- py_get props "RelativeLocation" JNull ;;
  trs <- (if negb (is_none pos)
          then p <- convert_position pos ;; Ok (InstanceTransform.set_pos p trs)
          else Ok trs) ;;
  rot <- py_get props "RelativeRotation" JNull ;;
  trs <- (if negb (is_none rot)
          then r <- convert_rotation rot ;; Ok (InstanceTransform.set_rot_euler r trs)
          else Ok trs) ;;
  scale <- py_get props "RelativeScale3D" JNull ;;
  trs <- (if negb (is_none scale)
          then s <- convert_scale scale ;; Ok (InstanceTransform.set_scale s trs)
          else Ok trs) ;;
  Ok trs.

(** The quaternion of an instance: [Quaternion((W, X, Y, Z)).to_euler()],
    then [(-e.x, e.y, -e.z)]. *)
Definition convert_quaternion `{Mathutils} (rot : json) : result vec3 :=
  vw <- py_get rot "W" JNull ;; vx <- py_get rot "X" JNull ;;
  vy <- py_get rot "Y" JNull ;; vz <- py_get rot "Z" JNull ;;
  w <- as_float vw ;; x <- as_float vx ;; y <- as_float vy ;; z <- as_float vz ;;
  let '(ex, ey, ez) := Quaternion_to_euler (w, x, y, z) in
  Ok (- ex, ey, - ez)%float.

(** The body of the loop over [PerInstanceSMData]. *)
Definition instance_transform `{Mathutils} (instance : json) : result InstanceTransform.t :=
  let trs := InstanceTransform.__init__ in
  trs_data <- py_get instance "TransformData" JNull ;;
  if negb (is_none trs_data) then
    pos <- py_get trs_data "Translation" JNull ;;
    trs <- (if negb (is_none pos)
            then p <- convert_position pos ;; Ok (InstanceTransform.set_pos p trs)
            else Ok trs) ;;
    rot <- py_get trs_data "Rotation" JNull ;;
    trs <- (if negb (is_none rot)
            then r <- convert_quaternion rot ;; Ok (InstanceTransform.set_rot_euler r trs)
            else Ok trs) ;;
    scale <- py_get trs_data "Scale3D" JNull ;;
    trs <- (if negb (is_none scale)
            then s <- convert_scale scale ;; Ok (InstanceTransform.set_scale s trs)
            else Ok trs) ;;
    Ok trs
  else Ok trs.

Fixpoint instance_loop `{Mathutils} (instances : list json) (self : t) : result t :=
  match instances with
  | [] => Ok self
  | instance :: rest =>
      trs <- instance_transform instance ;;
      instance_loop rest
        (set_instance_transforms (instance_transforms self ++ [trs]) self)
  end.

(** [StaticMesh.__init__(json_entity, entity_type)] *)
Definition __init__ `{Mathutils} `{OsPath} (json_entity : json) (entity_type : string)
  : result t :=
  name <- py_get json_entity "Outer" (JStr "Error") ;;
  let self := fresh name in
  props <- py_get json_entity "Properties" JNull ;;
  if negb (truthy props) then Ok (set_no_entity self) else
  mesh <- py_get props "StaticMesh" JNull ;;
  if negb (truthy mesh) then Ok (set_no_mesh self) else
  mesh <- py_get props "StaticMesh" JNull ;;
  object_path <- py_get mesh "ObjectPath" JNull ;;
  if negb (truthy object_path) || eq_str object_path "" then Ok (set_no_path self) else
  basic <- py_in "BasicShapes" object_path ;;
  if basic then Ok (set_base_shape self) else
  render_in_main_pass <- py_get props "bRenderInMainPass" JNull ;;
  if negb (is_none render_in_main_pass) && negb (truthy render_in_main_pass)
  then Ok (set_not_rendered self) else
  is_visbile <- py_get props "bVisible" JNull ;;
  let self := if negb (is_none is_visbile) && negb (truthy is_visbile)
              then set_invisible self else self in
  creation_method <- py_get props "CreationMethod" JNull ;;
  let self := if negb (is_none creation_method)
                 && eq_str creation_method "EComponentCreationMethod::UserConstructionScript"
              then set_bad_creation_method self else self in
  objpath <- split_object_path object_path ;;
  let self := set_asset_path (normpath (objpath ++ ".uasset")) self in
  let self := set_asset_path
                (if String.prefix sep (asset_path self)
                 then String.substring 1 (String.length (asset_path self) - 1) (asset_path self)
                 else asset_path self) self in
  if String.eqb entity_type "StaticMeshComponent" then
    trs <- base_transform props ;;
    Ok (set_transform trs self)
  else if String.eqb entity_type "InstancedStaticMeshComponent"
          || String.eqb entity_type "HierarchicalInstancedStaticMeshComponent" then
    let self := set_is_instanced self in
    instances <- py_get json_entity "PerInstanceSMData" JNull ;;
    if is_none instances then Ok (set_no_per_instance_data self) else
    trs <- base_transform props ;;
    let self := set_transform trs self in
    items <- py_iter instances ;;
    instance_loop items self
  else Ok self.

Definition invalid (self : t) : bool :=
  no_path self || no_entity self || base_shape self || no_mesh self
  || no_per_instance_data self || not_rendered self || invisible self
  || bad_creation_method self.

(** The loop of the instanced branch of [link_object_instance]. *)
Fixpoint link_instances `{Mathutils} (trs : InstanceTransform.t) (obj : Asset)
    (collection : nat) (instance_transforms : list InstanceTransform.t)
    (objects : list nat) : M (list nat) :=
  match instance_transforms with
  | [] => ret objects
  | instance_trs :: rest =>
      mb <~ lift (InstanceTransform.matrix_4x4 trs) ;;
      mi <~ lift (InstanceTransform.matrix_4x4 instance_trs) ;;
      let mat_world := matmul mb mi in
      new_obj <~ data_objects_new (asset_name obj) (bpy.MeshData (asset_data obj)) ;;
      _ <~ ob_set_rotation_mode new_obj "XYZ" ;;
      _ <~ ob_set_matrix_world new_obj mat_world ;;
      _ <~ objects_link collection new_obj ;;
      link_instances trs obj collection rest (objects ++ [new_obj])
  end.

Definition link_object_instance `{Mathutils} (self : t) (obj : Asset) (collection : nat)
  : M (list nat) :=
  if invalid self then ret [] else
  match transform self with
  | None => throw AttributeError
  | Some trs =>
      if is_instanced self then
        link_instances trs obj collection (instance_transforms self) []
      else
        new_obj <~ data_objects_new (asset_name obj) (bpy.MeshData (asset_data obj)) ;;
        s <~ lift (vec_of_py (InstanceTransform.scale trs)) ;;
        _ <~ ob_set_scale new_obj s ;;
        _ <~ ob_set_location new_obj (InstanceTransform.pos trs) ;;
        _ <~ ob_set_rotation_mode new_obj "XYZ" ;;
        _ <~ ob_set_rotation_euler new_obj (InstanceTransform.rot_euler trs) ;;
        _ <~ objects_link collection new_obj ;;
        ret [new_obj]
  end.

End StaticMesh.


(** ** GameLight *)

Module GameLight.

Definition light_types : list string :=
  ["SpotLightComponent"; "PointLightComponent"].

Record t : Type := {
  type : json;
  entity_name : json;
  pos : vec3;
  rot : pyvec3;
  scale : pyvec3;
  color : vec3;
  no_entity : bool
}.

Definition color_temp_table_r : list (float * float * float) :=
  [ (2.52432244e+03, -1.06185848e-03, 3.11067539e+00);
    (3.37763626e+03, -4.34581697e-04, 1.64843306e+00);
    (4.10671449e+03, -8.61949938e-05, 6.41423749e-01);
    (4.66849800e+03, 2.85655028e-05, 1.29075375e-01);
    (4.60124770e+03, 2.89727618e-05, 1.48001316e-01);
    (3.78765709e+03, 9.36026367e-06, 3.98995841e-01) ]%float.

Definition color_temp_table_g : list (float * float * float) :=
  [ (-7.50343014e+02, 3.15679613e-04, 4.73464526e-01);
    (-1.00402363e+03, 1.29189794e-04, 9.08181524e-01);
    (-1.22075471e+03, 2.56245413e-05, 1.20753416e+00);
    (-1.42546105e+03, -4.01730887e-05, 1.44002695e+00);
    (-1.18134453e+03, -2.18913373e-05, 1.30656109e+00);
    (-5.00279505e+02, -4.59745390e-06, 1.09090465e+00) ]%float.

Definition color_temp_table_b : list (float * float * float * float) :=
  [ (0.0, 0.0, 0.0, 0.0);
    (0.0, 0.0, 0.0, 0.0);
    (0.0, 0.0, 0.0, 0.0);
    (-2.02524603e-11, 1.79435860e-07, -2.60561875e-04, -1.41761141e-02);
    (-2.22463426e-13, -1.55078698e-08, 3.81675160e-04, -7.30646033e-01);
    (6.72595954e-13, -2.73059993e-08, 4.24068546e-04, -7.52204323e-01) ]%float.

(** [temp >= c] is [c <= temp]. *)
Definition temp_to_color (temp : float) : vec3 :=
  if (12000.0 <=? temp)%float then (0.826270103, 0.994478524, 1.56626022)%float
  else if (temp <? 965.0)%float then (4.70366907, 0.0, 0.0)%float
  else
    let i := if (6365.0 <=? temp)%float then 5
             else if (3315.0 <=? temp)%float then 4
             else if (1902.0 <=? temp)%float then 3
             else if (1449.0 <=? temp)%float then 2
             else if (1167.0 <=? temp)%float then 1
             else 0 in
    let '(r0, r1, r2) := nth i color_temp_table_r (0, 0, 0)%float in
    let '(g0, g1, g2) := nth i color_temp_table_g (0, 0, 0)%float in
    let '(b0, b1, b2, b3) := nth i color_temp_table_b (0, 0, 0, 0)%float in
    let temp_inv := (1 / temp)%float in
    (r0 * temp_inv + r1 * temp + r2,
     g0 * temp_inv + g1 * temp + g2,
     ((b0 * temp + b1) * temp + b2) * temp + b3)%float.

Definition invalid (self : t) : bool := no_entity self.

Definition fresh (name type : json) : t :=
  {| type := type; entity_name := name;
     pos := (0.0, 0.0, 0.0)%float;
     rot := (JNum 0.0, JNum 0.0, JNum 0.0);
     scale := (JNum 1.0, JNum 1.0, JNum 1.0);
     color := (1.0, 1.0, 1.0)%float;
     no_entity := false |}.

Definition set_no_entity (self : t) : t :=
  {| type := type self; entity_name := entity_name self; pos := pos self;
     rot := rot self; scale := scale self; color := color self; no_entity := true |}.
Definition set_pos (p : vec3) (self : t) : t :=
  {| type := type self; entity_name := entity_name self; pos := p;
     rot := rot self; scale := scale self; color := color self;
     no_entity := no_entity self |}.
Definition set_rot (r : pyvec3) (self : t) : t :=
  {| type := type self; entity_name := entity_name self; pos := pos self;
     rot := r; scale := scale self; color := color self;
     no_entity := no_entity self |}.
Definition set_scale (s : pyvec3) (self : t) : t :=
  {| type := type self; entity_name := entity_name self; pos := pos self;
     rot := rot self; scale := s; color := color self;
     no_entity := no_entity self |}.
Definition set_color (c : vec3) (self : t) : t :=
  {| type := type self; entity_name := entity_name self; pos := pos self;
     rot := rot self; scale := scale self; color := c;
     no_entity := no_entity self |}.

(** [(rot.get("Roll"), rot.get("Pitch"), rot.get("Yaw") * -1)] *)
Definition light_rotation (rot : json) : result pyvec3 :=
  roll <- py_get rot "Roll" JNull ;;
  pitch <- py_get rot "Pitch" JNull ;;
  vy <- py_get rot "Yaw" JNull ;;
  yaw <- py_mul_neg1 vy ;;
  Ok (roll, pitch, yaw).

(** [GameLight.__init__(json_entity)] *)
Definition __init__ (json_entity : json) : result t :=
  name <- py_get json_entity "Outer" (JStr "Error") ;;
  ty <- py_get json_entity "Type" JNull ;;
  let self := fresh name ty in
  if negb (truthy ty) then Ok (set_no_entity self) else
  props <- py_get json_entity "Properties" JNull ;;
  if negb (truthy props) then Ok (set_no_entity self) else
  loc <- py_get props "RelativeLocation" (JBool false) ;;
  self <- (if truthy loc
           then pos <- py_get props "RelativeLocation" JNull ;;
                p <- convert_position pos ;; Ok (set_pos p self)
           else Ok self) ;;
  rot <- py_get props "RelativeRotation" JNull ;;
  self <- (if negb (is_none rot)
           then r <- light_rotation rot ;; Ok (set_rot r self)
           else Ok self) ;;
  sc <- py_get props "RelativeScale3D" (JBool false) ;;
  self <- (if truthy sc
           then scale <- py_get props "RelativeScale3D" JNull ;;
                s <- convert_scale scale ;; Ok (set_scale s self)
           else Ok self) ;;
  temp <- py_get props "Temperature" JNull ;;
  self <- (if negb (is_none temp)
           then t <- as_float temp ;; Ok (set_color (temp_to_color t) self)
           else Ok self) ;;
  Ok self.

Definition as_str (v : json) : result string :=
  match v with JStr s => Ok s | _ => Raise TypeError end.

(** The Euler angles that [import_light] passes to [mu.Euler]. *)
Definition placement_rotation (self : t) : result vec3 :=
  let '(r0, r1, r2) := rot self in
  x <- math_radians r0 ;; y <- math_radians r1 ;; z <- math_radians r2 ;;
  Ok (x, y, z).

(** [GameLight.import_light(collection)] *)
Definition import_light `{Mathutils} (self : t) (collection : nat) : M bool :=
  if no_entity self then ret false else
  light_data <~ (if eq_str (type self) "SpotLightComponent"
                 then name <~ lift (as_str (entity_name self)) ;;
                      l <~ data_lights_new name "SPOT" ;; ret (Some l)
                 else if eq_str (type self) "PointLightComponent"
                 then name <~ lift (as_str (entity_name self)) ;;
                      l <~ data_lights_new name "POINT" ;; ret (Some l)
                 else ret None) ;;
  match light_data with
  | None => throw UnboundLocalError
  | Some light_data =>
      name <~ lift (as_str (entity_name self)) ;;
      light_obj <~ data_objects_new name (bpy.LightData light_data) ;;
      s <~ lift (vec_of_py (scale self)) ;;
      _ <~ ob_set_scale light_obj s ;;
      _ <~ ob_set_location light_obj (pos self) ;;
      _ <~ ob_set_rotation_mode light_obj "XYZ" ;;
      r <~ lift (placement_rotation self) ;;
      _ <~ ob_set_rotation_euler light_obj r ;;
      _ <~ light_set_color light_data (color self) ;;
      _ <~ objects_link collection light_obj ;;
      _ <~ objects_link bpy.scene_collection light_obj ;;
      ret true
  end.

End GameLight.

(** ** MapImporter *)

Module MapImporter.

(** What [map_path] holds: nothing ([os.path.exists] is false), a file on
    which [open] or [json.load] raises, or a document. *)
Inductive MapFile : Type :=
| FileMissing
| FileBroken (e : exn)
| FileJson (json_object : json).

(** [entity_type in types] *)
Definition type_in (entity_type : json) (types : list string) : bool :=
  existsb (eq_str entity_type) types.

Definition type_name (entity_type : json) : string :=
  match entity_type with JStr s => s | _ => "" end.

(** One iteration of the loop over the records.  The local variable
    [static_mesh] outlives the iteration that binds it, so it is threaded
    through: [None] while it is unbound. *)
Definition import_entity `{Mathutils} `{OsPath} `{AssetLoader}
    (import_collection : nat) (static_mesh : option StaticMesh.t) (entity : json)
  : M (option StaticMesh.t) :=
  ty <~ lift (py_get entity "Type" JNull) ;;
  if negb (truthy ty) then ret static_mesh else
  entity_type <~ lift (py_get entity "Type" JNull) ;;
  if type_in entity_type StaticMesh.static_mesh_types then
    sm <~ lift (StaticMesh.__init__ entity (type_name entity_type)) ;;
    let static_mesh := Some sm in
    if StaticMesh.invalid sm then ret static_mesh else
    match _load_asset (StaticMesh.asset_path sm) with
    | None => ret static_mesh
    | Some obj =>
        _ <~ StaticMesh.link_object_instance sm obj import_collection ;;
        ret static_mesh
    end
  else if type_in entity_type GameLight.light_types then
    light <~ lift (GameLight.__init__ entity) ;;
    if GameLight.invalid light then
      (* the message is formatted from [static_mesh.entity_name] *)
      match static_mesh with
      | None => throw UnboundLocalError
      | Some _ => ret static_mesh
      end
    else
      _ <~ GameLight.import_light light import_collection ;;
      ret static_mesh
  else ret static_mesh.

Fixpoint import_entities `{Mathutils} `{OsPath} `{AssetLoader}
    (import_collection : nat) (static_mesh : option StaticMesh.t) (entities : list json)
  : M (option StaticMesh.t) :=
  match entities with
  | [] => ret static_mesh
  | entity :: rest =>
      static_mesh <~ import_entity import_collection static_mesh entity ;;
      import_entities import_collection static_mesh rest
  end.

(** [MapImporter._import_map] *)
Definition _import_map `{Mathutils} `{OsPath} `{AssetLoader}
    (map_path : string) (file : MapFile) : M bool :=
  match file with
  | FileMissing => ret false
  | _ =>
      let json_filename := basename map_path in
      import_collection <~ data_collections_new json_filename ;;
      _ <~ children_link bpy.scene_collection import_collection ;;
      match file with
      | FileMissing => ret false
      | FileBroken e => throw e
      | FileJson json_object =>
          entities <~ lift (py_iter json_object) ;;
          _ <~ import_entities import_collection None entities ;;
          _ <~ timers_register ;;
          ret true
      end
  end.

End MapImporter.

(** ** Sample instances of the interfaces

    They serve to run the importer on concrete records: matrices are kept as
    the terms that build them, paths are left as they are, and the loader
    finds every asset (or none). *)

Inductive TermMatrix : Type :=
| TLocRotScale (loc rot scale : vec3)
| TMul (a b : TermMatrix).

Definition term_mathutils : Mathutils :=
  {| Matrix := TermMatrix;
     LocRotScale := TLocRotScale;
     matmul := TMul;
     Quaternion_to_euler := fun q => let '(w, x, y, z) := q in (x, y, z) |}.

Definition posix_path : OsPath :=
  {| normpath := fun p => p; basename := fun p => p; sep := "/" |}.

Definition loader_all : AssetLoader :=
  {| _load_asset := fun p => Some {| asset_name := p; asset_data := 0 |} |}.

Definition loader_none : AssetLoader :=
  {| _load_asset := fun _ => None |}.

(** A scene with its root collection and nothing else. *)
Definition empty_world `{Mathutils} : bpy.World :=
  {| bpy.data_objects := []; bpy.data_lights := [];
     bpy.collections := [{| bpy.coll_name := "Scene Collection"; bpy.objects := [];
                            bpy.children := [] |}];
     bpy.timers := 0 |}.

(** ** Sample records *)

Definition rock_properties (extra : list (string * json)) : json :=
  JObj (("StaticMesh", JObj [("ObjectPath", JStr "/Game/Meshes/Rock.0")]) :: extra).

Definition xyz (x y z : float) : json :=
  JObj [("X", JNum x); ("Y", JNum y); ("Z", JNum z)].

(** A static mesh at (100, 200, 300) cm, no rotation, no scale. *)
Definition rec_position : json :=
  JObj [("Type", JStr "StaticMeshComponent"); ("Outer", JStr "Rock");
        ("Properties", rock_properties [("RelativeLocation", xyz 100 200 300)])].

(** A static mesh whose only flag is [bVisible = false]. *)
Definition rec_invisible : json :=
  JObj [("Type", JStr "StaticMeshComponent"); ("Outer", JStr "Hidden");
        ("Properties", rock_properties [("bVisible", JBool false)])].

(** A static mesh whose [RelativeLocation] has no [X]. *)
Definition rec_no_x : json :=
  JObj [("Type", JStr "StaticMeshComponent"); ("Outer", JStr "Rock");
        ("Properties",
         rock_properties [("RelativeLocation", JObj [("Y", JNum 200); ("Z", JNum 300)])])].

(** An instanced mesh with two instances; the second one has a rotation. *)
Definition rec_instanced : json :=
  JObj [("Type", JStr "InstancedStaticMeshComponent"); ("Outer", JStr "Rocks");
        ("Properties", rock_properties [("RelativeLocation", xyz 100 200 300)]);
        ("PerInstanceSMData",
         JArr [JObj [("TransformData", JObj [("Translation", xyz 100 0 0)])];
               JObj [("TransformData",
                      JObj [("Rotation",
                             JObj [("W", JNum 1); ("X", JNum 2);
                                   ("Y", JNum 3); ("Z", JNum 4)])])]])].

(** An instanced mesh with neither [Properties] nor [PerInstanceSMData]. *)
Definition rec_instanced_bare : json :=
  JObj [("Type", JStr "InstancedStaticMeshComponent")].

(** An instanced mesh with one instance and [bVisible = false]. *)
Definition rec_instanced_hidden : json :=
  JObj [("Type", JStr "InstancedStaticMeshComponent"); ("Outer", JStr "Rocks");
        ("Properties", rock_properties [("bVisible", JBool false)]);
        ("PerInstanceSMData", JArr [JObj []])].

(** A point light rotated by (10, 20, 30) degrees. *)
Definition rec_light : json :=
  JObj [("Type", JStr "PointLightComponent"); ("Outer", JStr "Lamp");
        ("Properties",
         JObj [("RelativeRotation",
                JObj [("Roll", JNum 10); ("Pitch", JNum 20); ("Yaw", JNum 30)])])].

(** A point light without [Properties]. *)
Definition rec_light_bare : json :=
  JObj [("Type", JStr "PointLightComponent")].

(** An instanced mesh with three instances; the second one has a string for
    the [X] axis of its scale. *)
Definition rec_instanced_bad_scale : json :=
  JObj [("Type", JStr "InstancedStaticMeshComponent"); ("Outer", JStr "Rocks");
        ("Properties", rock_properties []);
        ("PerInstanceSMData",
         JArr [JObj [];
               JObj [("TransformData", JObj [("Scale3D", JObj [("X", JStr "big")])])];
               JObj []])].

(** A point light whose [RelativeRotation] holds a yaw of 90 degrees and
    neither roll nor pitch. *)
Definition rec_light_yaw_only : json :=
  JObj [("Type", JStr "PointLightComponent"); ("Outer", JStr "Lamp");
        ("Properties", JObj [("RelativeRotation", JObj [("Yaw", JNum 90)])])].

(** The classifier's result, or a blank entity when it raises. *)
Definition classified (json_entity : json) (entity_type : string) : StaticMesh.t :=
  match @StaticMesh.__init__ term_mathutils posix_path json_entity entity_type with
  | Ok sm => sm
  | Raise _ => StaticMesh.fresh JNull
  end.

Definition rock_asset : Asset := {| asset_name := "Rock"; asset_data := 0 |}.

(** The light classifier's result, or a blank light when it raises. *)
Definition classified_light (json_entity : json) : GameLight.t :=
  match GameLight.__init__ json_entity with
  | Ok self => self
  | Raise _ => GameLight.fresh JNull JNull
  end.

(** The scene after [_import_map] has created its collection. *)
Definition import_world `{Mathutils} : bpy.World :=
  {| bpy.data_objects := []; bpy.data_lights := [];
     bpy.collections := [{| bpy.coll_name := "Scene Collection"; bpy.objects := [];
                            bpy.children := [1] |};
                         {| bpy.coll_name := "map.json"; bpy.objects := [];
                            bpy.children := [] |}];
     bpy.timers := 0 |}.

(** ** Vocabulary of the statements *)

Section Vocabulary.
Context `{MU : Mathutils} `{OP : OsPath} `{AL : AssetLoader}.

(** Every object that a collection holds exists. *)
Definition collection_ok (n : nat) (col : bpy.Collection) : bool :=
  forallb (fun o => Nat.ltb o n) (bpy.objects col).

Definition wf_world (w : bpy.World) : bool :=
  forallb (collection_ok (List.length (bpy.data_objects w))) (bpy.collections w).

(** Linking [o] at the end of collection [c]. *)
Definition link_to (c o : nat) (cols : list bpy.Collection) : list bpy.Collection :=
  update_nth c (fun col =>
    {| bpy.coll_name := bpy.coll_name col;
       bpy.objects := bpy.objects col ++ [o];
       bpy.children := bpy.children col |}) cols.

(** The world after a new object [ob] has been created and linked to [c]. *)
Definition placed (ob : bpy.Object) (c : nat) (w : bpy.World) : bpy.World :=
  with_collections (link_to c (List.length (bpy.data_objects w)) (bpy.collections w))
    (with_objects (bpy.data_objects w ++ [ob]) w).

(** The world [w] with one more object [ob], created and not linked yet. *)
Definition pending (w : bpy.World) (ob : bpy.Object) : bpy.World :=
  with_objects (bpy.data_objects w ++ [ob]) w.

(** The object of one instance: [rotation_mode] and [matrix_world] assigned. *)
Definition instanced_object (obj : Asset) (m : Matrix) : bpy.Object :=
  {| bpy.name := asset_name obj; bpy.data := bpy.MeshData (asset_data obj);
     bpy.scale := None; bpy.location := None; bpy.rotation_mode := Some "XYZ";
     bpy.rotation_euler := None; bpy.matrix_world := Some m |}.

(** The object of a mesh that is not instanced. *)
Definition single_object (obj : Asset) (s loc rot : vec3) : bpy.Object :=
  {| bpy.name := asset_name obj; bpy.data := bpy.MeshData (asset_data obj);
     bpy.scale := Some s; bpy.location := Some loc; bpy.rotation_mode := Some "XYZ";
     bpy.rotation_euler := Some rot; bpy.matrix_world := None |}.

Definition place_all (obs : list bpy.Object) (c : nat) (w : bpy.World) : bpy.World :=
  fold_left (fun w ob => placed ob c w) obs w.

(** A transform whose scale components are numbers. *)
Definition numeric (v : json) : bool :=
  match v with JNum _ | JBool _ => true | _ => false end.

Definition numeric_scale (trs : InstanceTransform.t) : bool :=
  let '(x, y, z) := InstanceTransform.scale trs in numeric x && numeric y && numeric z.

Definition numeric_transforms (self : StaticMesh.t) : bool :=
  match StaticMesh.transform self with
  | Some trs => numeric_scale trs
  | None => true
  end && forallb numeric_scale (StaticMesh.instance_transforms self).

(** The record passed every check that returns early, in the order of the
    constructor. *)
Definition reaches_dispatch (self : StaticMesh.t) : bool :=
  negb (StaticMesh.no_entity self || StaticMesh.no_mesh self || StaticMesh.no_path self
        || StaticMesh.base_shape self || StaticMesh.not_rendered self).

(** The Blender light type that [import_light] selects. *)
Definition light_kind (self : GameLight.t) : option string :=
  if eq_str (GameLight.type self) "SpotLightComponent" then Some "SPOT"
  else if eq_str (GameLight.type self) "PointLightComponent" then Some "POINT"
  else None.

(** A light that [import_light] can place: a supported type, a string for a
    name, numbers for scale and rotation. *)
Definition placeable (self : GameLight.t) : bool :=
  match light_kind self, GameLight.entity_name self with
  | Some _, JStr _ => true
  | _, _ => false
  end
  && (let '(x, y, z) := GameLight.scale self in numeric x && numeric y && numeric z)
  && (let '(x, y, z) := GameLight.rot self in numeric x && numeric y && numeric z).

Definition light_object (self : GameLight.t) (name : string) (light_data : nat)
    (s r : vec3) : bpy.Object :=
  {| bpy.name := name; bpy.data := bpy.LightData light_data;
     bpy.scale := Some s; bpy.location := Some (GameLight.pos self);
     bpy.rotation_mode := Some "XYZ"; bpy.rotation_euler := Some r;
     bpy.matrix_world := None |}.

(** The world with one more light data block. *)
Definition with_light (l : bpy.Light) (w : bpy.World) : bpy.World :=
  with_lights (bpy.data_lights w ++ [l]) w.

(** The world after object [o] has been linked to collection [c]. *)
Definition linked (c o : nat) (w : bpy.World) : bpy.World :=
  with_collections (link_to c o (bpy.collections w)) w.

(** The objects of collection [c]. *)
Definition objects_of (c : nat) (w : bpy.World) : list nat :=
  match nth_error (bpy.collections w) c with
  | Some col => bpy.objects col
  | None => []
  end.

(** A record of a mesh type that the assembler skips: the classifier returns
    an invalid entity, or the loader does not find the asset. *)
Definition skipped_mesh (entity : json) : bool :=
  match py_get entity "Type" JNull with
  | Ok (JStr ty) =>
      MapImporter.type_in (JStr ty) StaticMesh.static_mesh_types
      && match StaticMesh.__init__ entity ty with
         | Ok sm =>
             StaticMesh.invalid sm
             || match _load_asset (StaticMesh.asset_path sm) with
                | None => true
                | Some _ => false
                end
         | Raise _ => false
         end
  | _ => false
  end.

(** The scene collection exists and its children are existing collections. *)
Definition scene_ok (w : bpy.World) : bool :=
  match nth_error (bpy.collections w) bpy.scene_collection with
  | Some col => forallb (fun ch => Nat.ltb ch (List.length (bpy.collections w)))
                  (bpy.children col)
  | None => false
  end.

(** The world after [_import_map] has created the collection named [name]
    and made it a child of the scene collection. *)
Definition with_import_collection (name : string) (w : bpy.World) : bpy.World :=
  with_collections
    (update_nth bpy.scene_collection (fun col =>
       {| bpy.coll_name := bpy.coll_name col; bpy.objects := bpy.objects col;
          bpy.children := bpy.children col ++ [List.length (bpy.collections w)] |})
       (bpy.collections w
        ++ [{| bpy.coll_name := name; bpy.objects := []; bpy.children := [] |}]))
    w.

End Vocabulary.

(** ** Vocabulary of the further properties *)

(** A static mesh rotated by (10, 20, 30) degrees. *)
Definition rec_rotated : json :=
  JObj [("Type", JStr "StaticMeshComponent"); ("Outer", JStr "Rock");
        ("Properties",
         rock_properties
           [("RelativeRotation",
             JObj [("Roll", JNum 10); ("Pitch", JNum 20); ("Yaw", JNum 30)])])].

(** A static mesh whose scale is a string on the [X] axis. *)
Definition rec_bad_scale : json :=
  JObj [("Type", JStr "StaticMeshComponent"); ("Outer", JStr "Rock");
        ("Properties",
         rock_properties [("RelativeScale3D", JObj [("X", JStr "big")])])].

(** A procedural cube of the engine. *)
Definition rec_basic_shape : list (string * json) :=
  [("Type", JStr "StaticMeshComponent"); ("Outer", JStr "Cube");
   ("Properties",
    JObj [("StaticMesh", JObj [("ObjectPath", JStr "/Engine/BasicShapes/Cube.Cube")])])].

(** A spot light at (100, 200, 300) cm with a temperature of 20000 K. *)
Definition rec_light_located : json :=
  JObj [("Type", JStr "SpotLightComponent"); ("Outer", JStr "Spot");
        ("Properties",
         JObj [("RelativeLocation", xyz 100 200 300); ("Temperature", JNum 20000)])].

(** The properties of a light with empty location and scale mappings. *)
Definition light_empty_properties : list (string * json) :=
  [("RelativeLocation", JObj []); ("RelativeScale3D", JObj [])].

Definition rec_light_empty : json :=
  JObj [("Type", JStr "PointLightComponent"); ("Outer", JStr "Lamp");
        ("Properties", JObj light_empty_properties)].

(** A string without a period. *)
Fixpoint period_free (s : string) : bool :=
  match s with
  | EmptyString => true
  | String c rest => negb (Ascii.eqb c "."%char) && period_free rest
  end.

(** The value under key [k] of a dict, [None] when the key is absent. *)
Definition field (kvs : list (string * json)) (k : string) : json :=
  match dict_lookup k kvs with Some v => v | None => JNull end.

(** The flags after which the mesh constructor returns at once. *)
Definition early_flags (self : StaticMesh.t) : list bool :=
  [StaticMesh.no_entity self; StaticMesh.no_mesh self; StaticMesh.no_path self;
   StaticMesh.base_shape self; StaticMesh.not_rendered self;
   StaticMesh.no_per_instance_data self].

Definition count_true (l : list bool) : nat := List.length (filter (fun b => b) l).

(** [p[1:] if p.startswith(sep) else p] *)
Definition strip_leading (sep p : string) : string :=
  if String.prefix sep p
  then match p with String _ rest => rest | EmptyString => EmptyString end
  else p.

Section FrameVocabulary.
Context `{MU : Mathutils}.

(** A collection that kept its name and children and gained objects at the
    end, if any. *)
Definition gained_objects (col col' : bpy.Collection) : Prop :=
  bpy.coll_name col' = bpy.coll_name col
  /\ bpy.children col' = bpy.children col
  /\ exists l, bpy.objects col' = bpy.objects col ++ l.

(** [w'] comes from [w] by creating objects and lights and by linking
    objects to the collections [cs]: what [w] holds is still there,
    unchanged and at the same place, no timer was registered, and the
    collections outside [cs] are as they were. *)
Definition extends (cs : list nat) (w w' : bpy.World) : Prop :=
  (exists objs, bpy.data_objects w' = bpy.data_objects w ++ objs)
  /\ (exists ls, bpy.data_lights w' = bpy.data_lights w ++ ls)
  /\ bpy.timers w' = bpy.timers w
  /\ Forall2 gained_objects (bpy.collections w) (bpy.collections w')
  /\ (forall j, ~ In j cs ->
                nth_error (bpy.collections w') j = nth_error (bpy.collections w) j).

(** What a run keeps: the world is extended, and stays well formed. *)
Definition kept (cs : list nat) (w w' : bpy.World) : Prop :=
  extends cs w w' /\ (wf_world w = true -> wf_world w' = true).

(** The world with one more collection, empty and named [name]. *)
Definition with_collection (name : string) (w : bpy.World) : bpy.World :=
  with_collections
    (bpy.collections w
     ++ [{| bpy.coll_name := name; bpy.objects := []; bpy.children := [] |}]) w.

(** The world after collection [child] has become a child of [c]. *)
Definition child_added (c child : nat) (w : bpy.World) : bpy.World :=
  with_collections
    (update_nth c (fun col =>
       {| bpy.coll_name := bpy.coll_name col; bpy.objects := bpy.objects col;
          bpy.children := bpy.children col ++ [child] |}) (bpy.collections w)) w.

(** What [_import_map] leaves of the scene [w] in [w']: the objects and
    lights are kept, the collections that existed are untouched except the
    scene collection, which keeps its name, gains objects at the end and at
    most the new collection as a child; and the scene stays well formed. *)
Definition scene_kept (w w' : bpy.World) : Prop :=
  (exists objs, bpy.data_objects w' = bpy.data_objects w ++ objs)
  /\ (exists ls, bpy.data_lights w' = bpy.data_lights w ++ ls)
  /\ (forall j, j < List.length (bpy.collections w) -> j <> bpy.scene_collection ->
        nth_error (bpy.collections w') j = nth_error (bpy.collections w) j)
  /\ (forall col,
        nth_error (bpy.collections w) bpy.scene_collection = Some col ->
        exists col',
          nth_error (bpy.collections w') bpy.scene_collection = Some col'
          /\ bpy.coll_name col' = bpy.coll_name col
          /\ (exists l, bpy.objects col' = bpy.objects col ++ l)
          /\ (bpy.children col' = bpy.children col
              \/ bpy.children col'
                 = bpy.children col ++ [List.length (bpy.collections w)]))
  /\ (wf_world w = true -> wf_world w' = true).

(** The import collection of [w'], created for a scene [w]: the last
    collection, named [name], without children. *)
Definition import_collection_of (name : string) (w w' : bpy.World) : Prop :=
  List.length (bpy.collections w') = S (List.length (bpy.collections w))
  /\ exists col,
      nth_error (bpy.collections w') (List.length (bpy.collections w)) = Some col
      /\ bpy.coll_name col = name
      /\ bpy.children col = [].

(** The scene right after the import collection has been created, linked
    to the scene collection or not. *)
Definition opened (name : string) (w ws : bpy.World) : Prop :=
  ws = with_collection name w
  \/ ws = child_added bpy.scene_collection (List.length (bpy.collections w))
            (with_collection name w).

End FrameVocabulary.

(** * Properties *)

(** ** Facts about binary64 arithmetic *)

Section FloatFacts.
Local Open Scope float_scope.

Lemma binary_round_aux_negb (s : bool) (m e : Z) (l : SpecFloat.location) :
  binary_round_aux prec emax (negb s) m e l
  = SFopp (binary_round_aux prec emax s m e l).
Proof.
  unfold binary_round_aux.
  destruct (shr_fexp prec emax m e l) as [mrs' e'].
  match goal with
  | |- context [shr_fexp prec emax ?a ?b ?c] =>
      destruct (shr_fexp prec emax a b c) as [mrs'' e'']
  end.
  destruct (shr_m mrs''); try reflexivity.
  destruct (Z.leb e'' (emax - prec)); reflexivity.
Qed.

(** Dividing by [-100] is dividing by [100] and negating: rounding to nearest
    does not look at the sign. *)
Lemma div_neg_hundred (y : float) : y / -100 = - (y / 100).
Proof.
  apply Prim2SF_inj. rewrite opp_spec, !div_spec.
  change (Prim2SF (-100)) with (S754_finite true 7036874417766400 (-46)).
  change (Prim2SF 100) with (S754_finite false 7036874417766400 (-46)).
  destruct (Prim2SF y) as [s | s | | s m e];
    try (destruct s; reflexivity); try reflexivity.
  unfold SF64div, SFdiv.
  match goal with
  | |- context [SFdiv_core_binary ?a ?b ?c ?d ?e ?f] =>
      destruct (SFdiv_core_binary a b c d e f) as [[mz ez] lz]
  end.
  rewrite <- binary_round_aux_negb. f_equal. destruct s; reflexivity.
Qed.

(** A temperature below 965 is not at or above 12000. *)
Lemma below_965_not_above_12000 (t : float) :
  (t <? 965) = true -> (12000 <=? t) = false.
Proof.
  rewrite ltb_spec, leb_spec.
  change (Prim2SF 965) with (S754_finite false 8488229766430720 (-43)).
  change (Prim2SF 12000) with (S754_finite false 6597069766656000 (-39)).
  unfold SFltb, SFleb, SFcompare.
  destruct (Prim2SF t) as [s | s | | s m e]; try (destruct s); try discriminate;
    try reflexivity.
  destruct (Z.compare_spec e (-43)) as [E | E | E]; try discriminate; intros _.
  - subst e. reflexivity.
  - destruct (Z.compare_spec (-39) e) as [E2 | E2 | E2]; try reflexivity; lia.
Qed.

Lemma float_neq (a b : float) : PrimFloat.Leibniz.eqb a b = false -> a <> b.
Proof.
  intros Hneq Heq. apply FloatAxioms.Leibniz.eqb_spec in Heq. congruence.
Qed.

End FloatFacts.

(** ** Facts about the Blender operations *)

Lemma update_nth_app_last {A} (f : A -> A) (l : list A) (x : A) :
  update_nth (List.length l) f (l ++ [x]) = l ++ [f x].
Proof. induction l as [| y l IH]; simpl; [reflexivity | now rewrite IH]. Qed.

Lemma update_nth_length {A} (i : nat) (f : A -> A) (l : list A) :
  List.length (update_nth i f l) = List.length l.
Proof.
  revert i; induction l as [| y l IH]; intros [| i]; simpl; auto.
Qed.

Lemma nth_error_update_nth {A} (i j : nat) (f : A -> A) (l : list A) :
  nth_error (update_nth i f l) j
  = if Nat.eqb i j then option_map f (nth_error l j) else nth_error l j.
Proof.
  revert i j; induction l as [| y l IH]; intros [| i] [| j]; simpl; auto;
    try (destruct (Nat.eqb i j); reflexivity).
Qed.

Lemma Forall2_nth_left {A B} (R : A -> B -> Prop) (l : list A) (l' : list B)
    (k : nat) (a : A) :
  Forall2 R l l' -> nth_error l k = Some a ->
  exists b, nth_error l' k = Some b /\ R a b.
Proof.
  intros H. revert k. induction H as [| x y l l' Hxy H IH]; intros [| k] Hk;
    try discriminate Hk; simpl in *.
  - injection Hk as ->. eauto.
  - now apply IH.
Qed.

Section WorldFacts.
Context `{MU : Mathutils}.

Lemma collection_ok_mono (n m : nat) (col : bpy.Collection) :
  n <= m -> collection_ok n col = true -> collection_ok m col = true.
Proof.
  unfold collection_ok. rewrite !forallb_forall. intros Hle Hall o Ho.
  specialize (Hall o Ho). apply Nat.ltb_lt in Hall. apply Nat.ltb_lt. lia.
Qed.

Lemma fresh_not_linked (n : nat) (col : bpy.Collection) :
  collection_ok n col = true -> existsb (Nat.eqb n) (bpy.objects col) = false.
Proof.
  unfold collection_ok. rewrite forallb_forall. intros Hall.
  destruct (existsb (Nat.eqb n) (bpy.objects col)) eqn:E; [| reflexivity].
  apply existsb_exists in E. destruct E as [o [Ho Heq]].
  apply Nat.eqb_eq in Heq. subst o.
  specialize (Hall n Ho). apply Nat.ltb_lt in Hall. lia.
Qed.

Lemma wf_world_nth (w : bpy.World) (c : nat) (col : bpy.Collection) :
  wf_world w = true -> nth_error (bpy.collections w) c = Some col ->
  collection_ok (List.length (bpy.data_objects w)) col = true.
Proof.
  unfold wf_world. rewrite forallb_forall. intros Hall Hc.
  apply Hall. eapply nth_error_In; eauto.
Qed.

Lemma wf_placed (ob : bpy.Object) (c : nat) (w : bpy.World) :
  wf_world w = true -> wf_world (placed ob c w) = true.
Proof.
  unfold wf_world, placed, link_to. simpl. rewrite !forallb_forall.
  intros Hall col Hin. rewrite length_app. simpl.
  apply In_nth_error in Hin. destruct Hin as [j Hj].
  rewrite nth_error_update_nth in Hj.
  assert (Hmono : forall col', In col' (bpy.collections w) ->
            collection_ok (List.length (bpy.data_objects w) + 1) col' = true).
  { intros col' Hin'. eapply collection_ok_mono; [| apply Hall, Hin']. lia. }
  destruct (Nat.eqb c j).
  - destruct (nth_error (bpy.collections w) j) as [col0 |] eqn:E; [| discriminate].
    simpl in Hj. injection Hj as <-.
    unfold collection_ok. simpl. rewrite forallb_app. simpl.
    apply nth_error_In in E. specialize (Hmono _ E). unfold collection_ok in Hmono.
    rewrite Hmono. simpl. rewrite andb_true_r. apply Nat.ltb_lt. lia.
  - apply Hmono. eapply nth_error_In; eauto.
Qed.

Lemma placed_collections_length (ob : bpy.Object) (c : nat) (w : bpy.World) :
  List.length (bpy.collections (placed ob c w)) = List.length (bpy.collections w).
Proof. unfold placed, link_to. simpl. apply update_nth_length. Qed.

Lemma placed_objects (ob : bpy.Object) (c : nat) (w : bpy.World) :
  bpy.data_objects (placed ob c w) = bpy.data_objects w ++ [ob].
Proof. reflexivity. Qed.

(** [objects_link] of the object created last, on a well-formed world. *)
Lemma objects_link_last (c : nat) (w : bpy.World) (ob : bpy.Object) :
  wf_world w = true -> c < List.length (bpy.collections w) ->
  objects_link c (List.length (bpy.data_objects w))
    (with_objects (bpy.data_objects w ++ [ob]) w)
  = (Ok tt, placed ob c w).
Proof.
  intros Hwf Hc. unfold objects_link. simpl.
  destruct (nth_error (bpy.collections w) c) as [col |] eqn:E.
  - rewrite (fresh_not_linked _ _ (wf_world_nth _ _ _ Hwf E)). reflexivity.
  - apply nth_error_None in E. lia.
Qed.

End WorldFacts.

Section MonadFacts.
Context `{MU : Mathutils}.

Lemma bind_ok {A B} (m : M A) (k : A -> M B) (w w' : bpy.World) (a : A) :
  m w = (Ok a, w') -> bind m k w = k a w'.
Proof. intros E. unfold bind. now rewrite E. Qed.

Lemma bind_lift_ok {A B} (r : result A) (k : A -> M B) (w : bpy.World) (a : A) :
  r = Ok a -> bind (lift r) k w = k a w.
Proof. intros ->. reflexivity. Qed.

Lemma data_objects_new_pending (n : string) (d : bpy.ObData) (w : bpy.World) :
  data_objects_new n d w = (Ok (List.length (bpy.data_objects w)), pending w (new_object n d)).
Proof. reflexivity. Qed.

Lemma update_object_pending (f : bpy.Object -> bpy.Object) (w : bpy.World) (ob : bpy.Object) :
  update_object (List.length (bpy.data_objects w)) f (pending w ob)
  = (Ok tt, pending w (f ob)).
Proof.
  unfold update_object, pending. simpl. rewrite update_nth_app_last. reflexivity.
Qed.

Lemma objects_link_pending (c : nat) (w : bpy.World) (ob : bpy.Object) :
  wf_world w = true -> c < List.length (bpy.collections w) ->
  objects_link c (List.length (bpy.data_objects w)) (pending w ob)
  = (Ok tt, placed ob c w).
Proof. apply objects_link_last. Qed.

End MonadFacts.

(** ** Placement of meshes *)

Section LinkFacts.
Context `{MU : Mathutils}.

Lemma place_all_objects (obs : list bpy.Object) (c : nat) (w : bpy.World) :
  bpy.data_objects (place_all obs c w) = bpy.data_objects w ++ obs.
Proof.
  revert w; induction obs as [| ob obs IH]; intros w; simpl.
  - now rewrite app_nil_r.
  - rewrite IH, placed_objects, <- app_assoc. reflexivity.
Qed.

Lemma link_instances_run (trs : InstanceTransform.t) (obj : Asset) (c : nat) (mB : Matrix) :
  InstanceTransform.matrix_4x4 trs = Ok mB ->
  forall (Is : list InstanceTransform.t) (mIs : list Matrix),
    Forall2 (fun I mI => InstanceTransform.matrix_4x4 I = Ok mI) Is mIs ->
    forall (acc : list nat) (w : bpy.World),
      wf_world w = true -> c < List.length (bpy.collections w) ->
      StaticMesh.link_instances trs obj c Is acc w
      = (Ok (acc ++ seq (List.length (bpy.data_objects w)) (List.length mIs)),
         place_all (map (fun mI => instanced_object obj (matmul mB mI)) mIs) c w).
Proof.
  intros HB Is mIs HIs.
  induction HIs as [| I mI Is mIs HI HIs IH]; intros acc w Hwf Hc.
  - simpl. unfold ret. now rewrite app_nil_r.
  - cbn [StaticMesh.link_instances].
    rewrite (bind_lift_ok _ _ _ _ HB), (bind_lift_ok _ _ _ _ HI).
    rewrite (bind_ok _ _ _ _ _ (data_objects_new_pending _ _ _)).
    unfold ob_set_rotation_mode, ob_set_matrix_world.
    rewrite (bind_ok _ _ _ _ _ (update_object_pending _ _ _)).
    rewrite (bind_ok _ _ _ _ _ (update_object_pending _ _ _)).
    rewrite (bind_ok _ _ _ _ _ (objects_link_pending _ _ _ Hwf Hc)).
    rewrite IH; [| now apply wf_placed | now rewrite placed_collections_length].
    rewrite placed_objects, length_app, <- app_assoc. simpl.
    rewrite Nat.add_1_r. reflexivity.
Qed.

Lemma link_single_run (self : StaticMesh.t) (obj : Asset) (c : nat)
    (trs : InstanceTransform.t) (s : vec3) (w : bpy.World) :
  StaticMesh.invalid self = false ->
  StaticMesh.transform self = Some trs ->
  StaticMesh.is_instanced self = false ->
  vec_of_py (InstanceTransform.scale trs) = Ok s ->
  wf_world w = true -> c < List.length (bpy.collections w) ->
  StaticMesh.link_object_instance self obj c w
  = (Ok [List.length (bpy.data_objects w)],
     placed (single_object obj s (InstanceTransform.pos trs)
               (InstanceTransform.rot_euler trs)) c w).
Proof.
  intros Hv Ht Hi Hs Hwf Hc. unfold StaticMesh.link_object_instance.
  rewrite Hv, Ht, Hi.
  rewrite (bind_ok _ _ _ _ _ (data_objects_new_pending _ _ _)).
  rewrite (bind_lift_ok _ _ _ _ Hs).
  unfold ob_set_scale, ob_set_location, ob_set_rotation_mode, ob_set_rotation_euler.
  rewrite !(bind_ok _ _ _ _ _ (update_object_pending _ _ _)).
  rewrite (bind_ok _ _ _ _ _ (objects_link_pending _ _ _ Hwf Hc)).
  reflexivity.
Qed.

Lemma link_invalid (self : StaticMesh.t) (obj : Asset) (c : nat) (w : bpy.World) :
  StaticMesh.invalid self = true ->
  StaticMesh.link_object_instance self obj c w = (Ok [], w).
Proof. intros Hv. unfold StaticMesh.link_object_instance. now rewrite Hv. Qed.

End LinkFacts.

(** ** Classification of meshes *)

(** Inversion of a successful run of the error monad, one step at a time. *)
Ltac inv_ok :=
  repeat match goal with
    | H : Ok _ = Ok _ |- _ => injection H as H; try subst
    | H : Raise _ = Ok _ |- _ => discriminate H
    | H : rbind ?r _ = Ok _ |- _ =>
        let E := fresh "E" in
        destruct r eqn:E; cbn [rbind] in H; [| discriminate H]
    | H : (if ?b then _ else _) = Ok _ |- _ =>
        let E := fresh "E" in destruct b eqn:E
    end.

Section ClassifierFacts.
Context `{MU : Mathutils} `{OP : OsPath}.

Lemma numeric_as_float (v : json) :
  numeric v = true -> exists f, as_float v = Ok f.
Proof. destruct v; try discriminate; intros _; eexists; reflexivity. Qed.

Lemma numeric_scale_matrix (trs : InstanceTransform.t) :
  numeric_scale trs = true -> exists m, InstanceTransform.matrix_4x4 trs = Ok m.
Proof.
  unfold numeric_scale, InstanceTransform.matrix_4x4, vec_of_py.
  destruct (InstanceTransform.scale trs) as [[x y] z]. intros Hn.
  apply andb_prop in Hn. destruct Hn as [Hn Hz].
  apply andb_prop in Hn. destruct Hn as [Hx Hy].
  destruct (numeric_as_float _ Hx) as [fx ->].
  destruct (numeric_as_float _ Hy) as [fy ->].
  destruct (numeric_as_float _ Hz) as [fz ->].
  eexists; reflexivity.
Qed.

Lemma numeric_scales_matrices (l : list InstanceTransform.t) :
  forallb numeric_scale l = true ->
  exists ms, Forall2 (fun I mI => InstanceTransform.matrix_4x4 I = Ok mI) l ms.
Proof.
  induction l as [| I l IH]; simpl; intros Hn.
  - exists []. constructor.
  - apply andb_prop in Hn. destruct Hn as [HI Hl].
    destruct (numeric_scale_matrix _ HI) as [m Hm].
    destruct (IH Hl) as [ms Hms].
    exists (m :: ms). now constructor.
Qed.

(** The loop over [PerInstanceSMData] appends one transform per element, in
    order, and touches nothing else. *)
Lemma instance_loop_ok (items : list json) :
  forall (self self' : StaticMesh.t),
    StaticMesh.instance_loop items self = Ok self' ->
    exists ts,
      Forall2 (fun i trs => StaticMesh.instance_transform i = Ok trs) items ts
      /\ self' = StaticMesh.set_instance_transforms
                   (StaticMesh.instance_transforms self ++ ts) self.
Proof.
  induction items as [| i items IH]; intros self self' Hrun.
  - simpl in Hrun. inv_ok. exists []. split; [constructor |].
    rewrite app_nil_r.
    match goal with |- ?x = _ => now destruct x end.
  - cbn [StaticMesh.instance_loop] in Hrun. inv_ok.
    destruct (IH _ _ Hrun) as [ts [Hts ->]].
    exists (a :: ts). split; [now constructor |].
    unfold StaticMesh.set_instance_transforms. simpl.
    now rewrite <- app_assoc.
Qed.


Lemma init_instanced_cases (json_entity : json) (entity_type : string) (sm : StaticMesh.t) :
  entity_type = "InstancedStaticMeshComponent"
  \/ entity_type = "HierarchicalInstancedStaticMeshComponent" ->
  StaticMesh.__init__ json_entity entity_type = Ok sm ->
  (reaches_dispatch sm = false /\ StaticMesh.invalid sm = true
   /\ StaticMesh.no_per_instance_data sm = false
   /\ StaticMesh.instance_transforms sm = [])
  \/ (reaches_dispatch sm = true /\ StaticMesh.is_instanced sm = true
      /\ exists instances,
          py_get json_entity "PerInstanceSMData" JNull = Ok instances
          /\ ((is_none instances = true
               /\ StaticMesh.no_per_instance_data sm = true
               /\ StaticMesh.instance_transforms sm = [])
              \/ (is_none instances = false
                  /\ StaticMesh.no_per_instance_data sm = false
                  /\ exists trs items,
                      StaticMesh.transform sm = Some trs
                      /\ py_iter instances = Ok items
                      /\ Forall2 (fun i t => StaticMesh.instance_transform i = Ok t)
                           items (StaticMesh.instance_transforms sm)))).
Proof.
  intros Hty Hinit. unfold StaticMesh.__init__ in Hinit.
  assert (Hd : String.eqb entity_type "StaticMeshComponent" = false
               /\ (String.eqb entity_type "InstancedStaticMeshComponent"
                   || String.eqb entity_type "HierarchicalInstancedStaticMeshComponent")
                  = true)
    by (destruct Hty as [-> | ->]; split; reflexivity).
  destruct Hd as [Hd1 Hd2]. rewrite Hd1, Hd2 in Hinit. clear Hd1 Hd2 Hty.
  inv_ok.
  all: try (left; repeat split; reflexivity).
  - right.
    repeat match goal with |- context [if ?b then _ else _] => destruct b end.
    all: split; [reflexivity | split; [reflexivity |]].
    all: eexists; split; [reflexivity |]; left; repeat split; assumption || reflexivity.
  - right. apply instance_loop_ok in Hinit. destruct Hinit as [ts [Hts ->]].
    repeat match goal with |- context [if ?b then _ else _] => destruct b end.
    all: split; [reflexivity | split; [reflexivity |]].
    all: eexists; split; [reflexivity |]; right.
    all: split; [assumption | split; [reflexivity |]].
    all: do 2 eexists; split; [reflexivity | split; [eassumption | exact Hts]].
Qed.

End ClassifierFacts.

(** ** The claims *)

Section InstancedPlacement.
Context `{MU : Mathutils}.

(** C5.  A valid instanced entity with base transform [B] places one object
    per instance transform [I], in order, and the world matrix assigned to it
    is the product [matrix(B) @ matrix(I)], the base on the left. *)
Theorem instance_matrix_is_base_times_instance
    (self : StaticMesh.t) (obj : Asset) (c : nat) (w : bpy.World)
    (B : InstanceTransform.t) (mB : Matrix) (mIs : list Matrix) :
  StaticMesh.invalid self = false ->
  StaticMesh.is_instanced self = true ->
  StaticMesh.transform self = Some B ->
  InstanceTransform.matrix_4x4 B = Ok mB ->
  Forall2 (fun I mI => InstanceTransform.matrix_4x4 I = Ok mI)
    (StaticMesh.instance_transforms self) mIs ->
  wf_world w = true -> c < List.length (bpy.collections w) ->
  exists w',
    StaticMesh.link_object_instance self obj c w
    = (Ok (seq (List.length (bpy.data_objects w)) (List.length mIs)), w')
    /\ bpy.data_objects w'
       = bpy.data_objects w ++ map (fun mI => instanced_object obj (matmul mB mI)) mIs
    /\ forall k mI,
        nth_error mIs k = Some mI ->
        option_map bpy.matrix_world
          (nth_error (bpy.data_objects w') (List.length (bpy.data_objects w) + k))
        = Some (Some (matmul mB mI)).
Proof.
  intros Hv Hi Ht HB HIs Hwf Hc.
  eexists. split; [| split].
  - unfold StaticMesh.link_object_instance. rewrite Hv, Ht, Hi.
    rewrite (link_instances_run _ _ _ _ HB _ _ HIs [] w Hwf Hc). reflexivity.
  - apply place_all_objects.
  - intros k mI Hk. rewrite place_all_objects.
    rewrite nth_error_app2 by lia.
    replace (List.length (bpy.data_objects w) + k - List.length (bpy.data_objects w))
      with k by lia.
    rewrite nth_error_map, Hk. reflexivity.
Qed.

End InstancedPlacement.

Lemma instance_matrix_is_base_times_instance_witness :
  exists w' : @bpy.World term_mathutils,
    @StaticMesh.link_object_instance term_mathutils
      (classified rec_instanced "InstancedStaticMeshComponent") rock_asset 0 empty_world
    = (Ok [0; 1], w')
    /\ bpy.data_objects w'
       = [ @instanced_object term_mathutils rock_asset
             (TMul (TLocRotScale (1, -2, 3)%float (0, 0, 0)%float (1, 1, 1)%float)
                   (TLocRotScale (1, -0, 0)%float (0, 0, 0)%float (1, 1, 1)%float));
           @instanced_object term_mathutils rock_asset
             (TMul (TLocRotScale (1, -2, 3)%float (0, 0, 0)%float (1, 1, 1)%float)
                   (TLocRotScale (0, 0, 0)%float (-2, 3, -4)%float (1, 1, 1)%float)) ].
Proof.
  destruct (@instance_matrix_is_base_times_instance term_mathutils
              (classified rec_instanced "InstancedStaticMeshComponent") rock_asset 0
              empty_world
              {| InstanceTransform.pos := (1, -2, 3)%float;
                 InstanceTransform.rot_euler := (0, 0, 0)%float;
                 InstanceTransform.scale := (JNum 1, JNum 1, JNum 1) |}
              (TLocRotScale (1, -2, 3)%float (0, 0, 0)%float (1, 1, 1)%float)
              [ TLocRotScale (1, -0, 0)%float (0, 0, 0)%float (1, 1, 1)%float;
                TLocRotScale (0, 0, 0)%float (-2, 3, -4)%float (1, 1, 1)%float ])
    as [w' [Hrun [Hobjs _]]].
  - reflexivity.
  - reflexivity.
  - reflexivity.
  - reflexivity.
  - repeat constructor.
  - reflexivity.
  - simpl. lia.
  - exists w'. split; [exact Hrun | exact Hobjs].
Defined.

(** On the sample record the product has the base on the left: the matrix of
    the first instance is neither the instance matrix alone nor the product
    taken the other way round. *)
Lemma sample_instance_matrix_order :
  let mB := TLocRotScale (1, -2, 3)%float (0, 0, 0)%float (1, 1, 1)%float in
  let mI := TLocRotScale (1, -0, 0)%float (0, 0, 0)%float (1, 1, 1)%float in
  @matmul term_mathutils mB mI <> mI
  /\ @matmul term_mathutils mB mI <> @matmul term_mathutils mI mB.
Proof.
  split; [discriminate |]. intros H.
  apply (f_equal (fun m => match m with
                           | TMul (TLocRotScale (_, y, _) _ _) _ => y
                           | _ => 0%float
                           end)) in H.
  simpl in H. revert H. apply float_neq. reflexivity.
Qed.

Section InstancedData.
Context `{MU : Mathutils} `{OP : OsPath}.

(** C6, as the code has it.  For a record of an instanced type that the
    constructor accepts:
    - without [PerInstanceSMData] the entity is invalid and places nothing,
      and [no_per_instance_data] is set when the record passed the earlier
      checks (properties, mesh, path, basic shape, main pass);
    - with an array under the key the flag stays unset, and an empty array
      places nothing;
    - when moreover the entity is valid, its instance transforms are as many
      as the array elements; and when every scale component of the entity
      and of its instances is a number, [link_object_instance] places as many
      objects, in an existing collection of a well-formed scene. *)
Theorem instanced_data_and_placements
    (json_entity : json) (entity_type : string) (sm : StaticMesh.t) :
  entity_type = "InstancedStaticMeshComponent"
  \/ entity_type = "HierarchicalInstancedStaticMeshComponent" ->
  StaticMesh.__init__ json_entity entity_type = Ok sm ->
  (py_get json_entity "PerInstanceSMData" JNull = Ok JNull ->
   StaticMesh.invalid sm = true
   /\ (forall obj c w, StaticMesh.link_object_instance sm obj c w = (Ok [], w))
   /\ (reaches_dispatch sm = true -> StaticMesh.no_per_instance_data sm = true))
  /\ (forall items,
       py_get json_entity "PerInstanceSMData" JNull = Ok (JArr items) ->
       StaticMesh.no_per_instance_data sm = false
       /\ (items = [] ->
           forall obj c w, StaticMesh.link_object_instance sm obj c w = (Ok [], w))
       /\ (StaticMesh.invalid sm = false ->
           List.length (StaticMesh.instance_transforms sm) = List.length items
           /\ forall obj c w,
               numeric_transforms sm = true ->
               wf_world w = true -> c < List.length (bpy.collections w) ->
               exists w',
                 StaticMesh.link_object_instance sm obj c w
                 = (Ok (seq (List.length (bpy.data_objects w)) (List.length items)), w')
                 /\ List.length (bpy.data_objects w')
                    = List.length (bpy.data_objects w) + List.length items)).
Proof.
  intros Hty Hinit.
  destruct (init_instanced_cases _ _ _ Hty Hinit)
    as [[Hreach [Hinv [Hflag Hnil]]] | [Hreach [Hinst [instances [Hget Hcases]]]]].
  - (* an early return *)
    split.
    + intros _. split; [exact Hinv | split].
      * intros obj c w. now apply link_invalid.
      * rewrite Hreach. discriminate.
    + intros items _. split; [exact Hflag | split].
      * intros _ obj c w. now apply link_invalid.
      * rewrite Hinv. discriminate.
  - split.
    + (* the key is absent *)
      intros Habs. rewrite Habs in Hget. injection Hget as <-.
      destruct Hcases as [[_ [Hflag _]] | [Hnone _]]; [| discriminate Hnone].
      assert (Hinv : StaticMesh.invalid sm = true).
      { unfold StaticMesh.invalid. rewrite Hflag.
        repeat rewrite orb_true_r. reflexivity. }
      split; [exact Hinv | split].
      * intros obj c w. now apply link_invalid.
      * intros _. exact Hflag.
    + (* an array under the key *)
      intros items Harr. rewrite Harr in Hget. injection Hget as <-.
      destruct Hcases as [[Hnone _] | [_ [Hflag [trs [items' [Ht [Hiter Hts]]]]]]];
        [discriminate Hnone |].
      simpl in Hiter. injection Hiter as <-.
      pose proof (Forall2_length Hts) as Hlen.
      split; [exact Hflag | split].
      * intros -> obj c w. unfold StaticMesh.link_object_instance.
        destruct (StaticMesh.invalid sm); [reflexivity |].
        rewrite Ht, Hinst. simpl in Hlen.
        destruct (StaticMesh.instance_transforms sm); [reflexivity | discriminate Hlen].
      * intros Hv. split; [now symmetry |].
        intros obj c w Hnum Hwf Hc.
        unfold numeric_transforms in Hnum. rewrite Ht in Hnum.
        apply andb_prop in Hnum. destruct Hnum as [HnB HnIs].
        destruct (numeric_scale_matrix _ HnB) as [mB HB].
        destruct (numeric_scales_matrices _ HnIs) as [mIs HIs].
        pose proof (Forall2_length HIs) as Hlen'.
        eexists. split.
        -- unfold StaticMesh.link_object_instance. rewrite Hv, Ht, Hinst.
           rewrite (link_instances_run _ _ _ _ HB _ _ HIs [] w Hwf Hc).
           simpl. rewrite <- Hlen', <- Hlen. reflexivity.
        -- rewrite place_all_objects, length_app, length_map. lia.
Qed.

End InstancedData.

(** C6 as the specification words it fails on three records: an instanced
    record without [Properties] and without [PerInstanceSMData] gets
    [no_entity], not [no_per_instance_data]; an instanced record with one
    array element and [bVisible = false] is invalid, so it places no object;
    and a valid instanced record with three array elements, the second with a
    string in its scale, places one object and raises. *)
Lemma instanced_data_counterexample :
  (py_get rec_instanced_bare "PerInstanceSMData" JNull = Ok JNull
   /\ exists sm,
       @StaticMesh.__init__ term_mathutils posix_path rec_instanced_bare
         "InstancedStaticMeshComponent" = Ok sm
       /\ StaticMesh.no_per_instance_data sm = false
       /\ StaticMesh.no_entity sm = true)
  /\ (py_get rec_instanced_hidden "PerInstanceSMData" JNull = Ok (JArr [JObj []])
      /\ exists sm,
          @StaticMesh.__init__ term_mathutils posix_path rec_instanced_hidden
            "InstancedStaticMeshComponent" = Ok sm
          /\ List.length (StaticMesh.instance_transforms sm) = 1
          /\ @StaticMesh.link_object_instance term_mathutils sm rock_asset 0 empty_world
             = (Ok [], empty_world))
  /\ (exists items,
        py_get rec_instanced_bad_scale "PerInstanceSMData" JNull = Ok (JArr items)
        /\ List.length items = 3
        /\ exists sm w',
            @StaticMesh.__init__ term_mathutils posix_path rec_instanced_bad_scale
              "InstancedStaticMeshComponent" = Ok sm
            /\ StaticMesh.invalid sm = false
            /\ List.length (StaticMesh.instance_transforms sm) = 3
            /\ @StaticMesh.link_object_instance term_mathutils sm rock_asset 0 empty_world
               = (Raise TypeError, w')
            /\ List.length (bpy.data_objects w') = 1
            /\ objects_of 0 w' = [0]).
Proof.
  split; [| split].
  - split; [reflexivity |]. eexists. repeat split; reflexivity.
  - split; [reflexivity |]. eexists. repeat split; reflexivity.
  - eexists. split; [reflexivity |]. split; [reflexivity |].
    exists (classified rec_instanced_bad_scale "InstancedStaticMeshComponent").
    eexists. split; [reflexivity |]. split; [reflexivity |].
    split; [reflexivity |]. split; [lazy; reflexivity |].
    split; reflexivity.
Qed.

Lemma instanced_data_and_placements_witness :
  List.length
    (StaticMesh.instance_transforms (classified rec_instanced "InstancedStaticMeshComponent"))
  = 2
  /\ exists w' : @bpy.World term_mathutils,
      @StaticMesh.link_object_instance term_mathutils
        (classified rec_instanced "InstancedStaticMeshComponent") rock_asset 0 empty_world
      = (Ok [0; 1], w')
      /\ List.length (bpy.data_objects w') = 2.
Proof.
  destruct (@instanced_data_and_placements term_mathutils posix_path rec_instanced
              "InstancedStaticMeshComponent"
              (classified rec_instanced "InstancedStaticMeshComponent")
              (or_introl eq_refl) eq_refl) as [_ Harr].
  destruct (Harr _ eq_refl) as [_ [_ Hvalid]].
  destruct (Hvalid eq_refl) as [Hlen Hlink].
  split; [exact Hlen |].
  apply (Hlink rock_asset 0 empty_world); [reflexivity | reflexivity | simpl; lia].
Defined.

(** ** Placement of lights *)

Section LightFacts.
Context `{MU : Mathutils}.

Lemma objects_of_link_to_same (c o : nat) (w : bpy.World) :
  c < List.length (bpy.collections w) ->
  objects_of c (linked c o w) = objects_of c w ++ [o].
Proof.
  intros Hc. unfold objects_of, linked, link_to. simpl.
  rewrite nth_error_update_nth, Nat.eqb_refl.
  destruct (nth_error (bpy.collections w) c) eqn:E; [reflexivity |].
  apply nth_error_None in E. lia.
Qed.

Lemma objects_of_link_to_other (c j o : nat) (w : bpy.World) :
  c <> j -> objects_of j (linked c o w) = objects_of j w.
Proof.
  intros Hne. unfold objects_of, linked, link_to. simpl.
  rewrite nth_error_update_nth.
  destruct (Nat.eqb_spec c j); [contradiction | reflexivity].
Qed.

Lemma placed_linked (ob : bpy.Object) (c : nat) (w : bpy.World) :
  placed ob c w = linked c (List.length (bpy.data_objects w)) (pending w ob).
Proof. reflexivity. Qed.

Lemma light_set_color_pending (l : bpy.Light) (w : bpy.World) (ob : bpy.Object)
    (col : vec3) :
  light_set_color (List.length (bpy.data_lights w)) col (pending (with_light l w) ob)
  = (Ok tt,
     pending (with_light {| bpy.light_name := bpy.light_name l;
                            bpy.light_type := bpy.light_type l;
                            bpy.color := Some col |} w) ob).
Proof.
  unfold light_set_color, pending, with_light. simpl.
  rewrite update_nth_app_last. reflexivity.
Qed.

(** [import_light] on a light that can be placed, in a well-formed world,
    with a target collection other than the scene's. *)
Lemma import_light_run (self : GameLight.t) (c : nat) (w : bpy.World) :
  GameLight.no_entity self = false ->
  placeable self = true ->
  wf_world w = true ->
  c < List.length (bpy.collections w) -> c <> bpy.scene_collection ->
  exists name kind s r,
    GameLight.entity_name self = JStr name
    /\ light_kind self = Some kind
    /\ vec_of_py (GameLight.scale self) = Ok s
    /\ GameLight.placement_rotation self = Ok r
    /\ GameLight.import_light self c w
       = (Ok true,
          linked bpy.scene_collection (List.length (bpy.data_objects w))
            (placed (light_object self name (List.length (bpy.data_lights w)) s r) c
               (with_light {| bpy.light_name := name; bpy.light_type := kind;
                              bpy.color := Some (GameLight.color self) |} w))).
Proof.
  intros Hne Hp Hwf Hc Hscene.
  unfold placeable in Hp.
  apply andb_prop in Hp. destruct Hp as [Hp Hrot].
  apply andb_prop in Hp. destruct Hp as [Hkn Hscale].
  destruct (light_kind self) as [kind |] eqn:Hkind; [| discriminate Hkn].
  destruct (GameLight.entity_name self) as [| | | name | |] eqn:Hname;
    try discriminate Hkn.
  assert (Hs : exists s, vec_of_py (GameLight.scale self) = Ok s).
  { unfold vec_of_py. destruct (GameLight.scale self) as [[x y] z].
    apply andb_prop in Hscale. destruct Hscale as [Hxy Hz].
    apply andb_prop in Hxy. destruct Hxy as [Hx Hy].
    destruct (numeric_as_float _ Hx) as [fx ->].
    destruct (numeric_as_float _ Hy) as [fy ->].
    destruct (numeric_as_float _ Hz) as [fz ->].
    eexists; reflexivity. }
  assert (Hr : exists r, GameLight.placement_rotation self = Ok r).
  { unfold GameLight.placement_rotation, math_radians.
    destruct (GameLight.rot self) as [[x y] z].
    apply andb_prop in Hrot. destruct Hrot as [Hxy Hz].
    apply andb_prop in Hxy. destruct Hxy as [Hx Hy].
    destruct (numeric_as_float _ Hx) as [fx ->].
    destruct (numeric_as_float _ Hy) as [fy ->].
    destruct (numeric_as_float _ Hz) as [fz ->].
    eexists; reflexivity. }
  destruct Hs as [s Hs]. destruct Hr as [r Hr].
  exists name, kind, s, r. repeat split; try assumption.
  unfold GameLight.import_light. rewrite Hne.
  set (wl := with_light {| bpy.light_name := name; bpy.light_type := kind;
                           bpy.color := None |} w).
  assert (Hlight :
    (if eq_str (GameLight.type self) "SpotLightComponent"
     then name0 <~ lift (GameLight.as_str (GameLight.entity_name self)) ;;
          l <~ data_lights_new name0 "SPOT" ;; ret (Some l)
     else if eq_str (GameLight.type self) "PointLightComponent"
     then name0 <~ lift (GameLight.as_str (GameLight.entity_name self)) ;;
          l <~ data_lights_new name0 "POINT" ;; ret (Some l)
     else ret None) w
    = (Ok (Some (List.length (bpy.data_lights w))), wl)).
  { unfold light_kind in Hkind. rewrite Hname.
    destruct (eq_str (GameLight.type self) "SpotLightComponent").
    - injection Hkind as <-. reflexivity.
    - destruct (eq_str (GameLight.type self) "PointLightComponent");
        [injection Hkind as <-; reflexivity | discriminate Hkind]. }
  rewrite (bind_ok _ _ _ _ _ Hlight).
  rewrite Hname. cbn [GameLight.as_str].
  rewrite (bind_lift_ok _ _ _ _ eq_refl).
  rewrite (bind_ok _ _ _ _ _ (data_objects_new_pending _ _ _)).
  rewrite (bind_lift_ok _ _ _ _ Hs).
  unfold ob_set_scale, ob_set_location, ob_set_rotation_mode, ob_set_rotation_euler.
  rewrite !(bind_ok _ _ _ _ _ (update_object_pending _ _ _)).
  rewrite (bind_lift_ok _ _ _ _ Hr).
  rewrite !(bind_ok _ _ _ _ _ (update_object_pending _ _ _)).
  unfold wl.
  rewrite (bind_ok _ _ _ _ _ (light_set_color_pending _ _ _ _)).
  cbn [bpy.light_name bpy.light_type].
  set (wl' := with_light {| bpy.light_name := name; bpy.light_type := kind;
                            bpy.color := Some (GameLight.color self) |} w).
  set (ob := light_object self name (List.length (bpy.data_lights w)) s r).
  match goal with
  | |- bind (objects_link c ?n) ?k ?w0 = _ =>
      change w0 with (pending wl' ob);
      change n with (List.length (bpy.data_objects wl'))
  end.
  rewrite (bind_ok _ _ _ _ _ (objects_link_pending c wl' ob Hwf Hc)).
  unfold bind, objects_link.
  assert (H0 : exists col0, nth_error (bpy.collections (placed ob c wl')) bpy.scene_collection
                             = Some col0
                            /\ collection_ok (List.length (bpy.data_objects wl')) col0 = true).
  { unfold placed, link_to. cbn [bpy.collections with_collections with_objects].
    rewrite nth_error_update_nth.
    destruct (Nat.eqb_spec c bpy.scene_collection); [contradiction |].
    destruct (nth_error (bpy.collections wl') bpy.scene_collection) as [col0 |] eqn:E0.
    - exists col0. split; [reflexivity |]. exact (wf_world_nth wl' _ _ Hwf E0).
    - apply nth_error_None in E0. unfold wl', bpy.scene_collection in E0.
      simpl in E0. lia. }
  destruct H0 as [col0 [E0 Hok]]. rewrite E0.
  rewrite (fresh_not_linked _ _ Hok). reflexivity.
Qed.

End LightFacts.

Section LightClaims.
Context `{MU : Mathutils}.

Lemma fresh_not_in (c : nat) (w : bpy.World) :
  wf_world w = true -> ~ In (List.length (bpy.data_objects w)) (objects_of c w).
Proof.
  intros Hwf Hin. unfold objects_of in Hin.
  destruct (nth_error (bpy.collections w) c) as [col |] eqn:E; [| exact Hin].
  pose proof (wf_world_nth _ _ _ Hwf E) as Hok.
  unfold collection_ok in Hok. rewrite forallb_forall in Hok.
  specialize (Hok _ Hin). apply Nat.ltb_lt in Hok. lia.
Qed.

(** C10 fails on the code: the light classified from a record whose
    [RelativeRotation] holds only a yaw is valid, with [None] for roll and
    pitch; [import_light] creates its data block and its object, assigns
    scale, location and rotation mode, and raises [TypeError] when it converts
    the roll to radians.  The object is left in the scene data, linked to no
    collection: neither the target collection nor the root collection of the
    scene holds it, whatever the scene and the target are. *)
Theorem valid_light_left_unlinked (c : nat) (w : bpy.World) :
  exists self w',
    GameLight.__init__ rec_light_yaw_only = Ok self
    /\ GameLight.invalid self = false
    /\ GameLight.rot self = (JNull, JNull, JNum (90 * -1)%float)
    /\ GameLight.import_light self c w = (Raise TypeError, w')
    /\ bpy.data_lights w'
       = bpy.data_lights w
         ++ [{| bpy.light_name := "Lamp"; bpy.light_type := "POINT";
                bpy.color := None |}]
    /\ bpy.data_objects w'
       = bpy.data_objects w
         ++ [{| bpy.name := "Lamp";
                bpy.data := bpy.LightData (List.length (bpy.data_lights w));
                bpy.scale := Some (1, 1, 1)%float;
                bpy.location := Some (0, 0, 0)%float;
                bpy.rotation_mode := Some "XYZ";
                bpy.rotation_euler := None;
                bpy.matrix_world := None |}]
    /\ bpy.collections w' = bpy.collections w
    /\ objects_of c w' = objects_of c w
    /\ objects_of bpy.scene_collection w' = objects_of bpy.scene_collection w.
Proof.
  exists (classified_light rec_light_yaw_only). eexists.
  split; [reflexivity |]. split; [reflexivity |]. split; [reflexivity |].
  split.
  - unfold GameLight.import_light.
    change (GameLight.no_entity (classified_light rec_light_yaw_only)) with false.
    change (eq_str (GameLight.type (classified_light rec_light_yaw_only))
              "SpotLightComponent") with false.
    change (eq_str (GameLight.type (classified_light rec_light_yaw_only))
              "PointLightComponent") with true.
    change (GameLight.entity_name (classified_light rec_light_yaw_only))
      with (JStr "Lamp").
    cbv iota. cbn [GameLight.as_str].
    unfold bind at 1. unfold bind at 1. cbn [lift]. unfold bind at 1.
    cbn [data_lights_new ret].
    rewrite (bind_lift_ok _ _ _ _ eq_refl).
    rewrite (bind_ok _ _ _ _ _ (data_objects_new_pending _ _ _)).
    change (vec_of_py (GameLight.scale (classified_light rec_light_yaw_only)))
      with (@Ok vec3 (1, 1, 1)%float).
    rewrite (bind_lift_ok _ _ _ _ eq_refl).
    unfold ob_set_scale, ob_set_location, ob_set_rotation_mode.
    match goal with
    | |- context [with_lights ?l w] =>
        change (with_lights l w)
          with (with_light {| bpy.light_name := "Lamp"; bpy.light_type := "POINT";
                              bpy.color := None |} w)
    end.
    set (wl := with_light _ w).
    change (List.length (bpy.data_objects w)) with (List.length (bpy.data_objects wl)).
    rewrite !(bind_ok _ _ _ _ _ (update_object_pending _ _ _)).
    reflexivity.
  - repeat split; reflexivity.
Qed.

(** X28.  Importing a light that can be placed (a supported type, a string
    for a name, numbers for scale and rotation) into an existing collection
    other than the root collection of the scene links the object it creates,
    a new object that holds the new light data block, to two collections:
    the target collection and the root collection of the scene; no other
    collection changes. *)
Theorem light_linked_to_target_and_scene
    (self : GameLight.t) (c : nat) (w : bpy.World) :
  GameLight.invalid self = false ->
  placeable self = true ->
  wf_world w = true ->
  c < List.length (bpy.collections w) -> c <> bpy.scene_collection ->
  exists w' ob,
    GameLight.import_light self c w = (Ok true, w')
    /\ nth_error (bpy.data_objects w') (List.length (bpy.data_objects w)) = Some ob
    /\ bpy.data ob = bpy.LightData (List.length (bpy.data_lights w))
    /\ List.length (bpy.data_lights w') = S (List.length (bpy.data_lights w))
    /\ objects_of c w' = objects_of c w ++ [List.length (bpy.data_objects w)]
    /\ objects_of bpy.scene_collection w'
       = objects_of bpy.scene_collection w ++ [List.length (bpy.data_objects w)]
    /\ ~ In (List.length (bpy.data_objects w)) (objects_of c w)
    /\ ~ In (List.length (bpy.data_objects w)) (objects_of bpy.scene_collection w)
    /\ forall j, j <> c -> j <> bpy.scene_collection -> objects_of j w' = objects_of j w.
Proof.
  intros Hv Hp Hwf Hc Hscene.
  destruct (import_light_run self c w Hv Hp Hwf Hc Hscene)
    as [name [kind [s [r [_ [_ [_ [_ Hrun]]]]]]]].
  eexists. exists (light_object self name (List.length (bpy.data_lights w)) s r).
  split; [exact Hrun |].
  assert (H0 : bpy.scene_collection < List.length (bpy.collections w))
    by (unfold bpy.scene_collection; lia).
  split.
  { cbn [linked placed bpy.data_objects with_collections with_objects with_light
         with_lights].
    rewrite nth_error_app2 by lia. now rewrite Nat.sub_diag. }
  split; [reflexivity |].
  split.
  { cbn [linked placed bpy.data_lights with_collections with_objects with_light
         with_lights].
    rewrite length_app. simpl. lia. }
  repeat split.
  - rewrite objects_of_link_to_other by (intros E; apply Hscene; now symmetry).
    rewrite placed_linked. now rewrite objects_of_link_to_same.
  - rewrite objects_of_link_to_same
      by (rewrite placed_collections_length; exact H0).
    rewrite placed_linked. now rewrite objects_of_link_to_other.
  - now apply fresh_not_in.
  - now apply fresh_not_in.
  - intros j Hjc Hjs.
    rewrite objects_of_link_to_other by (intros E; apply Hjs; now symmetry).
    rewrite placed_linked.
    now rewrite objects_of_link_to_other by (intros E; apply Hjc; now symmetry).
Qed.

(** C2, as the code has it.  A light record with a [RelativeRotation] of
    (roll, pitch, yaw) degrees is classified with roll and pitch as they are
    and with the yaw negated, still in degrees; [import_light] converts the
    three components to radians when it places the object. *)
Theorem light_rotation_degrees_until_placement
    (json_entity props rot : json) (roll pitch yaw : float) (self : GameLight.t) :
  GameLight.__init__ json_entity = Ok self ->
  GameLight.invalid self = false ->
  py_get json_entity "Properties" JNull = Ok props ->
  py_get props "RelativeRotation" JNull = Ok rot ->
  py_get rot "Roll" JNull = Ok (JNum roll) ->
  py_get rot "Pitch" JNull = Ok (JNum pitch) ->
  py_get rot "Yaw" JNull = Ok (JNum yaw) ->
  GameLight.rot self = (JNum roll, JNum pitch, JNum (yaw * -1)%float)
  /\ GameLight.placement_rotation self
     = Ok (roll * degToRad, pitch * degToRad, yaw * -1 * degToRad)%float
  /\ forall c w,
      placeable self = true -> wf_world w = true ->
      c < List.length (bpy.collections w) -> c <> bpy.scene_collection ->
      exists w',
        GameLight.import_light self c w = (Ok true, w')
        /\ option_map bpy.rotation_euler
             (nth_error (bpy.data_objects w') (List.length (bpy.data_objects w)))
           = Some (Some (roll * degToRad, pitch * degToRad, yaw * -1 * degToRad)%float).
Proof.
  intros Hinit Hv Hprops Hrot Hroll Hpitch Hyaw.
  assert (Hnone : is_none rot = false)
    by (destruct rot; try discriminate Hroll; reflexivity).
  assert (Hlr : GameLight.light_rotation rot
                = Ok (JNum roll, JNum pitch, JNum (yaw * -1)%float)).
  { unfold GameLight.light_rotation. rewrite Hroll, Hpitch, Hyaw. reflexivity. }
  assert (Hfield : GameLight.rot self = (JNum roll, JNum pitch, JNum (yaw * -1)%float)).
  { unfold GameLight.__init__ in Hinit.
    destruct (py_get json_entity "Outer" (JStr "Error")) as [name |];
      [cbn [rbind] in Hinit | discriminate Hinit].
    destruct (py_get json_entity "Type" JNull) as [ty |];
      [cbn [rbind] in Hinit | discriminate Hinit].
    rewrite Hprops in Hinit. cbn [rbind] in Hinit.
    rewrite Hrot in Hinit.
    unfold GameLight.invalid in Hv.
    destruct (negb (truthy ty));
      [injection Hinit as <-; discriminate Hv |].
    destruct (negb (truthy props));
      [injection Hinit as <-; discriminate Hv |].
    inv_ok; try reflexivity.
    all: match goal with
         | H : negb (is_none _) = false |- _ => rewrite Hnone in H; discriminate H
         end. }
  assert (Hplace : GameLight.placement_rotation self
                   = Ok (roll * degToRad, pitch * degToRad, yaw * -1 * degToRad)%float).
  { unfold GameLight.placement_rotation. rewrite Hfield. reflexivity. }
  split; [exact Hfield | split; [exact Hplace |]].
  intros c w Hp Hwf Hc Hscene.
  destruct (import_light_run self c w Hv Hp Hwf Hc Hscene)
    as [name [kind [s [r [_ [_ [_ [Hr Hrun]]]]]]]].
  rewrite Hplace in Hr. injection Hr as <-.
  eexists. split; [exact Hrun |].
  cbn [linked bpy.data_objects with_collections placed with_objects].
  rewrite nth_error_app2 by (simpl; lia).
  simpl. rewrite Nat.sub_diag. reflexivity.
Qed.

End LightClaims.

Lemma light_linked_to_target_and_scene_witness :
  exists w' : @bpy.World term_mathutils,
    @GameLight.import_light term_mathutils (classified_light rec_light) 1 import_world
    = (Ok true, w')
    /\ objects_of 1 w' = [0]
    /\ objects_of bpy.scene_collection w' = [0].
Proof.
  destruct (@light_linked_to_target_and_scene term_mathutils
              (classified_light rec_light) 1 import_world)
    as [w' [ob [Hrun [_ [_ [_ [Hc [Hs _]]]]]]]].
  - reflexivity.
  - reflexivity.
  - reflexivity.
  - simpl. lia.
  - discriminate.
  - exists w'. repeat split; assumption.
Defined.

(** C2 as the specification words it fails: the light classified from a
    record rotated by (10, 20, 30) degrees holds (10, 20, -30), the yaw
    negated. *)
Lemma light_yaw_counterexample :
  exists self,
    GameLight.__init__ rec_light = Ok self
    /\ GameLight.rot self = (JNum 10, JNum 20, JNum (-30))
    /\ GameLight.rot self <> (JNum 10, JNum 20, JNum 30).
Proof.
  eexists. split; [reflexivity |]. split; [reflexivity |].
  vm_compute. intros H.
  apply (f_equal (fun p : pyvec3 => match snd p with JNum f => f | _ => 0%float end)) in H.
  simpl in H. revert H. apply float_neq. reflexivity.
Qed.

Lemma light_rotation_degrees_until_placement_witness :
  GameLight.rot (classified_light rec_light)
  = (JNum 10, JNum 20, JNum (30 * -1)%float)
  /\ GameLight.placement_rotation (classified_light rec_light)
     = Ok (10 * degToRad, 20 * degToRad, 30 * -1 * degToRad)%float.
Proof.
  destruct (@light_rotation_degrees_until_placement term_mathutils rec_light
              (JObj [("RelativeRotation",
                      JObj [("Roll", JNum 10); ("Pitch", JNum 20); ("Yaw", JNum 30)])])
              (JObj [("Roll", JNum 10); ("Pitch", JNum 20); ("Yaw", JNum 30)])
              10%float 20%float 30%float (classified_light rec_light))
    as [Hrot [Hplace _]]; try reflexivity.
  split; [exact Hrot | exact Hplace].
Defined.

(** ** The scene assembler *)

Section AssemblerFacts.
Context `{MU : Mathutils} `{OP : OsPath} `{AL : AssetLoader}.

Lemma mesh_type_dispatch (ty : string) :
  In ty StaticMesh.static_mesh_types ->
  truthy (JStr ty) = true
  /\ MapImporter.type_in (JStr ty) StaticMesh.static_mesh_types = true.
Proof.
  intros [<- | [<- | [<- | []]]]; split; reflexivity.
Qed.

Lemma type_in_mesh_types (ty : string) :
  MapImporter.type_in (JStr ty) StaticMesh.static_mesh_types = true ->
  In ty StaticMesh.static_mesh_types.
Proof.
  unfold MapImporter.type_in. intros H. apply existsb_exists in H.
  destruct H as [t [Hin Heq]]. simpl in Heq. apply String.eqb_eq in Heq. now subst.
Qed.

(** The assembler skips an invalid mesh: the world is left as it is. *)
Lemma import_entity_skips_invalid (c : nat) (prev : option StaticMesh.t)
    (entity : json) (ty : string) (sm : StaticMesh.t) (w : bpy.World) :
  py_get entity "Type" JNull = Ok (JStr ty) ->
  In ty StaticMesh.static_mesh_types ->
  StaticMesh.__init__ entity ty = Ok sm ->
  StaticMesh.invalid sm = true ->
  MapImporter.import_entity c prev entity w = (Ok (Some sm), w).
Proof.
  intros Hty Hin Hinit Hinv. destruct (mesh_type_dispatch ty Hin) as [Ht Hd].
  unfold MapImporter.import_entity.
  rewrite (bind_lift_ok _ _ _ _ Hty), Ht. cbn [negb].
  rewrite (bind_lift_ok _ _ _ _ Hty), Hd. cbn [MapImporter.type_name].
  rewrite (bind_lift_ok _ _ _ _ Hinit), Hinv. reflexivity.
Qed.

(** The assembler skips a mesh whose asset is not found. *)
Lemma import_entity_skips_unresolved (c : nat) (prev : option StaticMesh.t)
    (entity : json) (ty : string) (sm : StaticMesh.t) (w : bpy.World) :
  py_get entity "Type" JNull = Ok (JStr ty) ->
  In ty StaticMesh.static_mesh_types ->
  StaticMesh.__init__ entity ty = Ok sm ->
  _load_asset (StaticMesh.asset_path sm) = None ->
  MapImporter.import_entity c prev entity w = (Ok (Some sm), w).
Proof.
  intros Hty Hin Hinit Hnone. destruct (mesh_type_dispatch ty Hin) as [Ht Hd].
  unfold MapImporter.import_entity.
  rewrite (bind_lift_ok _ _ _ _ Hty), Ht. cbn [negb].
  rewrite (bind_lift_ok _ _ _ _ Hty), Hd. cbn [MapImporter.type_name].
  rewrite (bind_lift_ok _ _ _ _ Hinit), Hnone.
  destruct (StaticMesh.invalid sm); reflexivity.
Qed.

Lemma skipped_mesh_step (c : nat) (prev : option StaticMesh.t) (entity : json)
    (w : bpy.World) :
  skipped_mesh entity = true ->
  exists sm, MapImporter.import_entity c prev entity w = (Ok (Some sm), w).
Proof.
  unfold skipped_mesh. intros H.
  destruct (py_get entity "Type" JNull) as [[| | | ty | |] |] eqn:Hty;
    try discriminate H.
  apply andb_prop in H. destruct H as [Hd H].
  apply type_in_mesh_types in Hd.
  destruct (StaticMesh.__init__ entity ty) as [sm |] eqn:Hinit; [| discriminate H].
  exists sm. destruct (StaticMesh.invalid sm) eqn:Hinv.
  - now apply (import_entity_skips_invalid c prev entity ty).
  - simpl in H.
    destruct (_load_asset (StaticMesh.asset_path sm)) eqn:Hload; [discriminate H |].
    now apply (import_entity_skips_unresolved c prev entity ty).
Qed.

Lemma skipped_meshes_run (c : nat) (entities : list json) :
  forallb skipped_mesh entities = true ->
  forall (prev : option StaticMesh.t) (w : bpy.World),
    exists last, MapImporter.import_entities c prev entities w = (Ok last, w).
Proof.
  induction entities as [| e rest IH]; intros Hall prev w.
  - exists prev. reflexivity.
  - simpl in Hall. apply andb_prop in Hall. destruct Hall as [He Hrest].
    destruct (skipped_mesh_step c prev e w He) as [sm Hstep].
    cbn [MapImporter.import_entities].
    rewrite (bind_ok _ _ _ _ _ Hstep). apply (IH Hrest).
Qed.

(** The two statements that open [_import_map] once the file exists. *)
Lemma import_collection_created (name : string) (w : bpy.World) :
  scene_ok w = true ->
  (import_collection <~ data_collections_new name ;;
   _ <~ children_link bpy.scene_collection import_collection ;;
   ret import_collection) w
  = (Ok (List.length (bpy.collections w)), with_import_collection name w).
Proof.
  unfold scene_ok. intros Hok.
  destruct (nth_error (bpy.collections w) bpy.scene_collection) as [col |] eqn:E;
    [| discriminate Hok].
  unfold bind, data_collections_new, children_link, ret.
  cbn [bpy.collections with_collections].
  rewrite nth_error_app1 by (apply nth_error_Some; rewrite E; discriminate).
  rewrite E.
  assert (Hfresh : existsb (Nat.eqb (List.length (bpy.collections w))) (bpy.children col)
                   = false).
  { destruct (existsb _ (bpy.children col)) eqn:Ex; [| reflexivity].
    apply existsb_exists in Ex. destruct Ex as [ch [Hin Heq]].
    apply Nat.eqb_eq in Heq. subst ch.
    rewrite forallb_forall in Hok. specialize (Hok _ Hin).
    apply Nat.ltb_lt in Hok. lia. }
  rewrite Hfresh. reflexivity.
Qed.

End AssemblerFacts.

Section AssemblerClaims.
Context `{MU : Mathutils} `{OP : OsPath} `{AL : AssetLoader}.

(** C1, as the code has it.  A mesh entity with [invisible] or
    [bad_creation_method] set is invalid like one with any other flag:
    [link_object_instance] places nothing for it, and the assembler skips the
    record before it asks for the asset, leaving the scene as it is. *)
Theorem advisory_flags_invalidate (sm : StaticMesh.t) :
  StaticMesh.invisible sm = true \/ StaticMesh.bad_creation_method sm = true ->
  StaticMesh.invalid sm = true
  /\ (forall obj c w, StaticMesh.link_object_instance sm obj c w = (Ok [], w))
  /\ (forall entity ty c prev w,
        py_get entity "Type" JNull = Ok (JStr ty) ->
        In ty StaticMesh.static_mesh_types ->
        StaticMesh.__init__ entity ty = Ok sm ->
        MapImporter.import_entity c prev entity w = (Ok (Some sm), w)).
Proof.
  intros Hflag.
  assert (Hinv : StaticMesh.invalid sm = true).
  { unfold StaticMesh.invalid.
    destruct Hflag as [-> | ->]; repeat rewrite orb_true_r; reflexivity. }
  split; [exact Hinv | split].
  - intros obj c w. now apply link_invalid.
  - intros entity ty c prev w Hty Hin Hinit.
    now apply (import_entity_skips_invalid c prev entity ty).
Qed.

(** X27.  [_import_map] returns [False] exactly when the file does not exist,
    and then touches nothing.  When the file exists the result is never
    [False]: a file that cannot be opened or parsed makes the call raise,
    after the import collection has been created.  A mesh record that is
    invalid or whose asset is not found is skipped, the records after it are
    processed from the same scene, and a document made of such records yields
    [True]. *)
Theorem import_map_result (map_path : string) (w : bpy.World) :
  MapImporter._import_map map_path MapImporter.FileMissing w = (Ok false, w)
  /\ (forall file,
        file <> MapImporter.FileMissing ->
        fst (MapImporter._import_map map_path file w) <> Ok false)
  /\ (forall e,
        exists e', fst (MapImporter._import_map map_path (MapImporter.FileBroken e) w)
                   = Raise e')
  /\ (forall e,
        scene_ok w = true ->
        MapImporter._import_map map_path (MapImporter.FileBroken e) w
        = (Raise e, with_import_collection (basename map_path) w))
  /\ (forall c prev entity rest w0,
        skipped_mesh entity = true ->
        exists sm,
          MapImporter.import_entities c prev (entity :: rest) w0
          = MapImporter.import_entities c (Some sm) rest w0)
  /\ (forall doc entities,
        py_iter doc = Ok entities ->
        forallb skipped_mesh entities = true ->
        scene_ok w = true ->
        MapImporter._import_map map_path (MapImporter.FileJson doc) w
        = (Ok true,
           with_timers (S (bpy.timers w))
             (with_import_collection (basename map_path) w)))
  /\ (forall doc entities last w1,
        py_iter doc = Ok entities ->
        scene_ok w = true ->
        MapImporter.import_entities (List.length (bpy.collections w)) None entities
          (with_import_collection (basename map_path) w) = (Ok last, w1) ->
        MapImporter._import_map map_path (MapImporter.FileJson doc) w
        = (Ok true, with_timers (S (bpy.timers w1)) w1)).
Proof.
  split; [reflexivity |].
  split.
  { intros file Hfile.
    destruct file as [| e | doc]; [contradiction | |];
      unfold MapImporter._import_map, bind, throw, ret, lift;
      repeat match goal with
        | |- context [match ?x with _ => _ end] => destruct x
        end; simpl; discriminate. }
  split.
  { intros e. unfold MapImporter._import_map, bind, throw.
    repeat match goal with
      | |- context [match ?x with _ => _ end] => destruct x
      end; simpl; eexists; reflexivity. }
  split.
  { intros e Hok. unfold MapImporter._import_map.
    pose proof (import_collection_created (basename map_path) w Hok) as Hnew.
    unfold bind in *.
    destruct (data_collections_new (basename map_path) w) as [[ic | e0] w1];
      [| discriminate Hnew].
    destruct (children_link bpy.scene_collection ic w1) as [[[] | e1] w2];
      [| discriminate Hnew].
    unfold ret in Hnew. injection Hnew as _ <-. reflexivity. }
  split.
  { intros c prev entity rest w0 Hskip.
    destruct (skipped_mesh_step c prev entity w0 Hskip) as [sm Hstep].
    exists sm. cbn [MapImporter.import_entities].
    now rewrite (bind_ok _ _ _ _ _ Hstep). }
  assert (Hdone : forall doc entities last w1,
            py_iter doc = Ok entities ->
            scene_ok w = true ->
            MapImporter.import_entities (List.length (bpy.collections w)) None entities
              (with_import_collection (basename map_path) w) = (Ok last, w1) ->
            MapImporter._import_map map_path (MapImporter.FileJson doc) w
            = (Ok true, with_timers (S (bpy.timers w1)) w1)).
  { intros doc entities last w1 Hiter Hok Hrun. unfold MapImporter._import_map.
    pose proof (import_collection_created (basename map_path) w Hok) as Hnew.
    unfold bind in *.
    destruct (data_collections_new (basename map_path) w) as [[ic | e0] w0];
      [| discriminate Hnew].
    destruct (children_link bpy.scene_collection ic w0) as [[[] | e1] w2];
      [| discriminate Hnew].
    unfold ret in Hnew. injection Hnew as -> ->.
    unfold lift. rewrite Hiter, Hrun. reflexivity. }
  split; [| exact Hdone].
  intros doc entities Hiter Hall Hok.
  destruct (skipped_meshes_run (List.length (bpy.collections w)) entities Hall None
              (with_import_collection (basename map_path) w)) as [last Hrun].
  apply (Hdone doc entities last _ Hiter Hok Hrun).
Qed.

(** C9 fails on the code: on a file that exists and on which [open] or
    [json.load] raises, [_import_map] does not return [False]: the exception
    leaves the call, after the import collection has been created and made a
    child of the scene collection.  On a file that does not exist the call
    returns [False] and leaves the scene as it was. *)
Theorem unparsable_file_raises (map_path : string) (e : exn) :
  MapImporter._import_map map_path (MapImporter.FileBroken e) empty_world
  = (Raise e, with_import_collection (basename map_path) empty_world)
  /\ fst (MapImporter._import_map map_path (MapImporter.FileBroken e) empty_world)
     <> Ok false
  /\ List.length (bpy.collections (with_import_collection (basename map_path) empty_world))
     = 2
  /\ objects_of 1 (with_import_collection (basename map_path) empty_world) = []
  /\ with_import_collection (basename map_path) empty_world <> empty_world
  /\ MapImporter._import_map map_path MapImporter.FileMissing empty_world
     = (Ok false, empty_world).
Proof.
  split; [reflexivity |]. split; [discriminate |]. split; [reflexivity |].
  split; [reflexivity |]. split; [| reflexivity].
  intros H. apply (f_equal (fun w => List.length (bpy.collections w))) in H.
  discriminate H.
Qed.

(** C3 fails on the code: a light record without [Properties], met before
    any mesh record, makes the assembler raise [UnboundLocalError] (the skip
    message of the light branch reads the variable [static_mesh]), while the
    same record after a mesh record is skipped; and a position without [X]
    makes the mesh classifier raise [TypeError], where a scale without [X]
    defaults to 1. *)
Theorem absent_fields_raise (map_path : string) :
  fst (MapImporter._import_map map_path
         (MapImporter.FileJson (JArr [rec_light_bare])) empty_world)
  = Raise UnboundLocalError
  /\ fst (MapImporter._import_map map_path
            (MapImporter.FileJson (JArr [rec_invisible; rec_light_bare])) empty_world)
     = Ok true
  /\ StaticMesh.__init__ rec_no_x "StaticMeshComponent" = Raise TypeError
  /\ fst (MapImporter._import_map map_path
            (MapImporter.FileJson (JArr [rec_no_x])) empty_world)
     = Raise TypeError.
Proof. repeat split; reflexivity. Qed.

End AssemblerClaims.

(** C1 as the specification words it fails: a static mesh whose only flag is
    [invisible] is invalid, and the assembler places nothing for it although
    the loader finds its asset. *)
Lemma advisory_flag_counterexample :
  exists sm,
    @StaticMesh.__init__ term_mathutils posix_path rec_invisible "StaticMeshComponent"
    = Ok sm
    /\ StaticMesh.invisible sm = true
    /\ (StaticMesh.no_path sm || StaticMesh.no_entity sm || StaticMesh.base_shape sm
        || StaticMesh.no_mesh sm || StaticMesh.no_per_instance_data sm
        || StaticMesh.not_rendered sm || StaticMesh.bad_creation_method sm) = false
    /\ @_load_asset loader_all (StaticMesh.asset_path sm) <> None
    /\ StaticMesh.invalid sm = true
    /\ exists w',
        @MapImporter._import_map term_mathutils posix_path loader_all "map.json"
          (MapImporter.FileJson (JArr [rec_invisible])) empty_world
        = (Ok true, w')
        /\ bpy.data_objects w' = []
        /\ objects_of 1 w' = [].
Proof.
  eexists. split; [reflexivity |].
  repeat split; try reflexivity; try discriminate.
  eexists. repeat split; reflexivity.
Qed.

Lemma advisory_flags_invalidate_witness :
  StaticMesh.invisible (classified rec_invisible "StaticMeshComponent") = true
  /\ StaticMesh.invalid (classified rec_invisible "StaticMeshComponent") = true
  /\ @MapImporter.import_entity term_mathutils posix_path loader_all 1 None
       rec_invisible import_world
     = (Ok (Some (classified rec_invisible "StaticMeshComponent")), import_world).
Proof.
  destruct (@advisory_flags_invalidate term_mathutils posix_path loader_all
              (classified rec_invisible "StaticMeshComponent") (or_introl eq_refl))
    as [Hinv [_ Hskip]].
  split; [reflexivity | split; [exact Hinv |]].
  apply (Hskip rec_invisible "StaticMeshComponent"); [reflexivity | | reflexivity].
  simpl. auto.
Defined.

Lemma import_map_result_witness :
  @MapImporter._import_map term_mathutils posix_path loader_none "map.json"
    (MapImporter.FileJson (JArr [rec_invisible; rec_position; rec_instanced_bare]))
    empty_world
  = (Ok true, with_timers 1 (with_import_collection "map.json" empty_world)).
Proof.
  destruct (@import_map_result term_mathutils posix_path loader_none "map.json"
              empty_world) as [_ [_ [_ [_ [_ [Hall _]]]]]].
  apply (Hall (JArr [rec_invisible; rec_position; rec_instanced_bare])
           [rec_invisible; rec_position; rec_instanced_bare]); reflexivity.
Defined.

(** ** Conversions *)

Section ConversionClaims.
Context `{MU : Mathutils} `{OP : OsPath}.
Local Open Scope float_scope.


(** C7.  Below 965 K the colour is (4.70366907, 0, 0) and from 12000 K on
    it is (0.826270103, 0.994478524, 1.56626022), whatever the temperature. *)
Theorem temp_to_color_saturates (T : float) :
  ((T <? 965) = true -> GameLight.temp_to_color T = (4.70366907, 0, 0))
  /\ ((12000 <=? T) = true
      -> GameLight.temp_to_color T = (0.826270103, 0.994478524, 1.56626022)).
Proof.
  unfold GameLight.temp_to_color. split; intros H.
  - rewrite (below_965_not_above_12000 T H), H. reflexivity.
  - rewrite H. reflexivity.
Qed.

(** The rotation step of the loop body: with a rotation (W, X, Y, Z) in its
    transform data, an instance that the loop body accepts carries the angles
    of the quaternion with X and Z negated. *)
Lemma instance_transform_rotation
    (instance trs_data rot : json) (qw qx qy qz ex ey ez : float) :
  py_get instance "TransformData" JNull = Ok trs_data ->
  py_get trs_data "Rotation" JNull = Ok rot ->
  py_get rot "W" JNull = Ok (JNum qw) ->
  py_get rot "X" JNull = Ok (JNum qx) ->
  py_get rot "Y" JNull = Ok (JNum qy) ->
  py_get rot "Z" JNull = Ok (JNum qz) ->
  Quaternion_to_euler (qw, qx, qy, qz) = (ex, ey, ez) ->
  StaticMesh.convert_quaternion rot = Ok (- ex, ey, - ez)
  /\ (forall trs,
        StaticMesh.instance_transform instance = Ok trs ->
        InstanceTransform.rot_euler trs = (- ex, ey, - ez))
  /\ (py_get trs_data "Translation" JNull = Ok JNull ->
      py_get trs_data "Scale3D" JNull = Ok JNull ->
      StaticMesh.instance_transform instance
      = Ok (InstanceTransform.set_rot_euler (- ex, ey, - ez) InstanceTransform.__init__)).
Proof.
  intros Htd Hrot Hw Hx Hy Hz Heuler.
  assert (Hq : StaticMesh.convert_quaternion rot = Ok (- ex, ey, - ez)).
  { unfold StaticMesh.convert_quaternion. rewrite Hw, Hx, Hy, Hz. simpl.
    now rewrite Heuler. }
  assert (Htd_some : is_none trs_data = false)
    by (destruct trs_data; try discriminate Hrot; reflexivity).
  assert (Hrot_some : is_none rot = false)
    by (destruct rot; try discriminate Hw; reflexivity).
  split; [exact Hq | split].
  - intros trs Hrun. unfold StaticMesh.instance_transform in Hrun.
    rewrite Htd in Hrun. cbn [rbind] in Hrun.
    rewrite Htd_some, Hrot in Hrun. cbn [negb] in Hrun.
    destruct (py_get trs_data "Translation" JNull) as [pos |];
      cbn [rbind] in Hrun; [| discriminate Hrun].
    match type of Hrun with
    | rbind ?r _ = _ => destruct r as [trs0 |]; cbn [rbind] in Hrun;
                        [| discriminate Hrun]
    end.
    rewrite Hrot_some, Hq in Hrun. cbn [rbind negb] in Hrun.
    destruct (py_get trs_data "Scale3D" JNull) as [sc |];
      cbn [rbind] in Hrun; [| discriminate Hrun].
    destruct (negb (is_none sc)).
    + destruct (convert_scale sc) as [s |]; cbn [rbind] in Hrun;
        [| discriminate Hrun].
      injection Hrun as <-. reflexivity.
    + cbn [rbind] in Hrun. injection Hrun as <-. reflexivity.
  - intros Hpos Hscale. unfold StaticMesh.instance_transform.
    rewrite Htd. cbn [rbind]. rewrite Htd_some, Hpos. cbn [rbind negb is_none].
    rewrite Hrot. cbn [rbind]. rewrite Hrot_some, Hq. cbn [rbind negb].
    rewrite Hscale. reflexivity.
Qed.

(** C8.  Let the classifier accept a record of an instanced type that passes
    the early checks, and let element [k] of its [PerInstanceSMData] array
    hold a rotation (W, X, Y, Z) in its transform data.  Then the entity has
    one instance transform per array element, and the one at position [k]
    carries the Euler angles of the quaternion built in the order
    (W, X, Y, Z), with the X and Z angles negated and the Y angle as it is.
    The rotation step never raises, and without translation and scale the
    instance transform is the default one with these angles. *)
Theorem instance_rotation_from_quaternion
    (json_entity : json) (entity_type : string) (sm : StaticMesh.t)
    (items : list json) (k : nat)
    (instance trs_data rot : json) (qw qx qy qz ex ey ez : float) :
  entity_type = "InstancedStaticMeshComponent"
  \/ entity_type = "HierarchicalInstancedStaticMeshComponent" ->
  StaticMesh.__init__ json_entity entity_type = Ok sm ->
  reaches_dispatch sm = true ->
  py_get json_entity "PerInstanceSMData" JNull = Ok (JArr items) ->
  nth_error items k = Some instance ->
  py_get instance "TransformData" JNull = Ok trs_data ->
  py_get trs_data "Rotation" JNull = Ok rot ->
  py_get rot "W" JNull = Ok (JNum qw) ->
  py_get rot "X" JNull = Ok (JNum qx) ->
  py_get rot "Y" JNull = Ok (JNum qy) ->
  py_get rot "Z" JNull = Ok (JNum qz) ->
  Quaternion_to_euler (qw, qx, qy, qz) = (ex, ey, ez) ->
  List.length (StaticMesh.instance_transforms sm) = List.length items
  /\ (exists trs,
        nth_error (StaticMesh.instance_transforms sm) k = Some trs
        /\ StaticMesh.instance_transform instance = Ok trs
        /\ InstanceTransform.rot_euler trs = (- ex, ey, - ez))
  /\ StaticMesh.convert_quaternion rot = Ok (- ex, ey, - ez)
  /\ (py_get trs_data "Translation" JNull = Ok JNull ->
      py_get trs_data "Scale3D" JNull = Ok JNull ->
      nth_error (StaticMesh.instance_transforms sm) k
      = Some (InstanceTransform.set_rot_euler (- ex, ey, - ez) InstanceTransform.__init__)).
Proof.
  intros Hty Hinit Hreach Harr Hk Htd Hrot Hw Hx Hy Hz Heuler.
  destruct (instance_transform_rotation _ _ _ _ _ _ _ _ _ _ Htd Hrot Hw Hx Hy Hz Heuler)
    as [Hq [Hany Hbare]].
  destruct (init_instanced_cases _ _ _ Hty Hinit)
    as [[Hearly _] | [_ [_ [instances [Hget Hcases]]]]].
  { rewrite Hreach in Hearly. discriminate Hearly. }
  rewrite Harr in Hget. injection Hget as <-.
  destruct Hcases as [[Hnone _] | [_ [_ [trs0 [items' [_ [Hiter Hts]]]]]]];
    [discriminate Hnone |].
  simpl in Hiter. injection Hiter as <-.
  destruct (Forall2_nth_left _ _ _ _ _ Hts Hk) as [trs [Hnth Hrun]].
  split; [symmetry; exact (Forall2_length Hts) |].
  split; [exists trs; auto |].
  split; [exact Hq |].
  intros Hpos Hscale. rewrite Hnth. f_equal.
  specialize (Hbare Hpos Hscale). rewrite Hrun in Hbare. now injection Hbare.
Qed.

End ConversionClaims.


Lemma temp_to_color_saturates_witness :
  GameLight.temp_to_color 500 = (4.70366907, 0, 0)%float
  /\ GameLight.temp_to_color 20000 = (0.826270103, 0.994478524, 1.56626022)%float.
Proof.
  split.
  - apply (proj1 (temp_to_color_saturates 500)). reflexivity.
  - apply (proj2 (temp_to_color_saturates 20000)). reflexivity.
Defined.

Lemma instance_rotation_from_quaternion_witness :
  nth_error
    (StaticMesh.instance_transforms
       (classified rec_instanced "InstancedStaticMeshComponent")) 1
  = Some (InstanceTransform.set_rot_euler (- 2, 3, - 4)%float InstanceTransform.__init__).
Proof.
  destruct (@instance_rotation_from_quaternion term_mathutils posix_path
              rec_instanced "InstancedStaticMeshComponent"
              (classified rec_instanced "InstancedStaticMeshComponent")
              [JObj [("TransformData", JObj [("Translation", xyz 100 0 0)])];
               JObj [("TransformData",
                      JObj [("Rotation",
                             JObj [("W", JNum 1); ("X", JNum 2);
                                   ("Y", JNum 3); ("Z", JNum 4)])])]]
              1
              (JObj [("TransformData",
                      JObj [("Rotation",
                             JObj [("W", JNum 1); ("X", JNum 2);
                                   ("Y", JNum 3); ("Z", JNum 4)])])])
              (JObj [("Rotation",
                      JObj [("W", JNum 1); ("X", JNum 2); ("Y", JNum 3); ("Z", JNum 4)])])
              (JObj [("W", JNum 1); ("X", JNum 2); ("Y", JNum 3); ("Z", JNum 4)])
              1%float 2%float 3%float 4%float 2%float 3%float 4%float
              (or_introl eq_refl) eq_refl eq_refl eq_refl eq_refl eq_refl eq_refl
              eq_refl eq_refl eq_refl eq_refl eq_refl)
    as [_ [_ [_ Hbare]]].
  apply Hbare; reflexivity.
Defined.

(** * Further properties *)

Lemma split_period_cons (s : string) : exists h t, split_period s = h :: t.
Proof.
  induction s as [| c rest [h [t IH]]]; simpl.
  - eauto.
  - destruct (Ascii.eqb c "."%char); [eauto |]. rewrite IH. eauto.
Qed.

Lemma split_period_free (s : string) :
  period_free s = true -> split_period s = [s].
Proof.
  induction s as [| c rest IH]; simpl; [reflexivity |].
  intros H. apply andb_prop in H. destruct H as [Hc Hrest].
  apply negb_true_iff in Hc. rewrite Hc, (IH Hrest). reflexivity.
Qed.

Lemma split_period_app (s1 s2 : string) :
  period_free s1 = true ->
  split_period (s1 ++ String "."%char s2)%string = s1 :: split_period s2.
Proof.
  induction s1 as [| c rest IH]; simpl.
  - reflexivity.
  - intros H. apply andb_prop in H. destruct H as [Hc Hrest].
    apply negb_true_iff in Hc. rewrite Hc, (IH Hrest). reflexivity.
Qed.

(** The first part of [s.split(".")] has no period, and [s] is this part
    alone or this part, a period and a rest. *)
Lemma split_period_head (s : string) :
  exists h t,
    split_period s = h :: t
    /\ period_free h = true
    /\ ((t = [] /\ s = h) \/ (t <> [] /\ exists rest, s = (h ++ String "."%char rest)%string)).
Proof.
  induction s as [| c rest [h [t [IH [Hfree Hshape]]]]]; simpl.
  - exists "", []. auto.
  - destruct (Ascii.eqb c "."%char) eqn:Hc.
    + apply Ascii.eqb_eq in Hc. subst c.
      exists "", (split_period rest). split; [reflexivity |]. split; [reflexivity |].
      right. split; [| exists rest; reflexivity].
      destruct (split_period_cons rest) as [h' [t' ->]]. discriminate.
    + rewrite IH. exists (String c h), t. split; [reflexivity |].
      split; [simpl; now rewrite Hc, Hfree |].
      destruct Hshape as [[-> ->] | [Ht [rest' ->]]].
      * left. auto.
      * right. split; [exact Ht |]. exists rest'. reflexivity.
Qed.

Lemma string_prefix_app (p r : string) : String.prefix p (p ++ r)%string = true.
Proof.
  induction p as [| c p IH]; simpl; [now destruct r |].
  destruct (ascii_dec c c) as [_ | Hne]; [exact IH | contradiction].
Qed.

Lemma string_prefix_refl (p : string) : String.prefix p p = true.
Proof.
  induction p as [| c p IH]; simpl; [reflexivity |].
  destruct (ascii_dec c c) as [_ | Hne]; [exact IH | contradiction].
Qed.

(** X1.  On a string [split_object_path] always returns: the result has no
    period, it is the beginning of the path, the path being the result alone
    or the result, a period and a rest; and a second pass changes nothing. *)
Theorem split_object_path_first_part (s : string) :
  exists p,
    split_object_path (JStr s) = Ok p
    /\ period_free p = true
    /\ String.prefix p s = true
    /\ (s = p \/ exists rest, s = (p ++ String "."%char rest)%string)
    /\ split_object_path (JStr p) = Ok p.
Proof.
  destruct (split_period_head s) as [h [t [Hsplit [Hfree Hshape]]]].
  exists h. unfold split_object_path. rewrite Hsplit, (split_period_free h Hfree).
  simpl. destruct Hshape as [[-> ->] | [Ht [rest ->]]].
  - simpl. repeat split; auto using string_prefix_refl.
  - destruct t as [| x t]; [contradiction |]. simpl.
    repeat split; eauto using string_prefix_app.
Qed.

(** X2.  Only the part before the first period is kept: whatever follows it,
    further periods included, is dropped (the source comment expects a
    failure on several periods; the code returns the first part). *)
Theorem split_object_path_drops_after_first_period (s1 s2 : string) :
  period_free s1 = true ->
  split_object_path (JStr (s1 ++ String "."%char s2)%string) = Ok s1.
Proof.
  intros Hfree. unfold split_object_path. rewrite (split_period_app s1 s2 Hfree).
  destruct (split_period_cons s2) as [h [t ->]]. reflexivity.
Qed.

Section TemperatureFacts.
Local Open Scope float_scope.

(** A float below a positive constant is not at or above a constant of a
    greater binade. *)
Lemma below_small_not_above_big (a b T : float) (ma mb : positive) (ea eb : Z) :
  Prim2SF a = S754_finite false ma ea ->
  Prim2SF b = S754_finite false mb eb ->
  (ea < eb)%Z ->
  (T <? a) = true -> (b <=? T) = false.
Proof.
  intros Ha Hb Hlt. rewrite ltb_spec, leb_spec, Ha, Hb.
  unfold SFltb, SFleb, SFcompare.
  destruct (Prim2SF T) as [s | s | | s m e]; try (destruct s); try discriminate;
    try reflexivity.
  destruct (Z.compare_spec e ea) as [E | E | E]; try discriminate; intros _;
    destruct (Z.compare_spec eb e) as [E2 | E2 | E2]; try reflexivity; lia.
Qed.

(** [x < y] excludes [y <= x]. *)
Lemma ltb_not_leb (x y : float) : (x <? y) = true -> (y <=? x) = false.
Proof.
  rewrite ltb_spec, leb_spec. unfold SFltb, SFleb, SFcompare.
  destruct (Prim2SF x) as [s1 | s1 | | s1 m1 e1];
    destruct (Prim2SF y) as [s2 | s2 | | s2 m2 e2];
    try (destruct s1); try (destruct s2); try discriminate; try reflexivity.
  - rewrite (Z.compare_antisym e1 e2).
    destruct (Z.compare e1 e2); simpl; try discriminate; try reflexivity.
    change (PosDef.Pos.compare_cont Eq m2 m1) with (Pos.compare m2 m1).
    change (PosDef.Pos.compare_cont Eq m1 m2) with (Pos.compare m1 m2).
    rewrite (Pos.compare_antisym m1 m2).
    destruct (Pos.compare m1 m2); simpl; try discriminate; reflexivity.
  - rewrite (Z.compare_antisym e1 e2).
    destruct (Z.compare e1 e2); simpl; try discriminate; try reflexivity.
    change (PosDef.Pos.compare_cont Eq m2 m1) with (Pos.compare m2 m1).
    change (PosDef.Pos.compare_cont Eq m1 m2) with (Pos.compare m1 m2).
    rewrite (Pos.compare_antisym m1 m2).
    destruct (Pos.compare m1 m2); simpl; try discriminate; reflexivity.
Qed.

(** [x <= y] excludes [y < x]. *)
Lemma leb_not_ltb (x y : float) : (x <=? y) = true -> (y <? x) = false.
Proof.
  intros H. destruct (y <? x) eqn:E; [| reflexivity].
  apply ltb_not_leb in E. congruence.
Qed.

(** A float between two positive constants is finite and positive. *)
Lemma between_positive_finite (a b T : float) (ma mb : positive) (ea eb : Z) :
  Prim2SF a = S754_finite false ma ea ->
  Prim2SF b = S754_finite false mb eb ->
  (a <=? T) = true -> (T <? b) = true ->
  exists m e, Prim2SF T = S754_finite false m e.
Proof.
  intros Ha Hb. rewrite ltb_spec, leb_spec, Ha, Hb.
  unfold SFltb, SFleb, SFcompare.
  destruct (Prim2SF T) as [s | s | | s m e]; try (destruct s); try discriminate.
  intros _ _. eauto.
Qed.

Lemma zero_mul_positive_finite (T : float) (m : positive) (e : Z) :
  Prim2SF T = S754_finite false m e -> 0 * T = 0.
Proof.
  intros HT. apply Prim2SF_inj. rewrite mul_spec, HT. reflexivity.
Qed.

(** X11.  Between 965 K and 1902 K the blue channel is zero: the three lowest bands
    have a zero row in the blue table. *)
Theorem temp_to_color_no_blue_below_1902 (T : float) :
  (965 <=? T) = true -> (T <? 1902) = true ->
  snd (GameLight.temp_to_color T) = 0.
Proof.
  intros Hlo Hhi.
  destruct (between_positive_finite 965 1902 T _ _ _ _ eq_refl eq_refl Hlo Hhi)
    as [m [e HT]].
  pose proof (zero_mul_positive_finite T m e HT) as Hz.
  unfold GameLight.temp_to_color.
  rewrite (below_small_not_above_big 1902 12000 T _ _ _ _ eq_refl eq_refl eq_refl Hhi).
  rewrite (leb_not_ltb _ _ Hlo).
  rewrite (below_small_not_above_big 1902 6365 T _ _ _ _ eq_refl eq_refl eq_refl Hhi).
  rewrite (below_small_not_above_big 1902 3315 T _ _ _ _ eq_refl eq_refl eq_refl Hhi).
  rewrite (ltb_not_leb _ _ Hhi).
  destruct (1449 <=? T); [| destruct (1167 <=? T)];
    cbn [nth GameLight.color_temp_table_r GameLight.color_temp_table_g
         GameLight.color_temp_table_b snd];
    rewrite Hz; change (0 + 0) with 0; rewrite Hz; change (0 + 0) with 0;
    rewrite Hz; reflexivity.
Qed.

End TemperatureFacts.

Section AxisFacts.

Lemma as_float_numeric (v : json) :
  as_float v = if numeric v then as_float v else Raise TypeError.
Proof. destruct v; reflexivity. Qed.

(** X4.  A position has no default for an axis.  With three axes that are
    binary64 numbers (or booleans) the conversion gives
    (x / 100, y / -100, z / 100); the first axis, in the order [X], [Y],
    [Z], that is absent, [None], a string, an array or a mapping makes it
    raise [TypeError] when the axes before it are such numbers.  A scale
    defaults each absent axis to 1 and never raises. *)
Theorem position_strict_scale_lenient (kvs : list (string * json)) :
  (forall x y z,
      as_float (field kvs "X") = Ok x ->
      as_float (field kvs "Y") = Ok y ->
      as_float (field kvs "Z") = Ok z ->
      convert_position (JObj kvs) = Ok (x / 100, y / -100, z / 100)%float)
  /\ (numeric (field kvs "X") = false ->
      convert_position (JObj kvs) = Raise TypeError)
  /\ (numeric (field kvs "X") = true -> numeric (field kvs "Y") = false ->
      convert_position (JObj kvs) = Raise TypeError)
  /\ (numeric (field kvs "X") = true -> numeric (field kvs "Y") = true ->
      numeric (field kvs "Z") = false ->
      convert_position (JObj kvs) = Raise TypeError)
  /\ convert_scale (JObj kvs)
     = Ok (match dict_lookup "X" kvs with Some v => v | None => JNum 1 end,
           match dict_lookup "Y" kvs with Some v => v | None => JNum 1 end,
           match dict_lookup "Z" kvs with Some v => v | None => JNum 1 end).
Proof.
  unfold convert_position, convert_scale, py_truediv, field. cbn [py_get rbind].
  split; [| split; [| split; [| split; [| reflexivity]]]].
  - intros x y z -> -> ->. reflexivity.
  - intros Hx. rewrite as_float_numeric, Hx. reflexivity.
  - intros Hx Hy. destruct (numeric_as_float _ Hx) as [fx ->]. cbn [rbind].
    rewrite as_float_numeric, Hy. reflexivity.
  - intros Hx Hy Hz.
    destruct (numeric_as_float _ Hx) as [fx ->]. cbn [rbind].
    destruct (numeric_as_float _ Hy) as [fy ->]. cbn [rbind].
    rewrite as_float_numeric, Hz. reflexivity.
Qed.

End AxisFacts.

Section MeshClassification.
Context `{MU : Mathutils} `{OP : OsPath}.

Ltac split_flags :=
  repeat match goal with
    | |- context [if ?b then _ else _] => destruct b
    end.

(** X5.  The checks that return early are exclusive: at most one of [no_entity],
    [no_mesh], [no_path], [base_shape], [not_rendered] and
    [no_per_instance_data] is set; and with one of the first five the entity
    is blank: no advisory flag, no asset path, no transform, no instance. *)
Theorem early_flags_exclusive
    (json_entity : json) (entity_type : string) (sm : StaticMesh.t) :
  StaticMesh.__init__ json_entity entity_type = Ok sm ->
  count_true (early_flags sm) <= 1
  /\ (reaches_dispatch sm = false ->
      StaticMesh.invisible sm = false
      /\ StaticMesh.bad_creation_method sm = false
      /\ StaticMesh.is_instanced sm = false
      /\ StaticMesh.asset_path sm = ""
      /\ StaticMesh.transform sm = None
      /\ StaticMesh.instance_transforms sm = []).
Proof.
  intros Hinit. unfold StaticMesh.__init__ in Hinit. inv_ok.
  all: try (apply instance_loop_ok in Hinit; destruct Hinit as [ts [_ ->]]).
  all: split_flags.
  all: split; [cbv; lia | intros Hr; try discriminate Hr; repeat split; reflexivity].
Qed.

(** X6.  A valid entity of one of the three mesh types has a transform, so that
    [link_object_instance] never fails on the missing attribute; with any
    other type the constructor leaves the transform unset and
    [link_object_instance] raises [AttributeError]. *)
Theorem valid_mesh_has_transform
    (json_entity : json) (entity_type : string) (sm : StaticMesh.t) :
  StaticMesh.__init__ json_entity entity_type = Ok sm ->
  StaticMesh.invalid sm = false ->
  (In entity_type StaticMesh.static_mesh_types ->
   exists trs, StaticMesh.transform sm = Some trs)
  /\ (~ In entity_type StaticMesh.static_mesh_types ->
      forall obj c w,
        StaticMesh.link_object_instance sm obj c w = (Raise AttributeError, w)).
Proof.
  intros Hinit Hv. unfold StaticMesh.__init__ in Hinit. inv_ok.
  all: try (apply instance_loop_ok in Hinit; destruct Hinit as [ts [_ ->]]).
  all: try (exfalso; revert Hv; split_flags; discriminate).
  all: split;
    [ intros Hin
    | intros Hnin obj c w; unfold StaticMesh.link_object_instance; rewrite Hv ].
  all: try (eexists; reflexivity).
  all: try (split_flags; reflexivity).
  all: try (exfalso; apply Hnin; simpl;
            match goal with
            | H : String.eqb _ _ = true |- _ => apply String.eqb_eq in H; subst; auto
            | H : _ || _ = true |- _ =>
                apply orb_prop in H; destruct H as [H | H];
                apply String.eqb_eq in H; subst; auto
            end).
  all: exfalso; destruct Hin as [<- | [<- | [<- | []]]]; simpl in *; discriminate.
Qed.


(** The transform of a classified entity is the one computed from its
    [Properties]. *)
Lemma init_transform_is_base
    (json_entity : json) (entity_type : string) (sm : StaticMesh.t)
    (trs : InstanceTransform.t) :
  StaticMesh.__init__ json_entity entity_type = Ok sm ->
  StaticMesh.transform sm = Some trs ->
  exists props,
    py_get json_entity "Properties" JNull = Ok props
    /\ StaticMesh.base_transform props = Ok trs.
Proof.
  intros Hinit Ht. unfold StaticMesh.__init__ in Hinit. inv_ok.
  all: try (apply instance_loop_ok in Hinit; destruct Hinit as [ts [_ ->]]).
  all: try (exfalso; revert Ht; split_flags; discriminate).
  all: eexists; split; [reflexivity |].
  all: revert Ht; split_flags; cbn; intros Ht; injection Ht as <-; assumption.
Qed.

(** X7.  A record declared as [StaticMeshComponent] is never instanced, whatever
    it holds under [PerInstanceSMData]; when it is valid and its scale is
    numeric it is placed as exactly one object, which carries the location,
    rotation and scale of its transform and is linked to the target
    collection only. *)
Theorem static_mesh_single_placement (json_entity : json) (sm : StaticMesh.t) :
  StaticMesh.__init__ json_entity "StaticMeshComponent" = Ok sm ->
  StaticMesh.is_instanced sm = false
  /\ StaticMesh.instance_transforms sm = []
  /\ StaticMesh.no_per_instance_data sm = false
  /\ (StaticMesh.invalid sm = false ->
      exists trs,
        StaticMesh.transform sm = Some trs
        /\ forall obj c w s,
            vec_of_py (InstanceTransform.scale trs) = Ok s ->
            wf_world w = true -> c < List.length (bpy.collections w) ->
            exists w',
              StaticMesh.link_object_instance sm obj c w
              = (Ok [List.length (bpy.data_objects w)], w')
              /\ bpy.data_objects w'
                 = bpy.data_objects w
                   ++ [single_object obj s (InstanceTransform.pos trs)
                         (InstanceTransform.rot_euler trs)]
              /\ objects_of c w' = objects_of c w ++ [List.length (bpy.data_objects w)]
              /\ forall j, j <> c -> objects_of j w' = objects_of j w).
Proof.
  intros Hinit.
  assert (Hshape : StaticMesh.is_instanced sm = false
                   /\ StaticMesh.instance_transforms sm = []
                   /\ StaticMesh.no_per_instance_data sm = false
                   /\ (StaticMesh.invalid sm = false ->
                       exists trs, StaticMesh.transform sm = Some trs)).
  { unfold StaticMesh.__init__ in Hinit. cbn [String.eqb Ascii.eqb Bool.eqb] in Hinit.
    inv_ok.
    all: split_flags; repeat split; try reflexivity; try discriminate.
    all: intros _; eexists; reflexivity. }
  destruct Hshape as [Hi [Hits [Hpid Htrs]]].
  split; [exact Hi | split; [exact Hits | split; [exact Hpid |]]].
  intros Hv. destruct (Htrs Hv) as [trs Ht]. exists trs. split; [exact Ht |].
  intros obj c w s Hs Hwf Hc. eexists. split; [| split; [| split]].
  - now apply (link_single_run sm obj c trs s w).
  - apply placed_objects.
  - rewrite placed_linked. now rewrite objects_of_link_to_same.
  - intros j Hj. rewrite placed_linked.
    now rewrite objects_of_link_to_other by (intros E; apply Hj; now symmetry).
Qed.

(** X8.  Mesh rotation: the roll is converted to radians as it is, the pitch and
    the yaw are negated first, and the conversion happens in the classifier;
    a mesh that is not instanced is placed with exactly these angles. *)
Theorem mesh_rotation_negates_pitch_and_yaw
    (json_entity props rot : json) (entity_type : string) (roll pitch yaw : float)
    (sm : StaticMesh.t) (trs : InstanceTransform.t) :
  StaticMesh.__init__ json_entity entity_type = Ok sm ->
  StaticMesh.transform sm = Some trs ->
  py_get json_entity "Properties" JNull = Ok props ->
  py_get props "RelativeRotation" JNull = Ok rot ->
  py_get rot "Roll" JNull = Ok (JNum roll) ->
  py_get rot "Pitch" JNull = Ok (JNum pitch) ->
  py_get rot "Yaw" JNull = Ok (JNum yaw) ->
  InstanceTransform.rot_euler trs
  = (roll * degToRad, pitch * -1 * degToRad, yaw * -1 * degToRad)%float
  /\ (StaticMesh.invalid sm = false -> StaticMesh.is_instanced sm = false ->
      forall obj c w s,
        vec_of_py (InstanceTransform.scale trs) = Ok s ->
        wf_world w = true -> c < List.length (bpy.collections w) ->
        option_map bpy.rotation_euler
          (nth_error (bpy.data_objects (snd (StaticMesh.link_object_instance sm obj c w)))
             (List.length (bpy.data_objects w)))
        = Some (Some (roll * degToRad, pitch * -1 * degToRad, yaw * -1 * degToRad)%float)).
Proof.
  intros Hinit Ht Hprops Hrot Hroll Hpitch Hyaw.
  destruct (init_transform_is_base _ _ _ _ Hinit Ht) as [props' [Hprops' Hbase]].
  rewrite Hprops in Hprops'. injection Hprops' as <-.
  assert (Hnone : is_none rot = false)
    by (destruct rot; try discriminate Hroll; reflexivity).
  assert (Hconv : StaticMesh.convert_rotation rot
                  = Ok (roll * degToRad, pitch * -1 * degToRad,
                        yaw * -1 * degToRad)%float).
  { unfold StaticMesh.convert_rotation. rewrite Hroll, Hpitch, Hyaw. reflexivity. }
  assert (Heuler : InstanceTransform.rot_euler trs
                   = (roll * degToRad, pitch * -1 * degToRad,
                      yaw * -1 * degToRad)%float).
  { unfold StaticMesh.base_transform in Hbase.
    destruct (py_get props "RelativeLocation" JNull) as [pos |];
      cbn [rbind] in Hbase; [| discriminate Hbase].
    match type of Hbase with
    | rbind ?r _ = _ => destruct r as [trs0 |]; cbn [rbind] in Hbase;
                        [| discriminate Hbase]
    end.
    rewrite Hrot in Hbase. cbn [rbind] in Hbase.
    rewrite Hnone, Hconv in Hbase. cbn [rbind negb] in Hbase.
    inv_ok; reflexivity. }
  split; [exact Heuler |].
  intros Hv Hi obj c w s Hs Hwf Hc.
  rewrite (link_single_run sm obj c trs s w Hv Ht Hi Hs Hwf Hc). cbn [snd].
  rewrite placed_objects, nth_error_app2 by lia.
  rewrite Nat.sub_diag, <- Heuler. reflexivity.
Qed.

(** X9.  The transforms of a valid instanced entity follow the source array: the
    k-th transform is the one of the k-th element; an element without
    [TransformData] gets the identity transform. *)
Theorem instance_transforms_in_source_order
    (json_entity : json) (entity_type : string) (sm : StaticMesh.t)
    (items : list json) :
  entity_type = "InstancedStaticMeshComponent"
  \/ entity_type = "HierarchicalInstancedStaticMeshComponent" ->
  StaticMesh.__init__ json_entity entity_type = Ok sm ->
  StaticMesh.invalid sm = false ->
  py_get json_entity "PerInstanceSMData" JNull = Ok (JArr items) ->
  Forall2 (fun item trs => StaticMesh.instance_transform item = Ok trs)
    items (StaticMesh.instance_transforms sm)
  /\ (forall k item,
        nth_error items k = Some item ->
        py_get item "TransformData" JNull = Ok JNull ->
        nth_error (StaticMesh.instance_transforms sm) k
        = Some InstanceTransform.__init__).
Proof.
  intros Hty Hinit Hv Harr.
  destruct (init_instanced_cases _ _ _ Hty Hinit)
    as [[_ [Hinv _]] | [_ [_ [instances [Hget Hcases]]]]];
    [rewrite Hinv in Hv; discriminate Hv |].
  rewrite Harr in Hget. injection Hget as <-.
  destruct Hcases as [[Hnone _] | [_ [_ [trs [items' [_ [Hiter Hts]]]]]]];
    [discriminate Hnone |].
  simpl in Hiter. injection Hiter as <-.
  split; [exact Hts |].
  intros k item Hk Htd.
  destruct (Forall2_nth_left _ _ _ _ _ Hts Hk) as [trs' [Hk' Hi]].
  rewrite Hk'. unfold StaticMesh.instance_transform in Hi.
  rewrite Htd in Hi. cbn in Hi. injection Hi as <-. reflexivity.
Qed.

End MeshClassification.

Section MoreMonadFacts.
Context `{MU : Mathutils}.

Lemma bind_raise {A B} (m : M A) (k : A -> M B) (w w' : bpy.World) (e : exn) :
  m w = (Raise e, w') -> bind m k w = (Raise e, w').
Proof. intros E. unfold bind. now rewrite E. Qed.

Lemma bind_lift_raise {A B} (r : result A) (k : A -> M B) (w : bpy.World) (e : exn) :
  r = Raise e -> bind (lift r) k w = (Raise e, w).
Proof. intros ->. reflexivity. Qed.

Lemma bind_assoc {A B C} (m : M A) (f : A -> M B) (g : B -> M C) (w : bpy.World) :
  bind (bind m f) g w = bind m (fun x => bind (f x) g) w.
Proof. unfold bind. destruct (m w) as [[a | e] w']; reflexivity. Qed.

Lemma bind_ret {A B} (a : A) (k : A -> M B) (w : bpy.World) :
  bind (ret a) k w = k a w.
Proof. reflexivity. Qed.

Lemma snd_bind_ret {A B} (m : M A) (b : B) (w : bpy.World) :
  snd (bind m (fun _ => ret b) w) = snd (m w).
Proof. unfold bind. destruct (m w) as [[a | e] w']; reflexivity. Qed.

End MoreMonadFacts.

(** One step of a run: a pure computation that returns or raises. *)
Ltac lift_step :=
  match goal with
  | |- context [bind (lift (Ok ?a)) ?k ?w] =>
      rewrite (bind_lift_ok (Ok a) k w a eq_refl)
  | |- context [bind (lift ?r) ?k ?w] =>
      let E := fresh "E" in
      destruct r eqn:E;
      [ erewrite (bind_lift_ok _ _ _ _ eq_refl)
      | erewrite (bind_lift_raise _ _ _ _ eq_refl); cbn [snd] ]
  end.

Section FrameFacts.
Context `{MU : Mathutils}.

Lemma gained_objects_refl (col : bpy.Collection) : gained_objects col col.
Proof. repeat split. exists []. now rewrite app_nil_r. Qed.

Lemma gained_objects_trans (a b c : bpy.Collection) :
  gained_objects a b -> gained_objects b c -> gained_objects a c.
Proof.
  intros [Hn [Hc [l Hl]]] [Hn' [Hc' [l' Hl']]]. repeat split; try congruence.
  exists (l ++ l'). rewrite Hl', Hl, app_assoc. reflexivity.
Qed.

Lemma Forall2_same {A} (R : A -> A -> Prop) (l : list A) :
  (forall x, R x x) -> Forall2 R l l.
Proof. intros H. induction l; constructor; auto. Qed.

Lemma Forall2_compose {A} (R : A -> A -> Prop) (l1 l2 l3 : list A) :
  (forall x y z, R x y -> R y z -> R x z) ->
  Forall2 R l1 l2 -> Forall2 R l2 l3 -> Forall2 R l1 l3.
Proof.
  intros Ht H12. revert l3. induction H12 as [| x y l1 l2 Hxy H12 IH]; intros l3 H23.
  - inversion H23. constructor.
  - inversion H23 as [| y' z l2' l3' Hyz H23' E1 E2]; subst.
    constructor; eauto.
Qed.

Lemma extends_refl (cs : list nat) (w : bpy.World) : extends cs w w.
Proof.
  repeat split.
  - exists []. now rewrite app_nil_r.
  - exists []. now rewrite app_nil_r.
  - apply Forall2_same, gained_objects_refl.
Qed.

Lemma extends_trans (cs : list nat) (w1 w2 w3 : bpy.World) :
  extends cs w1 w2 -> extends cs w2 w3 -> extends cs w1 w3.
Proof.
  intros [[o1 Ho1] [[l1 Hl1] [Ht1 [Hc1 Hf1]]]] [[o2 Ho2] [[l2 Hl2] [Ht2 [Hc2 Hf2]]]].
  repeat split.
  - exists (o1 ++ o2). rewrite Ho2, Ho1, app_assoc. reflexivity.
  - exists (l1 ++ l2). rewrite Hl2, Hl1, app_assoc. reflexivity.
  - congruence.
  - eapply Forall2_compose; eauto using gained_objects_trans.
  - intros j Hj. rewrite Hf2, Hf1; auto.
Qed.

Lemma extends_weaken (cs cs' : list nat) (w w' : bpy.World) :
  incl cs cs' -> extends cs w w' -> extends cs' w w'.
Proof.
  intros Hincl [Ho [Hl [Ht [Hc Hf]]]].
  split; [exact Ho | split; [exact Hl | split; [exact Ht | split; [exact Hc |]]]].
  intros j Hj. apply Hf. intros Hin. apply Hj, Hincl, Hin.
Qed.

Lemma extends_pending (cs : list nat) (w : bpy.World) (ob : bpy.Object) :
  extends cs w (pending w ob).
Proof.
  repeat split.
  - exists [ob]. reflexivity.
  - exists []. simpl. now rewrite app_nil_r.
  - apply Forall2_same, gained_objects_refl.
Qed.

Lemma extends_with_light (cs : list nat) (w : bpy.World) (l : bpy.Light) :
  extends cs w (with_light l w).
Proof.
  repeat split.
  - exists []. simpl. now rewrite app_nil_r.
  - exists [l]. reflexivity.
  - apply Forall2_same, gained_objects_refl.
Qed.

Lemma link_to_gained (c o : nat) (cols : list bpy.Collection) :
  Forall2 gained_objects cols (link_to c o cols).
Proof.
  unfold link_to. revert c. induction cols as [| col cols IH]; intros [| c]; simpl.
  - constructor.
  - constructor.
  - constructor; [| apply Forall2_same, gained_objects_refl].
    repeat split. exists [o]. reflexivity.
  - constructor; [apply gained_objects_refl | apply IH].
Qed.

Lemma extends_linked (cs : list nat) (c o : nat) (w : bpy.World) :
  In c cs -> extends cs w (linked c o w).
Proof.
  intros Hin. repeat split.
  - exists []. simpl. now rewrite app_nil_r.
  - exists []. simpl. now rewrite app_nil_r.
  - apply link_to_gained.
  - intros j Hj. unfold linked, link_to. simpl. rewrite nth_error_update_nth.
    destruct (Nat.eqb_spec c j); [subst; contradiction | reflexivity].
Qed.

(** [objects_link] links the object or raises and leaves the world. *)
Lemma objects_link_cases (c o : nat) (w : bpy.World) :
  objects_link c o w = (Ok tt, linked c o w)
  \/ exists e, objects_link c o w = (Raise e, w).
Proof.
  unfold objects_link.
  destruct (nth_error (bpy.collections w) c); [| eauto].
  destruct (existsb (Nat.eqb o) (bpy.objects c0)); eauto.
Qed.

Lemma wf_pending (w : bpy.World) (ob : bpy.Object) :
  wf_world w = true -> wf_world (pending w ob) = true.
Proof.
  unfold wf_world, pending. simpl. rewrite !forallb_forall. intros H col Hin.
  eapply collection_ok_mono; [| apply H, Hin]. rewrite length_app. lia.
Qed.

Lemma wf_with_light (w : bpy.World) (l : bpy.Light) :
  wf_world (with_light l w) = wf_world w.
Proof. reflexivity. Qed.

Lemma wf_linked (c o : nat) (w : bpy.World) :
  o < List.length (bpy.data_objects w) ->
  wf_world w = true -> wf_world (linked c o w) = true.
Proof.
  unfold wf_world, linked, link_to. simpl. rewrite !forallb_forall.
  intros Ho Hall col Hin.
  apply In_nth_error in Hin. destruct Hin as [j Hj].
  rewrite nth_error_update_nth in Hj.
  destruct (Nat.eqb c j).
  - destruct (nth_error (bpy.collections w) j) as [col0 |] eqn:E; [| discriminate].
    simpl in Hj. injection Hj as <-.
    unfold collection_ok. simpl. rewrite forallb_app. simpl.
    apply nth_error_In in E. specialize (Hall _ E). unfold collection_ok in Hall.
    rewrite Hall. simpl. rewrite andb_true_r. now apply Nat.ltb_lt.
  - apply Hall. eapply nth_error_In; eauto.
Qed.

Lemma kept_refl (cs : list nat) (w : bpy.World) : kept cs w w.
Proof. split; [apply extends_refl | auto]. Qed.

Lemma kept_trans (cs : list nat) (w1 w2 w3 : bpy.World) :
  kept cs w1 w2 -> kept cs w2 w3 -> kept cs w1 w3.
Proof.
  intros [H1 W1] [H2 W2]. split; [eapply extends_trans; eauto | auto].
Qed.

Lemma kept_pending (cs : list nat) (w : bpy.World) (ob : bpy.Object) :
  kept cs w (pending w ob).
Proof. split; [apply extends_pending | apply wf_pending]. Qed.

Lemma kept_placed (cs : list nat) (c : nat) (w : bpy.World) (ob : bpy.Object) :
  In c cs -> kept cs w (placed ob c w).
Proof.
  intros Hin. split; [| apply wf_placed].
  rewrite placed_linked. eapply extends_trans;
    [apply extends_pending | now apply extends_linked].
Qed.



(** Whatever [link_instances] does, objects are only added, they are linked
    to the target collection only, and no light is created. *)
Lemma link_instances_kept (trs : InstanceTransform.t) (obj : Asset) (c : nat)
    (Is : list InstanceTransform.t) :
  forall (acc : list nat) (w : bpy.World),
    kept [c] w (snd (StaticMesh.link_instances trs obj c Is acc w))
    /\ bpy.data_lights (snd (StaticMesh.link_instances trs obj c Is acc w))
       = bpy.data_lights w.
Proof.
  induction Is as [| I Is IH]; intros acc w.
  - simpl. split; [apply kept_refl | reflexivity].
  - cbn [StaticMesh.link_instances].
    lift_step; [| split; [apply kept_refl | reflexivity]].
    lift_step; [| split; [apply kept_refl | reflexivity]].
    rewrite (bind_ok _ _ _ _ _ (data_objects_new_pending _ _ _)).
    unfold ob_set_rotation_mode, ob_set_matrix_world.
    rewrite !(bind_ok _ _ _ _ _ (update_object_pending _ _ _)).
    match goal with
    | |- context [bind (objects_link c ?n) _ (pending w ?ob)] =>
        destruct (objects_link_cases c n (pending w ob)) as [Hok | [e Hr]]
    end.
    + rewrite (bind_ok _ _ _ _ _ Hok). rewrite <- placed_linked.
      match goal with
      | |- context [StaticMesh.link_instances trs obj c Is ?acc' ?w'] =>
          destruct (IH acc' w') as [Hk Hl]
      end.
      split.
      * eapply kept_trans; [apply kept_placed; simpl; auto | exact Hk].
      * rewrite Hl. reflexivity.
    + rewrite (bind_raise _ _ _ _ _ Hr). cbn [snd].
      split; [apply kept_pending | reflexivity].
Qed.

(** Whatever [link_object_instance] does (return or raise), the objects and
    lights of the scene are kept, new objects are linked to the target
    collection only, and no light is created. *)
Lemma link_object_instance_kept (self : StaticMesh.t) (obj : Asset) (c : nat)
    (w : bpy.World) :
  kept [c] w (snd (StaticMesh.link_object_instance self obj c w))
  /\ bpy.data_lights (snd (StaticMesh.link_object_instance self obj c w))
     = bpy.data_lights w.
Proof.
  unfold StaticMesh.link_object_instance.
  destruct (StaticMesh.invalid self); [split; [apply kept_refl | reflexivity] |].
  destruct (StaticMesh.transform self) as [trs |];
    [| split; [apply kept_refl | reflexivity]].
  destruct (StaticMesh.is_instanced self); [apply link_instances_kept |].
  rewrite (bind_ok _ _ _ _ _ (data_objects_new_pending _ _ _)).
  lift_step; [| split; [apply kept_pending | reflexivity]].
  unfold ob_set_scale, ob_set_location, ob_set_rotation_mode, ob_set_rotation_euler.
  rewrite !(bind_ok _ _ _ _ _ (update_object_pending _ _ _)).
  match goal with
  | |- context [bind (objects_link c ?n) _ (pending w ?ob)] =>
      destruct (objects_link_cases c n (pending w ob)) as [Hok | [e Hr]]
  end.
  - rewrite (bind_ok _ _ _ _ _ Hok). rewrite <- placed_linked. cbn [ret snd].
    split; [apply kept_placed; simpl; auto | reflexivity].
  - rewrite (bind_raise _ _ _ _ _ Hr). cbn [snd].
    split; [apply kept_pending | reflexivity].
Qed.


Lemma data_lights_new_with_light (name kind : string) (w : bpy.World) :
  data_lights_new name kind w
  = (Ok (List.length (bpy.data_lights w)),
     with_light {| bpy.light_name := name; bpy.light_type := kind;
                   bpy.color := None |} w).
Proof. reflexivity. Qed.

Lemma kept_with_light (cs : list nat) (w : bpy.World) (l : bpy.Light) :
  kept cs w (with_light l w).
Proof. split; [apply extends_with_light | auto]. Qed.

Lemma kept_light_pending (cs : list nat) (w : bpy.World) (l : bpy.Light)
    (ob : bpy.Object) :
  kept cs w (pending (with_light l w) ob).
Proof. eapply kept_trans; [apply kept_with_light | apply kept_pending]. Qed.

Lemma kept_linked (cs : list nat) (c o : nat) (w : bpy.World) :
  In c cs -> o < List.length (bpy.data_objects w) -> kept cs w (linked c o w).
Proof.
  intros Hin Ho. split; [now apply extends_linked | now apply wf_linked].
Qed.

(** Whatever [import_light] does, the objects and lights of the scene are
    kept and the new object is linked to the target and the scene collection
    only; the result is [False] exactly for an invalid light, and then the
    scene is untouched. *)
Lemma import_light_kept (self : GameLight.t) (c : nat) (w : bpy.World) :
  kept [c; bpy.scene_collection] w (snd (GameLight.import_light self c w))
  /\ (fst (GameLight.import_light self c w) = Ok false
      <-> GameLight.no_entity self = true)
  /\ (GameLight.no_entity self = true -> snd (GameLight.import_light self c w) = w).
Proof.
  unfold GameLight.import_light.
  destruct (GameLight.no_entity self) eqn:Hne.
  { cbn [ret fst snd]. split; [apply kept_refl | split; [tauto | reflexivity]]. }
  assert (Hfalse : forall r : result bool * bpy.World,
            fst r <> Ok false ->
            (fst r = Ok false <-> false = true) /\ (false = true -> snd r = w)).
  { intros r Hr. split; [split; [contradiction | discriminate] | discriminate]. }
  assert (Hraise : forall e w', kept [c; bpy.scene_collection] w w' ->
            kept [c; bpy.scene_collection] w (snd (@Raise bool e, w'))
            /\ (fst (@Raise bool e, w') = Ok false <-> false = true)
            /\ (false = true -> snd (@Raise bool e, w') = w)).
  { intros e w' Hk. split; [exact Hk | apply Hfalse; discriminate]. }
  destruct (GameLight.as_str (GameLight.entity_name self)) as [name | e] eqn:Hname.
  2:{ destruct (eq_str (GameLight.type self) "SpotLightComponent");
        [| destruct (eq_str (GameLight.type self) "PointLightComponent")].
      - rewrite bind_assoc, (bind_lift_raise _ _ _ _ eq_refl).
        apply Hraise, kept_refl.
      - rewrite bind_assoc, (bind_lift_raise _ _ _ _ eq_refl).
        apply Hraise, kept_refl.
      - rewrite bind_ret. unfold throw. apply Hraise, kept_refl. }
  assert (Hrun : forall kind,
    kept [c; bpy.scene_collection] w
      (snd ((light_data <~ (l <~ data_lights_new name kind ;; ret (Some l)) ;;
             match light_data with
             | None => throw UnboundLocalError
             | Some light_data =>
                 name <~ lift (Ok name) ;;
                 light_obj <~ data_objects_new name (bpy.LightData light_data) ;;
                 s <~ lift (vec_of_py (GameLight.scale self)) ;;
                 _ <~ ob_set_scale light_obj s ;;
                 _ <~ ob_set_location light_obj (GameLight.pos self) ;;
                 _ <~ ob_set_rotation_mode light_obj "XYZ" ;;
                 r <~ lift (GameLight.placement_rotation self) ;;
                 _ <~ ob_set_rotation_euler light_obj r ;;
                 _ <~ light_set_color light_data (GameLight.color self) ;;
                 _ <~ objects_link c light_obj ;;
                 _ <~ objects_link bpy.scene_collection light_obj ;;
                 ret true
             end) w))
    /\ fst ((light_data <~ (l <~ data_lights_new name kind ;; ret (Some l)) ;;
             match light_data with
             | None => throw UnboundLocalError
             | Some light_data =>
                 name <~ lift (Ok name) ;;
                 light_obj <~ data_objects_new name (bpy.LightData light_data) ;;
                 s <~ lift (vec_of_py (GameLight.scale self)) ;;
                 _ <~ ob_set_scale light_obj s ;;
                 _ <~ ob_set_location light_obj (GameLight.pos self) ;;
                 _ <~ ob_set_rotation_mode light_obj "XYZ" ;;
                 r <~ lift (GameLight.placement_rotation self) ;;
                 _ <~ ob_set_rotation_euler light_obj r ;;
                 _ <~ light_set_color light_data (GameLight.color self) ;;
                 _ <~ objects_link c light_obj ;;
                 _ <~ objects_link bpy.scene_collection light_obj ;;
                 ret true
             end) w) <> Ok false).
  { intros kind.
    rewrite bind_assoc, (bind_ok _ _ _ _ _ (data_lights_new_with_light _ _ _)).
    rewrite bind_ret, (bind_lift_ok _ _ _ _ eq_refl).
    rewrite (bind_ok _ _ _ _ _ (data_objects_new_pending _ _ _)).
    lift_step; [| split; [apply kept_light_pending | discriminate]].
    unfold ob_set_scale, ob_set_location, ob_set_rotation_mode, ob_set_rotation_euler.
    rewrite !(bind_ok _ _ _ _ _ (update_object_pending _ _ _)).
    lift_step; [| split; [apply kept_light_pending | discriminate]].
    rewrite !(bind_ok _ _ _ _ _ (update_object_pending _ _ _)).
    rewrite (bind_ok _ _ _ _ _ (light_set_color_pending _ _ _ _)).
    match goal with
    | |- context [bind (objects_link c ?n) _ (pending ?wl ?ob)] =>
        destruct (objects_link_cases c n (pending wl ob)) as [Hok | [e Hr]];
        [ rewrite (bind_ok _ _ _ _ _ Hok)
        | rewrite (bind_raise _ _ _ _ _ Hr); cbn [fst snd];
          split; [apply kept_light_pending | discriminate] ]
    end.
    match goal with
    | |- context [bind (objects_link bpy.scene_collection ?n) _
                    (linked c ?n' (pending ?wl ?ob))] =>
        change (linked c n' (pending wl ob)) with (placed ob c wl);
        assert (Hk1 : kept [c; bpy.scene_collection] w (placed ob c wl))
          by (eapply kept_trans; [apply kept_with_light |];
              apply kept_placed; simpl; auto);
        destruct (objects_link_cases bpy.scene_collection n (placed ob c wl))
          as [Hok2 | [e Hr]];
        [ rewrite (bind_ok _ _ _ _ _ Hok2)
        | rewrite (bind_raise _ _ _ _ _ Hr); cbn [fst snd];
          split; [exact Hk1 | discriminate] ]
    end.
    cbn [ret fst snd]. split; [| discriminate].
    eapply kept_trans; [exact Hk1 |].
    apply kept_linked; [simpl; auto |].
    cbn. rewrite length_app. simpl. lia. }
  destruct (eq_str (GameLight.type self) "SpotLightComponent");
    [| destruct (eq_str (GameLight.type self) "PointLightComponent")].
  - rewrite bind_assoc, (bind_lift_ok _ _ _ _ eq_refl).
    destruct (Hrun "SPOT") as [Hk Hr]. split; [exact Hk | now apply Hfalse].
  - rewrite bind_assoc, (bind_lift_ok _ _ _ _ eq_refl).
    destruct (Hrun "POINT") as [Hk Hr]. split; [exact Hk | now apply Hfalse].
  - rewrite bind_ret. unfold throw. apply Hraise, kept_refl.
Qed.


Lemma kept_weaken (cs cs' : list nat) (w w' : bpy.World) :
  incl cs cs' -> kept cs w w' -> kept cs' w w'.
Proof. intros Hincl [He Hw]. split; [eapply extends_weaken; eauto | exact Hw]. Qed.

End FrameFacts.

Section AssemblerFrame.
Context `{MU : Mathutils} `{OP : OsPath} `{AL : AssetLoader}.

(** One record, whatever it holds and however its processing ends: the
    objects and lights of the scene are kept, and objects are linked to the
    import collection and the scene collection only.  A record of a mesh
    type, moreover, creates no light and links to the import collection
    only. *)
Lemma import_entity_kept (c : nat) (prev : option StaticMesh.t) (entity : json)
    (w : bpy.World) :
  kept [c; bpy.scene_collection] w (snd (MapImporter.import_entity c prev entity w))
  /\ (forall ty,
        py_get entity "Type" JNull = Ok (JStr ty) ->
        In ty StaticMesh.static_mesh_types ->
        kept [c] w (snd (MapImporter.import_entity c prev entity w))
        /\ bpy.data_lights (snd (MapImporter.import_entity c prev entity w))
           = bpy.data_lights w).
Proof.
  assert (Hincl : incl [c] [c; bpy.scene_collection])
    by (intros x [<- | []]; simpl; auto).
  assert (Hsame :
            kept [c; bpy.scene_collection] w w
            /\ (forall ty : string,
                  py_get entity "Type" JNull = Ok (JStr ty) ->
                  In ty StaticMesh.static_mesh_types ->
                  kept [c] w w /\ bpy.data_lights w = bpy.data_lights w)).
  { split; [apply kept_refl |].
    intros ty _ _. split; [apply kept_refl | reflexivity]. }
  unfold MapImporter.import_entity.
  destruct (py_get entity "Type" JNull) as [tyv | e] eqn:Hty;
    [| rewrite (bind_lift_raise _ _ _ _ eq_refl); cbn [snd]; exact Hsame].
  rewrite (bind_lift_ok _ _ _ _ eq_refl).
  destruct (negb (truthy tyv)); [unfold ret; cbn [snd]; exact Hsame |].
  rewrite (bind_lift_ok _ _ _ _ eq_refl).
  destruct (MapImporter.type_in tyv StaticMesh.static_mesh_types) eqn:Hmesh.
  - lift_step; [| exact Hsame].
    destruct (StaticMesh.invalid a); [unfold ret; cbn [snd]; exact Hsame |].
    destruct (_load_asset (StaticMesh.asset_path a)) as [obj |];
      [| unfold ret; cbn [snd]; exact Hsame].
    rewrite snd_bind_ret.
    destruct (link_object_instance_kept a obj c w) as [Hk Hl].
    split; [eapply kept_weaken; eauto | intros ty _ _; split; assumption].
  - assert (Hnot : forall ty, Ok tyv = Ok (JStr ty) ->
                     In ty StaticMesh.static_mesh_types -> False).
    { intros ty Heq Hin. injection Heq as ->.
      destruct (mesh_type_dispatch ty Hin) as [_ Hd]. congruence. }
    assert (Hlight : forall w',
              kept [c; bpy.scene_collection] w w' ->
              kept [c; bpy.scene_collection] w w'
              /\ (forall ty : string,
                    Ok tyv = Ok (JStr ty) ->
                    In ty StaticMesh.static_mesh_types ->
                    kept [c] w w' /\ bpy.data_lights w' = bpy.data_lights w)).
    { intros w' Hk. split; [exact Hk |]. intros ty Heq Hin.
      destruct (Hnot ty Heq Hin). }
    destruct (MapImporter.type_in tyv GameLight.light_types);
      [| unfold ret; cbn [snd]; apply Hlight, kept_refl].
    lift_step; [| apply Hlight, kept_refl].
    destruct (GameLight.invalid a).
    + destruct prev; unfold ret, throw; cbn [snd]; apply Hlight, kept_refl.
    + rewrite snd_bind_ret. apply Hlight.
      apply (import_light_kept a c w).
Qed.

Lemma import_entities_kept (c : nat) (entities : list json) :
  forall (prev : option StaticMesh.t) (w : bpy.World),
    kept [c; bpy.scene_collection] w
      (snd (MapImporter.import_entities c prev entities w)).
Proof.
  induction entities as [| e rest IH]; intros prev w.
  - apply kept_refl.
  - cbn [MapImporter.import_entities].
    pose proof (proj1 (import_entity_kept c prev e w)) as Hk.
    destruct (MapImporter.import_entity c prev e w) as [[sm | ex] w1] eqn:Hrun.
    + rewrite (bind_ok _ _ _ _ _ Hrun).
      eapply kept_trans; [exact Hk | apply IH].
    + rewrite (bind_raise _ _ _ _ _ Hrun). exact Hk.
Qed.

End AssemblerFrame.

Section ImportMapFrame.
Context `{MU : Mathutils} `{OP : OsPath} `{AL : AssetLoader}.

Lemma children_link_cases (c child : nat) (w : bpy.World) :
  children_link c child w = (Ok tt, child_added c child w)
  \/ exists e, children_link c child w = (Raise e, w).
Proof.
  unfold children_link.
  destruct (nth_error (bpy.collections w) c); [| eauto].
  destruct (existsb (Nat.eqb child) (bpy.children c0)); eauto.
Qed.

Lemma data_collections_new_with_collection (name : string) (w : bpy.World) :
  data_collections_new name w
  = (Ok (List.length (bpy.collections w)), with_collection name w).
Proof. reflexivity. Qed.

Lemma wf_child_added (c child : nat) (w : bpy.World) :
  wf_world w = true -> wf_world (child_added c child w) = true.
Proof.
  unfold wf_world, child_added. cbn [bpy.data_objects bpy.collections with_collections].
  rewrite !forallb_forall. intros Hall col Hin.
  apply In_nth_error in Hin. destruct Hin as [j Hj].
  rewrite nth_error_update_nth in Hj.
  destruct (Nat.eqb c j).
  - destruct (nth_error (bpy.collections w) j) as [col0 |] eqn:E; [| discriminate].
    simpl in Hj. injection Hj as <-.
    apply nth_error_In in E. exact (Hall _ E).
  - apply Hall. eapply nth_error_In; eauto.
Qed.

Lemma wf_with_collection (name : string) (w : bpy.World) :
  wf_world w = true -> wf_world (with_collection name w) = true.
Proof.
  unfold wf_world, with_collection.
  cbn [bpy.data_objects bpy.collections with_collections].
  rewrite forallb_app. intros ->. reflexivity.
Qed.

(** The facts about the scene right after [_import_map] has created its
    collection: everything is as before, but for one more collection and,
    possibly, one more child of the scene collection. *)
Lemma opened_facts (name : string) (w ws : bpy.World) :
  bpy.scene_collection < List.length (bpy.collections w) ->
  opened name w ws ->
  bpy.data_objects ws = bpy.data_objects w
  /\ bpy.data_lights ws = bpy.data_lights w
  /\ bpy.timers ws = bpy.timers w
  /\ List.length (bpy.collections ws) = S (List.length (bpy.collections w))
  /\ (forall j, j < List.length (bpy.collections w) ->
        j <> bpy.scene_collection ->
        nth_error (bpy.collections ws) j = nth_error (bpy.collections w) j)
  /\ (forall col,
        nth_error (bpy.collections w) bpy.scene_collection = Some col ->
        exists col',
          nth_error (bpy.collections ws) bpy.scene_collection = Some col'
          /\ bpy.coll_name col' = bpy.coll_name col
          /\ bpy.objects col' = bpy.objects col
          /\ (bpy.children col' = bpy.children col
              \/ bpy.children col'
                 = bpy.children col ++ [List.length (bpy.collections w)]))
  /\ (exists col,
        nth_error (bpy.collections ws) (List.length (bpy.collections w)) = Some col
        /\ bpy.coll_name col = name /\ bpy.children col = [])
  /\ (wf_world w = true -> wf_world ws = true).
Proof.
  intros Hscene [-> | ->].
  - pose proof (wf_with_collection name w) as Hwf'.
    unfold with_collection in *.
    cbn [bpy.data_objects bpy.data_lights bpy.timers bpy.collections with_collections].
    split; [reflexivity | split; [reflexivity | split; [reflexivity |]]].
    split; [rewrite length_app; simpl; lia |].
    split; [intros j Hj _; now rewrite nth_error_app1 |].
    split.
    + intros col Hcol. exists col. rewrite nth_error_app1 by exact Hscene. auto.
    + split; [| exact Hwf'].
      eexists. rewrite nth_error_app2, Nat.sub_diag by lia. simpl. auto.
  - assert (Hwf' : wf_world w = true ->
                   wf_world (child_added bpy.scene_collection
                               (List.length (bpy.collections w))
                               (with_collection name w)) = true)
      by (intros Hwf; apply wf_child_added, wf_with_collection, Hwf).
    unfold child_added, with_collection in *.
    cbn [bpy.data_objects bpy.data_lights bpy.timers bpy.collections with_collections].
    split; [reflexivity | split; [reflexivity | split; [reflexivity |]]].
    split; [rewrite update_nth_length, length_app; simpl; lia |].
    split.
    { intros j Hj Hne. rewrite nth_error_update_nth.
      destruct (Nat.eqb_spec bpy.scene_collection j); [subst; contradiction |].
      now rewrite nth_error_app1. }
    split.
    { intros col Hcol. rewrite nth_error_update_nth, Nat.eqb_refl.
      rewrite nth_error_app1 by exact Hscene.
      rewrite Hcol. simpl. eexists. split; [reflexivity |]. simpl. auto. }
    split.
    { rewrite nth_error_update_nth.
      destruct (Nat.eqb_spec bpy.scene_collection (List.length (bpy.collections w)))
        as [E | E]; [lia |].
      rewrite nth_error_app2, Nat.sub_diag by lia. simpl. eauto. }
    exact Hwf'.
Qed.

Lemma opened_then_kept (name : string) (w ws w' : bpy.World) :
  bpy.scene_collection < List.length (bpy.collections w) ->
  opened name w ws ->
  kept [List.length (bpy.collections w); bpy.scene_collection] ws w' ->
  scene_kept w w' /\ import_collection_of name w w' /\ bpy.timers w' = bpy.timers w.
Proof.
  intros Hscene Hopen [[[objs Hobjs] [[ls Hls] [Ht [Hcols Hframe]]]] Hwf].
  destruct (opened_facts name w ws Hscene Hopen)
    as [Ho [Hl [Hti [Hlen [Hold [Hsc [Hnew Hwfs]]]]]]].
  split; [| split].
  - split; [exists objs; congruence |].
    split; [exists ls; congruence |].
    split.
    { intros j Hj Hne. rewrite Hframe; [now apply Hold |].
      intros [E | [E | []]]; [lia | now symmetry in E]. }
    split; [| auto].
    intros col Hcol. destruct (Hsc col Hcol) as [col1 [H1 [Hn1 [Ho1 Hc1]]]].
    destruct (Forall2_nth_left _ _ _ _ _ Hcols H1) as [col2 [H2 [Hn2 [Hc2 [l Hl2]]]]].
    exists col2. split; [exact H2 |]. split; [congruence |].
    split; [exists l; congruence |]. rewrite Hc2. exact Hc1.
  - split; [rewrite <- (Forall2_length Hcols); exact Hlen |].
    destruct Hnew as [col1 [H1 [Hn1 Hc1]]].
    destruct (Forall2_nth_left _ _ _ _ _ Hcols H1) as [col2 [H2 [Hn2 [Hc2 _]]]].
    exists col2. split; [exact H2 |]. split; congruence.
  - congruence.
Qed.

(** The run of [_import_map] on a file that exists. *)
Lemma import_map_existing (map_path : string) (file : MapImporter.MapFile)
    (w : bpy.World) :
  bpy.scene_collection < List.length (bpy.collections w) ->
  file <> MapImporter.FileMissing ->
  exists ws,
    opened (basename map_path) w ws
    /\ ((exists e w', MapImporter._import_map map_path file w = (Raise e, w')
                      /\ kept [List.length (bpy.collections w); bpy.scene_collection]
                           ws w')
        \/ (exists w',
              MapImporter._import_map map_path file w = (Ok true, with_timers (S (bpy.timers w')) w')
              /\ kept [List.length (bpy.collections w); bpy.scene_collection] ws w')).
Proof.
  intros Hscene Hfile. unfold MapImporter._import_map.
  destruct file as [| e | doc]; [contradiction | |].
  - rewrite (bind_ok _ _ _ _ _ (data_collections_new_with_collection _ _)).
    match goal with
    | |- context [bind (children_link ?c ?n) _ ?w1] =>
        destruct (children_link_cases c n w1) as [Hok | [e' Hr]]
    end.
    + rewrite (bind_ok _ _ _ _ _ Hok). unfold throw.
      eexists. split; [right; reflexivity |].
      left. do 2 eexists. split; [reflexivity | apply kept_refl].
    + rewrite (bind_raise _ _ _ _ _ Hr).
      eexists. split; [left; reflexivity |].
      left. do 2 eexists. split; [reflexivity | apply kept_refl].
  - rewrite (bind_ok _ _ _ _ _ (data_collections_new_with_collection _ _)).
    match goal with
    | |- context [bind (children_link ?c ?n) _ ?w1] =>
        destruct (children_link_cases c n w1) as [Hok | [e' Hr]]
    end.
    + rewrite (bind_ok _ _ _ _ _ Hok).
      eexists. split; [right; reflexivity |].
      lift_step.
      * match goal with
        | |- context [bind (MapImporter.import_entities ?c ?p ?l) _ ?w2] =>
            pose proof (import_entities_kept c l p w2) as Hk;
            destruct (MapImporter.import_entities c p l w2) as [[last | ex] w3] eqn:Hrun
        end.
        -- right. rewrite (bind_ok _ _ _ _ _ Hrun). exists w3. split; [reflexivity | exact Hk].
        -- left. rewrite (bind_raise _ _ _ _ _ Hrun). do 2 eexists.
           split; [reflexivity | exact Hk].
      * left. do 2 eexists. split; [reflexivity | apply kept_refl].
    + rewrite (bind_raise _ _ _ _ _ Hr).
      eexists. split; [left; reflexivity |].
      left. do 2 eexists. split; [reflexivity | apply kept_refl].
Qed.

Lemma scene_kept_refl (w : bpy.World) : scene_kept w w.
Proof.
  split; [exists []; now rewrite app_nil_r |].
  split; [exists []; now rewrite app_nil_r |].
  split; [reflexivity |]. split; [| auto].
  intros col Hcol. exists col. split; [exact Hcol |]. split; [reflexivity |].
  split; [exists []; now rewrite app_nil_r | auto].
Qed.

(** X24.  Whatever the file holds and however the import ends, [_import_map]
    keeps the scene: the objects and lights that were there are still there,
    unchanged; no collection that existed is touched, except the scene
    collection, which keeps its name, gains objects at the end and at most
    the import collection as a child; the scene stays well formed; and when
    the file is missing the scene is exactly as it was. *)
Theorem import_map_keeps_scene (map_path : string) (file : MapImporter.MapFile)
    (w : bpy.World) :
  bpy.scene_collection < List.length (bpy.collections w) ->
  scene_kept w (snd (MapImporter._import_map map_path file w))
  /\ (file = MapImporter.FileMissing ->
      snd (MapImporter._import_map map_path file w) = w).
Proof.
  intros Hscene.
  destruct file as [| e | doc] eqn:Hfile.
  - split; [apply scene_kept_refl | reflexivity].
  - split; [| discriminate].
    destruct (import_map_existing map_path (MapImporter.FileBroken e) w Hscene)
      as [ws [Hopen [[e' [w' [-> Hk]]] | [w' [-> Hk]]]]]; try discriminate;
      apply (opened_then_kept _ _ _ _ Hscene Hopen Hk).
  - split; [| discriminate].
    destruct (import_map_existing map_path (MapImporter.FileJson doc) w Hscene)
      as [ws [Hopen [[e' [w' [-> Hk]]] | [w' [-> Hk]]]]]; try discriminate;
      apply (opened_then_kept _ _ _ _ Hscene Hopen Hk).
Qed.

(** X25.  The library reload is registered exactly when the import returns
    [True]: once then, and never when the call returns [False] or raises. *)
Theorem import_map_reload_iff_true (map_path : string) (file : MapImporter.MapFile)
    (w : bpy.World) :
  bpy.scene_collection < List.length (bpy.collections w) ->
  bpy.timers (snd (MapImporter._import_map map_path file w))
  = match fst (MapImporter._import_map map_path file w) with
    | Ok true => S (bpy.timers w)
    | _ => bpy.timers w
    end.
Proof.
  intros Hscene.
  destruct file as [| e | doc] eqn:Hfile; [reflexivity | |].
  - destruct (import_map_existing map_path (MapImporter.FileBroken e) w Hscene)
      as [ws [Hopen [[e' [w' [-> Hk]]] | [w' [-> Hk]]]]]; try discriminate;
      destruct (opened_then_kept _ _ _ _ Hscene Hopen Hk) as [_ [_ Ht]]; cbn;
      congruence.
  - destruct (import_map_existing map_path (MapImporter.FileJson doc) w Hscene)
      as [ws [Hopen [[e' [w' [-> Hk]]] | [w' [-> Hk]]]]]; try discriminate;
      destruct (opened_then_kept _ _ _ _ Hscene Hopen Hk) as [_ [_ Ht]]; cbn;
      congruence.
Qed.

(** X26.  A file that exists gets its collection even when the import raises
    afterwards: the scene has exactly one more collection, the last one,
    named after the file and without children; a missing file creates none. *)
Theorem import_map_collection (map_path : string) (file : MapImporter.MapFile)
    (w : bpy.World) :
  bpy.scene_collection < List.length (bpy.collections w) ->
  (file = MapImporter.FileMissing ->
   bpy.collections (snd (MapImporter._import_map map_path file w)) = bpy.collections w)
  /\ (file <> MapImporter.FileMissing ->
      import_collection_of (basename map_path) w
        (snd (MapImporter._import_map map_path file w))).
Proof.
  intros Hscene. split; [intros ->; reflexivity |]. intros Hfile.
  destruct (import_map_existing map_path file w Hscene Hfile)
    as [ws [Hopen [[e' [w' [-> Hk]]] | [w' [-> Hk]]]]];
    apply (opened_then_kept _ _ _ _ Hscene Hopen Hk).
Qed.

(** X22.  One record, whatever it holds and however its processing ends, keeps
    the objects and lights of the scene, registers no timer, adds or removes
    no collection, and links objects to the import collection and to the
    scene collection only; the scene stays well formed. *)
Theorem record_keeps_scene (c : nat) (prev : option StaticMesh.t) (entity : json)
    (w : bpy.World) :
  kept [c; bpy.scene_collection] w (snd (MapImporter.import_entity c prev entity w)).
Proof. apply import_entity_kept. Qed.

(** X23.  A record of a mesh type never creates a light and never links anything
    outside the import collection, the scene collection included. *)
Theorem mesh_record_touches_import_collection_only
    (c : nat) (prev : option StaticMesh.t) (entity : json) (ty : string)
    (w : bpy.World) :
  py_get entity "Type" JNull = Ok (JStr ty) ->
  In ty StaticMesh.static_mesh_types ->
  kept [c] w (snd (MapImporter.import_entity c prev entity w))
  /\ bpy.data_lights (snd (MapImporter.import_entity c prev entity w))
     = bpy.data_lights w.
Proof. intros Hty Hin. now apply (proj2 (import_entity_kept c prev entity w) ty). Qed.

End ImportMapFrame.

Section LightOutcome.
Context `{MU : Mathutils}.

(** X17.  [import_light] returns [False] exactly for an invalid light, and then
    leaves the scene untouched; otherwise it returns [True] or raises. *)
Theorem import_light_false_iff_invalid (self : GameLight.t) (c : nat) (w : bpy.World) :
  (fst (GameLight.import_light self c w) = Ok false
   <-> GameLight.invalid self = true)
  /\ (GameLight.invalid self = true -> GameLight.import_light self c w = (Ok false, w)).
Proof.
  destruct (import_light_kept self c w) as [_ [Hiff Hsame]].
  split; [exact Hiff |]. intros Hinv.
  pose proof (proj2 Hiff Hinv) as Hfst. pose proof (Hsame Hinv) as Hsnd.
  destruct (GameLight.import_light self c w) as [r w']. simpl in *. congruence.
Qed.

End LightOutcome.

Section AssemblerDispatch.
Context `{MU : Mathutils} `{OP : OsPath} `{AL : AssetLoader}.

(** X18.  A record without [Type], with an empty or null [Type], or with a [Type]
    that is neither a mesh type nor a light type is passed over: the scene
    and the assembler's state are as before. *)
Theorem unrecognized_record_ignored
    (c : nat) (prev : option StaticMesh.t) (entity ty : json) (w : bpy.World) :
  py_get entity "Type" JNull = Ok ty ->
  truthy ty = false
  \/ (MapImporter.type_in ty StaticMesh.static_mesh_types = false
      /\ MapImporter.type_in ty GameLight.light_types = false) ->
  MapImporter.import_entity c prev entity w = (Ok prev, w).
Proof.
  intros Hty Hcase. unfold MapImporter.import_entity.
  rewrite (bind_lift_ok _ _ _ _ Hty).
  destruct (truthy ty) eqn:Ht; [| reflexivity].
  destruct Hcase as [Hf | [Hm Hl]]; [discriminate Hf |].
  cbn [negb]. rewrite (bind_lift_ok _ _ _ _ Hty), Hm, Hl. reflexivity.
Qed.

(** X20.  A light record without usable [Properties] is invalid; the assembler
    skips it when a mesh record has been classified before and raises
    [UnboundLocalError] otherwise, the scene being untouched either way. *)
Theorem invalid_light_needs_earlier_mesh
    (c : nat) (kvs : list (string * json)) (ty : string) (w : bpy.World) :
  dict_lookup "Type" kvs = Some (JStr ty) ->
  In ty GameLight.light_types ->
  truthy (field kvs "Properties") = false ->
  MapImporter.import_entity c None (JObj kvs) w = (Raise UnboundLocalError, w)
  /\ forall sm,
      MapImporter.import_entity c (Some sm) (JObj kvs) w = (Ok (Some sm), w).
Proof.
  intros Hty Hin Hprops.
  assert (Hget : py_get (JObj kvs) "Type" JNull = Ok (JStr ty))
    by (cbn [py_get]; now rewrite Hty).
  assert (Hd : truthy (JStr ty) = true
               /\ MapImporter.type_in (JStr ty) StaticMesh.static_mesh_types = false
               /\ MapImporter.type_in (JStr ty) GameLight.light_types = true)
    by (destruct Hin as [<- | [<- | []]]; repeat split; reflexivity).
  destruct Hd as [Ht [Hm Hl]].
  assert (Hinit : exists l, GameLight.__init__ (JObj kvs) = Ok l
                            /\ GameLight.invalid l = true).
  { unfold GameLight.__init__. cbn [py_get rbind]. rewrite Hty, Ht. cbn [negb].
    unfold field in Hprops. rewrite Hprops. cbn [negb].
    eexists. split; reflexivity. }
  destruct Hinit as [l [Hinit Hinv]].
  split; [| intros sm]; unfold MapImporter.import_entity;
    rewrite (bind_lift_ok _ _ _ _ Hget), Ht; cbn [negb];
    rewrite (bind_lift_ok _ _ _ _ Hget), Hm, Hl;
    rewrite (bind_lift_ok _ _ _ _ Hinit), Hinv; reflexivity.
Qed.

Lemma contains_nonempty (needle hay : string) :
  needle <> "" -> contains needle hay = true -> hay <> "".
Proof.
  intros Hn Hc ->. destruct needle; [contradiction | discriminate Hc].
Qed.

(** X19.  A mesh record whose [ObjectPath] holds the marker [BasicShapes] is
    classified as a basic shape and skipped: the scene is untouched, and the
    outcome is the same whatever the asset loader would answer. *)
Theorem basic_shape_never_loaded
    (c : nat) (prev : option StaticMesh.t) (kvs : list (string * json))
    (ty path : string) (props mesh : json) (w : bpy.World) :
  dict_lookup "Type" kvs = Some (JStr ty) ->
  In ty StaticMesh.static_mesh_types ->
  field kvs "Properties" = props -> truthy props = true ->
  py_get props "StaticMesh" JNull = Ok mesh -> truthy mesh = true ->
  py_get mesh "ObjectPath" JNull = Ok (JStr path) ->
  contains "BasicShapes" path = true ->
  exists sm,
    StaticMesh.__init__ (JObj kvs) ty = Ok sm
    /\ StaticMesh.base_shape sm = true
    /\ StaticMesh.asset_path sm = ""
    /\ forall loader : AssetLoader,
        @MapImporter.import_entity MU OP loader c prev (JObj kvs) w = (Ok (Some sm), w).
Proof.
  intros Hty Hin Hprops Htp Hmesh Htm Hpath Hbasic.
  assert (Hget : py_get (JObj kvs) "Type" JNull = Ok (JStr ty))
    by (cbn [py_get]; now rewrite Hty).
  assert (Hne : truthy (JStr path) = true).
  { simpl. apply negb_true_iff. apply String.eqb_neq.
    apply (contains_nonempty "BasicShapes"); [discriminate | exact Hbasic]. }
  assert (Hinit : StaticMesh.__init__ (JObj kvs) ty
                  = Ok (StaticMesh.set_base_shape
                          (StaticMesh.fresh
                             (match dict_lookup "Outer" kvs with
                              | Some v => v
                              | None => JStr "Error"
                              end)))).
  { unfold StaticMesh.__init__. cbn [py_get rbind].
    unfold field in Hprops. rewrite Hprops, Htp. cbn [negb].
    rewrite Hmesh. cbn [rbind]. rewrite Htm. cbn [negb rbind].
    rewrite Hpath. cbn [rbind]. rewrite Hne.
    assert (Hes : eq_str (JStr path) "" = false).
    { simpl in Hne. apply negb_true_iff in Hne. exact Hne. }
    rewrite Hes. cbn [negb orb py_in rbind]. rewrite Hbasic. reflexivity. }
  eexists. split; [exact Hinit |]. split; [reflexivity |]. split; [reflexivity |].
  intros loader.
  apply (@import_entity_skips_invalid MU OP loader c prev (JObj kvs) ty);
    [exact Hget | exact Hin | exact Hinit | reflexivity].
Qed.

End AssemblerDispatch.

Section LightClassification.
Context `{MU : Mathutils}.

(** X13.  The colour of a valid light: white without [Temperature], and the
    colour of the temperature otherwise. *)
Theorem light_color_from_temperature
    (json_entity props : json) (self : GameLight.t) :
  GameLight.__init__ json_entity = Ok self ->
  GameLight.invalid self = false ->
  py_get json_entity "Properties" JNull = Ok props ->
  (py_get props "Temperature" JNull = Ok JNull ->
   GameLight.color self = (1, 1, 1)%float)
  /\ (forall T, py_get props "Temperature" JNull = Ok (JNum T) ->
                GameLight.color self = GameLight.temp_to_color T).
Proof.
  intros Hinit Hv Hprops. unfold GameLight.__init__ in Hinit.
  destruct (py_get json_entity "Outer" (JStr "Error")) as [name |];
    [cbn [rbind] in Hinit | discriminate Hinit].
  destruct (py_get json_entity "Type" JNull) as [ty |];
    [cbn [rbind] in Hinit | discriminate Hinit].
  rewrite Hprops in Hinit. cbn [rbind] in Hinit.
  unfold GameLight.invalid in Hv.
  destruct (negb (truthy ty)); [injection Hinit as <-; discriminate Hv |].
  destruct (negb (truthy props)); [injection Hinit as <-; discriminate Hv |].
  split.
  - intros Htemp. rewrite Htemp in Hinit.
    cbn [is_none negb rbind] in Hinit. inv_ok; reflexivity.
  - intros T Htemp. rewrite Htemp in Hinit.
    cbn [is_none negb as_float rbind] in Hinit. inv_ok; reflexivity.
Qed.

(** X15.  An empty [RelativeLocation] or [RelativeScale3D] mapping is absent for a
    light, which keeps its default position and scale, while the mesh
    classifier, which tests for [None] only, raises [TypeError] on an empty
    [RelativeLocation]. *)
Theorem empty_location_light_default_mesh_error (kvs : list (string * json)) :
  dict_lookup "RelativeLocation" kvs = Some (JObj []) ->
  StaticMesh.base_transform (JObj kvs) = Raise TypeError
  /\ forall json_entity self,
      GameLight.__init__ json_entity = Ok self ->
      GameLight.invalid self = false ->
      py_get json_entity "Properties" JNull = Ok (JObj kvs) ->
      GameLight.pos self = (0, 0, 0)%float
      /\ (dict_lookup "RelativeScale3D" kvs = Some (JObj []) ->
          GameLight.scale self = (JNum 1, JNum 1, JNum 1)).
Proof.
  intros Hloc. split.
  - unfold StaticMesh.base_transform. cbn [py_get rbind]. rewrite Hloc. reflexivity.
  - intros json_entity self Hinit Hv Hprops. unfold GameLight.__init__ in Hinit.
    destruct (py_get json_entity "Outer" (JStr "Error")) as [name |];
      [cbn [rbind] in Hinit | discriminate Hinit].
    destruct (py_get json_entity "Type" JNull) as [ty |];
      [cbn [rbind] in Hinit | discriminate Hinit].
    rewrite Hprops in Hinit. cbn [rbind] in Hinit.
    unfold GameLight.invalid in Hv.
    destruct (negb (truthy ty)); [injection Hinit as <-; discriminate Hv |].
    destruct (negb (truthy (JObj kvs))); [injection Hinit as <-; discriminate Hv |].
    cbn [py_get rbind] in Hinit. rewrite Hloc in Hinit. cbn [truthy rbind] in Hinit.
    split.
    + inv_ok; reflexivity.
    + intros Hscale. rewrite Hscale in Hinit. cbn [truthy rbind] in Hinit.
      inv_ok; reflexivity.
Qed.

(** X16.  A successful [import_light] creates one light data block and one object:
    the block has the type [SPOT] or [POINT] of the component and the colour
    of the classified light, and the object holds this block, the position
    of the light, its scale, and the rotation converted to radians. *)
Theorem import_light_creates_block_and_object
    (self : GameLight.t) (c : nat) (w : bpy.World) :
  GameLight.invalid self = false ->
  placeable self = true ->
  wf_world w = true ->
  c < List.length (bpy.collections w) -> c <> bpy.scene_collection ->
  exists name kind s r w',
    GameLight.import_light self c w = (Ok true, w')
    /\ GameLight.entity_name self = JStr name
    /\ (kind = "SPOT" /\ GameLight.type self = JStr "SpotLightComponent"
        \/ kind = "POINT" /\ GameLight.type self = JStr "PointLightComponent")
    /\ bpy.data_lights w'
       = bpy.data_lights w
         ++ [{| bpy.light_name := name; bpy.light_type := kind;
                bpy.color := Some (GameLight.color self) |}]
    /\ bpy.data_objects w'
       = bpy.data_objects w
         ++ [light_object self name (List.length (bpy.data_lights w)) s r]
    /\ vec_of_py (GameLight.scale self) = Ok s
    /\ GameLight.placement_rotation self = Ok r
    /\ bpy.timers w' = bpy.timers w
    /\ List.length (bpy.collections w') = List.length (bpy.collections w).
Proof.
  intros Hv Hp Hwf Hc Hscene.
  destruct (import_light_run self c w Hv Hp Hwf Hc Hscene)
    as [name [kind [s [r [Hname [Hkind [Hs [Hr Hrun]]]]]]]].
  exists name, kind, s, r. eexists. split; [exact Hrun |].
  split; [exact Hname |]. split.
  { unfold light_kind in Hkind.
    destruct (GameLight.type self) as [| | | t | |]; try discriminate Hkind.
    cbn [eq_str] in Hkind.
    destruct (String.eqb t "SpotLightComponent") eqn:Espot.
    - apply String.eqb_eq in Espot. rewrite Espot. injection Hkind as <-. auto.
    - destruct (String.eqb t "PointLightComponent") eqn:Epoint; [| discriminate Hkind].
      apply String.eqb_eq in Epoint. rewrite Epoint. injection Hkind as <-. auto. }
  split; [reflexivity |]. split; [reflexivity |].
  split; [exact Hs |]. split; [exact Hr |]. split; [reflexivity |].
  unfold linked, placed, link_to.
  cbn [bpy.collections with_collections with_objects with_light with_lights].
  now rewrite !update_nth_length.
Qed.

End LightClassification.

Lemma substring_all (s : string) : String.substring 0 (String.length s) s = s.
Proof. induction s as [| c s IH]; simpl; [reflexivity | now rewrite IH]. Qed.

Lemma substring_tail (p : string) :
  String.substring 1 (String.length p - 1) p
  = match p with String _ rest => rest | EmptyString => EmptyString end.
Proof.
  destruct p as [| c rest]; [reflexivity |].
  simpl. rewrite Nat.sub_0_r. apply substring_all.
Qed.

Section AssetPath.
Context `{MU : Mathutils} `{OP : OsPath}.

Ltac split_flags :=
  repeat match goal with
    | |- context [if ?b then _ else _] => destruct b
    end.

(** X3.  The asset path of an entity that passed the early checks depends on the
    [ObjectPath] alone: the part before the first period, with the extension
    [.uasset], normalized, and without its first character when it starts
    with the separator.  Everything after the first period is lost. *)
Theorem asset_path_from_object_path
    (json_entity props mesh : json) (entity_type path : string) (sm : StaticMesh.t) :
  StaticMesh.__init__ json_entity entity_type = Ok sm ->
  reaches_dispatch sm = true ->
  py_get json_entity "Properties" JNull = Ok props ->
  py_get props "StaticMesh" JNull = Ok mesh ->
  py_get mesh "ObjectPath" JNull = Ok (JStr path) ->
  exists first,
    split_object_path (JStr path) = Ok first
    /\ period_free first = true
    /\ String.prefix first path = true
    /\ StaticMesh.asset_path sm = strip_leading sep (normpath (first ++ ".uasset")).
Proof.
  intros Hinit Hreach Hprops Hmesh Hpath.
  assert (Hfirst : exists first,
            split_object_path (JStr path) = Ok first
            /\ period_free first = true /\ String.prefix first path = true).
  { destruct (split_period_head path) as [h [t [Hsp [Hf Hshape]]]].
    exists h. unfold split_object_path. rewrite Hsp.
    destruct Hshape as [[-> ->] | [Hne [rest ->]]].
    - simpl. auto using string_prefix_refl.
    - destruct t as [| x t]; [contradiction |]. simpl.
      auto using string_prefix_app. }
  destruct Hfirst as [first [Hsplit [Hfree Hpre]]].
  exists first. split; [exact Hsplit |]. split; [exact Hfree |]. split; [exact Hpre |].
  unfold StaticMesh.__init__ in Hinit.
  destruct (py_get json_entity "Outer" (JStr "Error")) as [name |];
    [cbn [rbind] in Hinit | discriminate Hinit].
  rewrite Hprops in Hinit. cbn [rbind] in Hinit.
  destruct (negb (truthy props)); [injection Hinit as <-; discriminate Hreach |].
  rewrite Hmesh in Hinit. cbn [rbind] in Hinit.
  destruct (negb (truthy mesh)); [injection Hinit as <-; discriminate Hreach |].
  cbn [rbind] in Hinit. rewrite Hpath in Hinit. cbn [rbind] in Hinit.
  destruct (negb (truthy (JStr path)) || eq_str (JStr path) "");
    [injection Hinit as <-; discriminate Hreach |].
  destruct (py_in "BasicShapes" (JStr path)) as [[|] |];
    cbn [rbind] in Hinit; try discriminate Hinit;
    [injection Hinit as <-; discriminate Hreach |].
  rewrite Hsplit in Hinit.
  unfold strip_leading. rewrite <- substring_tail.
  inv_ok.
  all: try (apply instance_loop_ok in Hinit; destruct Hinit as [ts [_ ->]]).
  all: try discriminate Hreach.
  all: cbn; split_flags; reflexivity.
Qed.

End AssetPath.

Section PlacementErrors.
Context `{MU : Mathutils}.

(** X10.  A scale that is not a number.  A mesh that is not instanced raises
    [TypeError] after its object has been created: the object stays in the
    scene, linked to no collection.  An instanced mesh computes the matrix
    first: the failing instance creates nothing, and the instances before it
    stay placed. *)
Theorem bad_scale_placement
    (self : StaticMesh.t) (obj : Asset) (c : nat) (trs : InstanceTransform.t)
    (e : exn) (w : bpy.World) :
  StaticMesh.invalid self = false ->
  StaticMesh.transform self = Some trs ->
  (StaticMesh.is_instanced self = false ->
   vec_of_py (InstanceTransform.scale trs) = Raise e ->
   StaticMesh.link_object_instance self obj c w
   = (Raise e,
      pending w (new_object (asset_name obj) (bpy.MeshData (asset_data obj)))))
  /\ (StaticMesh.is_instanced self = true ->
      forall mB done mdone bad rest,
        StaticMesh.instance_transforms self = done ++ bad :: rest ->
        InstanceTransform.matrix_4x4 trs = Ok mB ->
        Forall2 (fun I mI => InstanceTransform.matrix_4x4 I = Ok mI) done mdone ->
        InstanceTransform.matrix_4x4 bad = Raise e ->
        wf_world w = true -> c < List.length (bpy.collections w) ->
        StaticMesh.link_object_instance self obj c w
        = (Raise e,
           place_all (map (fun mI => instanced_object obj (matmul mB mI)) mdone) c w)).
Proof.
  intros Hv Ht. split.
  - intros Hi Hs. unfold StaticMesh.link_object_instance. rewrite Hv, Ht, Hi.
    rewrite (bind_ok _ _ _ _ _ (data_objects_new_pending _ _ _)).
    now rewrite (bind_lift_raise _ _ _ _ Hs).
  - intros Hi mB done mdone bad rest Hits HB Hdone Hbad Hwf Hc.
    unfold StaticMesh.link_object_instance. rewrite Hv, Ht, Hi, Hits. clear Hits.
    generalize (@nil nat) as acc. revert w Hwf Hc.
    induction Hdone as [| I mI done mdone HI Hdone IH]; intros w Hwf Hc acc.
    + cbn [app StaticMesh.link_instances map place_all fold_left].
      rewrite (bind_lift_ok _ _ _ _ HB). now rewrite (bind_lift_raise _ _ _ _ Hbad).
    + cbn [app StaticMesh.link_instances].
      rewrite (bind_lift_ok _ _ _ _ HB), (bind_lift_ok _ _ _ _ HI).
      rewrite (bind_ok _ _ _ _ _ (data_objects_new_pending _ _ _)).
      unfold ob_set_rotation_mode, ob_set_matrix_world.
      rewrite !(bind_ok _ _ _ _ _ (update_object_pending _ _ _)).
      rewrite (bind_ok _ _ _ _ _ (objects_link_pending _ _ _ Hwf Hc)).
      rewrite IH; [reflexivity | now apply wf_placed
                  | now rewrite placed_collections_length].
Qed.

End PlacementErrors.

Section LightValidity.

(** X12.  A light is invalid exactly when its [Type] or its [Properties] is
    absent or empty; the constructor then returns at once, with every other
    field at its default. *)
Theorem light_invalid_iff_type_or_properties_missing (kvs : list (string * json)) :
  (truthy (field kvs "Type") && truthy (field kvs "Properties") = false ->
   GameLight.__init__ (JObj kvs)
   = Ok (GameLight.set_no_entity
           (GameLight.fresh
              (match dict_lookup "Outer" kvs with Some v => v | None => JStr "Error" end)
              (field kvs "Type"))))
  /\ (forall self,
        GameLight.__init__ (JObj kvs) = Ok self ->
        GameLight.invalid self
        = negb (truthy (field kvs "Type") && truthy (field kvs "Properties"))).
Proof.
  unfold GameLight.__init__, field. cbn [py_get rbind].
  destruct (truthy match dict_lookup "Type" kvs with Some v => v | None => JNull end).
  - destruct (truthy match dict_lookup "Properties" kvs with
                     | Some v => v | None => JNull end).
    + split; [discriminate |]. cbn [negb andb]. intros self Hinit.
      inv_ok; reflexivity.
    + split; [reflexivity |]. cbn [negb andb]. intros self Hinit.
      injection Hinit as <-. reflexivity.
  - split; [reflexivity |]. cbn [negb andb]. intros self Hinit.
    injection Hinit as <-. reflexivity.
Qed.

(** X14.  The position of a valid light with a [RelativeLocation] of numbers is
    (x/100, -y/100, z/100), as for a mesh. *)
Theorem light_position_in_meters
    (json_entity props pos : json) (x y z : float) (self : GameLight.t) :
  GameLight.__init__ json_entity = Ok self ->
  GameLight.invalid self = false ->
  py_get json_entity "Properties" JNull = Ok props ->
  py_get props "RelativeLocation" JNull = Ok pos ->
  py_get pos "X" JNull = Ok (JNum x) ->
  py_get pos "Y" JNull = Ok (JNum y) ->
  py_get pos "Z" JNull = Ok (JNum z) ->
  GameLight.pos self = (x / 100, - (y / 100), z / 100)%float.
Proof.
  intros Hinit Hv Hprops Hloc Hx Hy Hz.
  assert (Hconv : convert_position pos = Ok (x / 100, - (y / 100), z / 100)%float).
  { unfold convert_position. rewrite Hx, Hy, Hz. simpl. now rewrite div_neg_hundred. }
  assert (Hpos : exists kvs, pos = JObj kvs /\ kvs <> [])
    by (destruct pos as [| | | | | [| kv kvs]]; try discriminate Hx;
        eexists; split; [reflexivity | discriminate]).
  destruct Hpos as [pk [-> Hne]].
  assert (Hprops_dict : exists kvs, props = JObj kvs)
    by (destruct props; try discriminate Hloc; eauto).
  destruct Hprops_dict as [kvs ->].
  assert (Hloc' : py_get (JObj kvs) "RelativeLocation" (JBool false) = Ok (JObj pk)).
  { cbn [py_get] in *. destruct (dict_lookup "RelativeLocation" kvs);
      [exact Hloc | injection Hloc as Hloc; discriminate Hloc]. }
  assert (Htruthy : truthy (JObj pk) = true) by (destruct pk; [contradiction | reflexivity]).
  unfold GameLight.__init__ in Hinit.
  destruct (py_get json_entity "Outer" (JStr "Error")) as [name |];
    [cbn [rbind] in Hinit | discriminate Hinit].
  destruct (py_get json_entity "Type" JNull) as [ty |];
    [cbn [rbind] in Hinit | discriminate Hinit].
  rewrite Hprops in Hinit. cbn [rbind] in Hinit.
  unfold GameLight.invalid in Hv.
  destruct (negb (truthy ty)); [injection Hinit as <-; discriminate Hv |].
  destruct (negb (truthy (JObj kvs))); [injection Hinit as <-; discriminate Hv |].
  rewrite Hloc' in Hinit. cbn [rbind] in Hinit.
  rewrite Htruthy, Hloc in Hinit. cbn [rbind] in Hinit.
  rewrite Hconv in Hinit. cbn [rbind] in Hinit.
  inv_ok; reflexivity.
Qed.

End LightValidity.

Section ImportAbort.
Context `{MU : Mathutils} `{OP : OsPath} `{AL : AssetLoader}.

Lemma bind_ext {A B} (m : M A) (f g : A -> M B) (w : bpy.World) :
  (forall a w', f a w' = g a w') -> bind m f w = bind m g w.
Proof.
  intros H. unfold bind. destruct (m w) as [[a | e] w']; [apply H | reflexivity].
Qed.

(** The loop over a document is the loop over its first records followed
    by the loop over the others. *)
Lemma import_entities_app (c : nat) (l1 l2 : list json) :
  forall (prev : option StaticMesh.t) (w : bpy.World),
    MapImporter.import_entities c prev (l1 ++ l2) w
    = bind (MapImporter.import_entities c prev l1)
        (fun sm => MapImporter.import_entities c sm l2) w.
Proof.
  induction l1 as [| e l1 IH]; intros prev w.
  - reflexivity.
  - cbn [app MapImporter.import_entities]. rewrite bind_assoc.
    apply bind_ext. intros sm w1. apply IH.
Qed.

(** X21.  An exception is not a skip: when a record raises, the records after it
    are not processed, [_import_map] raises the same exception and the
    library reload is not registered. *)
Theorem exception_aborts_import
    (map_path : string) (doc : json) (before rest : list json) (entity : json)
    (w w1 w2 : bpy.World) (sm : option StaticMesh.t) (ex : exn) :
  scene_ok w = true ->
  py_iter doc = Ok (before ++ entity :: rest) ->
  MapImporter.import_entities (List.length (bpy.collections w)) None before
    (with_import_collection (basename map_path) w) = (Ok sm, w1) ->
  MapImporter.import_entity (List.length (bpy.collections w)) sm entity w1
  = (Raise ex, w2) ->
  MapImporter._import_map map_path (MapImporter.FileJson doc) w = (Raise ex, w2)
  /\ bpy.timers w2 = bpy.timers w.
Proof.
  intros Hok Hiter Hbefore Hentity.
  assert (Hrun : MapImporter._import_map map_path (MapImporter.FileJson doc) w
                 = (Raise ex, w2)).
  { unfold MapImporter._import_map.
    pose proof (import_collection_created (basename map_path) w Hok) as Hnew.
    unfold bind in Hnew |- *.
    destruct (data_collections_new (basename map_path) w) as [[ic | e0] w0];
      [| discriminate Hnew].
    destruct (children_link bpy.scene_collection ic w0) as [[[] | e1] w3];
      [| discriminate Hnew].
    unfold ret in Hnew. injection Hnew as -> ->.
    unfold lift. rewrite Hiter.
    pose proof (import_entities_app (List.length (bpy.collections w)) before
                  (entity :: rest) None
                  (with_import_collection (basename map_path) w)) as Happ.
    unfold bind in Happ. rewrite Hbefore in Happ.
    cbn [MapImporter.import_entities] in Happ. unfold bind in Happ.
    rewrite Hentity in Happ. rewrite Happ. reflexivity. }
  split; [exact Hrun |].
  assert (Hscene : bpy.scene_collection < List.length (bpy.collections w)).
  { unfold scene_ok in Hok.
    destruct (nth_error (bpy.collections w) bpy.scene_collection) eqn:E;
      [| discriminate Hok].
    apply nth_error_Some. rewrite E. discriminate. }
  assert (Hfile : MapImporter.FileJson doc <> MapImporter.FileMissing)
    by discriminate.
  destruct (import_map_existing map_path (MapImporter.FileJson doc) w Hscene Hfile)
    as [ws [Hopen [[e' [w' [Hr Hk]]] | [w' [Hr Hk]]]]];
    rewrite Hrun in Hr.
  2: discriminate Hr.
  injection Hr as He Hw. subst w'.
  apply (opened_then_kept _ _ _ _ Hscene Hopen Hk).
Qed.

End ImportAbort.

(** ** Sample runs of the further properties *)

Lemma split_object_path_drops_after_first_period_witness :
  split_object_path (JStr "/Game/v1.2/Rock.Rock") = Ok "/Game/v1".
Proof.
  apply (split_object_path_drops_after_first_period "/Game/v1" "2/Rock.Rock").
  reflexivity.
Defined.

Lemma temp_to_color_no_blue_below_1902_witness :
  snd (GameLight.temp_to_color 1500) = 0%float.
Proof. apply temp_to_color_no_blue_below_1902; reflexivity. Defined.

Lemma position_strict_scale_lenient_witness :
  convert_position (JObj [("Y", JNum 200); ("Z", JNum 300)]) = Raise TypeError
  /\ convert_position (JObj [("X", JNum 100); ("Y", JNum 200); ("Z", JStr "high")])
     = Raise TypeError
  /\ convert_position (JObj [("X", JNum 1); ("Y", JNum 2); ("Z", JNum 3)])
     = Ok (1 / 100, 2 / -100, 3 / 100)%float.
Proof.
  split; [| split].
  - apply (proj1 (proj2 (position_strict_scale_lenient
                           [("Y", JNum 200); ("Z", JNum 300)]))).
    reflexivity.
  - apply (proj1 (proj2 (proj2 (proj2 (position_strict_scale_lenient
                    [("X", JNum 100); ("Y", JNum 200); ("Z", JStr "high")])))));
      reflexivity.
  - apply (proj1 (position_strict_scale_lenient
                    [("X", JNum 1); ("Y", JNum 2); ("Z", JNum 3)]));
      reflexivity.
Defined.

Lemma early_flags_exclusive_witness :
  count_true (early_flags (classified rec_instanced_bare "InstancedStaticMeshComponent"))
  <= 1
  /\ StaticMesh.transform (classified rec_instanced_bare "InstancedStaticMeshComponent")
     = None.
Proof.
  destruct (@early_flags_exclusive term_mathutils posix_path rec_instanced_bare
              "InstancedStaticMeshComponent"
              (classified rec_instanced_bare "InstancedStaticMeshComponent") eq_refl)
    as [Hcount Hblank].
  split; [exact Hcount |]. apply (Hblank eq_refl).
Defined.

Lemma valid_mesh_has_transform_witness :
  exists trs,
    StaticMesh.transform (classified rec_position "StaticMeshComponent") = Some trs.
Proof.
  apply (proj1 (@valid_mesh_has_transform term_mathutils posix_path rec_position
                  "StaticMeshComponent" (classified rec_position "StaticMeshComponent")
                  eq_refl eq_refl)).
  simpl. auto.
Defined.

Lemma static_mesh_single_placement_witness :
  StaticMesh.is_instanced (classified rec_position "StaticMeshComponent") = false
  /\ StaticMesh.instance_transforms (classified rec_position "StaticMeshComponent") = [].
Proof.
  destruct (@static_mesh_single_placement term_mathutils posix_path rec_position
              (classified rec_position "StaticMeshComponent") eq_refl)
    as [Hi [Hits _]].
  split; assumption.
Defined.

Lemma mesh_rotation_negates_pitch_and_yaw_witness :
  option_map InstanceTransform.rot_euler
    (StaticMesh.transform (classified rec_rotated "StaticMeshComponent"))
  = Some (10 * degToRad, 20 * -1 * degToRad, 30 * -1 * degToRad)%float.
Proof.
  change (Some (InstanceTransform.rot_euler
                  {| InstanceTransform.pos := (0, 0, 0)%float;
                     InstanceTransform.rot_euler
                     := (10 * degToRad, 20 * -1 * degToRad, 30 * -1 * degToRad)%float;
                     InstanceTransform.scale := (JNum 1, JNum 1, JNum 1) |})
          = Some (10 * degToRad, 20 * -1 * degToRad, 30 * -1 * degToRad)%float).
  apply (f_equal Some).
  apply (proj1 (@mesh_rotation_negates_pitch_and_yaw term_mathutils posix_path
                  rec_rotated
                  (rock_properties
                     [("RelativeRotation",
                       JObj [("Roll", JNum 10); ("Pitch", JNum 20); ("Yaw", JNum 30)])])
                  (JObj [("Roll", JNum 10); ("Pitch", JNum 20); ("Yaw", JNum 30)])
                  "StaticMeshComponent" 10%float 20%float 30%float
                  (classified rec_rotated "StaticMeshComponent") _
                  eq_refl eq_refl eq_refl eq_refl eq_refl eq_refl eq_refl)).
Defined.

Lemma instance_transforms_in_source_order_witness :
  Forall2 (fun item trs => @StaticMesh.instance_transform term_mathutils item = Ok trs)
    [JObj [("TransformData", JObj [("Translation", xyz 100 0 0)])];
     JObj [("TransformData",
            JObj [("Rotation",
                   JObj [("W", JNum 1); ("X", JNum 2); ("Y", JNum 3); ("Z", JNum 4)])])]]
    (StaticMesh.instance_transforms (classified rec_instanced "InstancedStaticMeshComponent")).
Proof.
  apply (proj1 (@instance_transforms_in_source_order term_mathutils posix_path
                  rec_instanced "InstancedStaticMeshComponent"
                  (classified rec_instanced "InstancedStaticMeshComponent") _
                  (or_introl eq_refl) eq_refl eq_refl eq_refl)).
Defined.

Lemma asset_path_from_object_path_witness :
  exists first,
    split_object_path (JStr "/Game/Meshes/Rock.0") = Ok first
    /\ period_free first = true
    /\ String.prefix first "/Game/Meshes/Rock.0" = true
    /\ StaticMesh.asset_path (classified rec_position "StaticMeshComponent")
       = strip_leading "/" (first ++ ".uasset")%string.
Proof.
  apply (@asset_path_from_object_path term_mathutils posix_path rec_position
           (rock_properties [("RelativeLocation", xyz 100 200 300)])
           (JObj [("ObjectPath", JStr "/Game/Meshes/Rock.0")])
           "StaticMeshComponent" "/Game/Meshes/Rock.0"
           (classified rec_position "StaticMeshComponent")); reflexivity.
Defined.

Lemma bad_scale_placement_witness :
  @StaticMesh.link_object_instance term_mathutils
    (classified rec_bad_scale "StaticMeshComponent") rock_asset 1 import_world
  = (Raise TypeError,
     @pending term_mathutils import_world (new_object "Rock" (bpy.MeshData 0))).
Proof.
  apply (proj1 (@bad_scale_placement term_mathutils
                  (classified rec_bad_scale "StaticMeshComponent") rock_asset 1
                  {| InstanceTransform.pos := (0, 0, 0)%float;
                     InstanceTransform.rot_euler := (0, 0, 0)%float;
                     InstanceTransform.scale := (JStr "big", JNum 1, JNum 1) |}
                  TypeError import_world eq_refl eq_refl)); reflexivity.
Defined.

Lemma basic_shape_never_loaded_witness :
  exists sm,
    @StaticMesh.__init__ term_mathutils posix_path (JObj rec_basic_shape)
      "StaticMeshComponent" = Ok sm
    /\ StaticMesh.base_shape sm = true
    /\ StaticMesh.asset_path sm = ""
    /\ forall loader : AssetLoader,
        @MapImporter.import_entity term_mathutils posix_path loader 1 None
          (JObj rec_basic_shape) import_world
        = (Ok (Some sm), import_world).
Proof.
  apply (@basic_shape_never_loaded term_mathutils posix_path 1 None rec_basic_shape
           "StaticMeshComponent" "/Engine/BasicShapes/Cube.Cube"
           (JObj [("StaticMesh",
                   JObj [("ObjectPath", JStr "/Engine/BasicShapes/Cube.Cube")])])
           (JObj [("ObjectPath", JStr "/Engine/BasicShapes/Cube.Cube")])
           import_world); try reflexivity.
  simpl. auto.
Defined.

Lemma unrecognized_record_ignored_witness :
  @MapImporter.import_entity term_mathutils posix_path loader_all 1 None
    (JObj [("Type", JStr "CameraComponent")]) import_world
  = (Ok None, import_world).
Proof.
  apply (@unrecognized_record_ignored term_mathutils posix_path loader_all 1 None
           (JObj [("Type", JStr "CameraComponent")]) (JStr "CameraComponent")
           import_world eq_refl).
  right. split; reflexivity.
Defined.

Lemma invalid_light_needs_earlier_mesh_witness :
  @MapImporter.import_entity term_mathutils posix_path loader_all 1 None
    rec_light_bare import_world
  = (Raise UnboundLocalError, import_world).
Proof.
  apply (proj1 (@invalid_light_needs_earlier_mesh term_mathutils posix_path loader_all
                  1 [("Type", JStr "PointLightComponent")] "PointLightComponent"
                  import_world eq_refl (or_intror (or_introl eq_refl)) eq_refl)).
Defined.

Lemma light_color_from_temperature_witness :
  GameLight.color (classified_light rec_light) = (1, 1, 1)%float
  /\ GameLight.color (classified_light rec_light_located)
     = GameLight.temp_to_color 20000.
Proof.
  split.
  - apply (proj1 (light_color_from_temperature rec_light
                    (JObj [("RelativeRotation",
                            JObj [("Roll", JNum 10); ("Pitch", JNum 20);
                                  ("Yaw", JNum 30)])])
                    (classified_light rec_light) eq_refl eq_refl eq_refl)).
    reflexivity.
  - apply (proj2 (light_color_from_temperature rec_light_located
                    (JObj [("RelativeLocation", xyz 100 200 300);
                           ("Temperature", JNum 20000)])
                    (classified_light rec_light_located) eq_refl eq_refl eq_refl)).
    reflexivity.
Defined.

Lemma light_position_in_meters_witness :
  GameLight.pos (classified_light rec_light_located)
  = (100 / 100, - (200 / 100), 300 / 100)%float.
Proof.
  apply (light_position_in_meters rec_light_located
           (JObj [("RelativeLocation", xyz 100 200 300); ("Temperature", JNum 20000)])
           (xyz 100 200 300) 100%float 200%float 300%float
           (classified_light rec_light_located)); reflexivity.
Defined.

Lemma empty_location_light_default_mesh_error_witness :
  StaticMesh.base_transform (JObj light_empty_properties) = Raise TypeError
  /\ GameLight.pos (classified_light rec_light_empty) = (0, 0, 0)%float
  /\ GameLight.scale (classified_light rec_light_empty) = (JNum 1, JNum 1, JNum 1).
Proof.
  destruct (empty_location_light_default_mesh_error light_empty_properties eq_refl)
    as [Hmesh Hlight].
  split; [exact Hmesh |].
  destruct (Hlight rec_light_empty (classified_light rec_light_empty)
              eq_refl eq_refl eq_refl) as [Hpos Hscale].
  split; [exact Hpos | exact (Hscale eq_refl)].
Defined.

Lemma import_light_creates_block_and_object_witness :
  exists w' : @bpy.World term_mathutils,
    @GameLight.import_light term_mathutils (classified_light rec_light_located) 1
      import_world = (Ok true, w')
    /\ bpy.data_lights w'
       = [{| bpy.light_name := "Spot"; bpy.light_type := "SPOT";
             bpy.color := Some (GameLight.temp_to_color 20000) |}].
Proof.
  destruct (@import_light_creates_block_and_object term_mathutils
              (classified_light rec_light_located) 1 import_world)
    as [name [kind [s [r [w' [Hrun [Hname [Hkind [Hlights _]]]]]]]]];
    try reflexivity; [simpl; lia | discriminate |].
  exists w'. split; [exact Hrun |]. rewrite Hlights.
  injection Hname as <-.
  destruct Hkind as [[-> _] | [_ Hpoint]]; [reflexivity | discriminate Hpoint].
Defined.

Lemma mesh_record_touches_import_collection_only_witness :
  bpy.data_lights
    (snd (@MapImporter.import_entity term_mathutils posix_path loader_all 1 None
            rec_position import_world))
  = bpy.data_lights (@import_world term_mathutils).
Proof.
  apply (proj2 (@mesh_record_touches_import_collection_only term_mathutils posix_path
                  loader_all 1 None rec_position "StaticMeshComponent" import_world
                  eq_refl (or_introl eq_refl))).
Defined.

Lemma import_map_keeps_scene_witness :
  @scene_kept term_mathutils import_world
    (snd (@MapImporter._import_map term_mathutils posix_path loader_all "map.json"
            (MapImporter.FileJson (JArr [rec_position; rec_light; rec_no_x]))
            import_world)).
Proof.
  apply (proj1 (@import_map_keeps_scene term_mathutils posix_path loader_all "map.json"
                  (MapImporter.FileJson (JArr [rec_position; rec_light; rec_no_x]))
                  import_world (Nat.lt_0_succ 1))).
Defined.

Lemma import_map_reload_iff_true_witness :
  bpy.timers
    (snd (@MapImporter._import_map term_mathutils posix_path loader_all "map.json"
            (MapImporter.FileJson (JArr [rec_position; rec_no_x])) empty_world))
  = 0
  /\ bpy.timers
       (snd (@MapImporter._import_map term_mathutils posix_path loader_all "map.json"
               (MapImporter.FileJson (JArr [rec_position; rec_light])) empty_world))
     = 1.
Proof.
  split.
  - apply (@import_map_reload_iff_true term_mathutils posix_path loader_all "map.json"
             (MapImporter.FileJson (JArr [rec_position; rec_no_x])) empty_world
             (Nat.lt_0_succ 0)).
  - apply (@import_map_reload_iff_true term_mathutils posix_path loader_all "map.json"
             (MapImporter.FileJson (JArr [rec_position; rec_light])) empty_world
             (Nat.lt_0_succ 0)).
Defined.

Lemma import_map_collection_witness :
  @import_collection_of term_mathutils "map.json" empty_world
    (snd (@MapImporter._import_map term_mathutils posix_path loader_all "map.json"
            (MapImporter.FileBroken JSONDecodeError) empty_world)).
Proof.
  apply (proj2 (@import_map_collection term_mathutils posix_path loader_all "map.json"
                  (MapImporter.FileBroken JSONDecodeError) empty_world
                  (Nat.lt_0_succ 0))).
  discriminate.
Defined.

Lemma exception_aborts_import_witness :
  exists w2,
    @MapImporter._import_map term_mathutils posix_path loader_all "map.json"
      (MapImporter.FileJson (JArr [rec_invisible; rec_no_x; rec_position])) empty_world
    = (Raise TypeError, w2)
    /\ bpy.timers w2 = 0
    /\ bpy.data_objects w2 = [].
Proof.
  eexists.
  destruct (@exception_aborts_import term_mathutils posix_path loader_all "map.json"
              (JArr [rec_invisible; rec_no_x; rec_position])
              [rec_invisible] [rec_position] rec_no_x empty_world
              _ _ _ TypeError eq_refl eq_refl eq_refl eq_refl) as [Hrun Ht].
  split; [exact Hrun |]. split; [exact Ht | reflexivity].
Defined.
